(** * The ingestion core of [scripts2/ingest_authoritative_events.py]

    A shallow embedding of [TimelineDataIngester]: the two validators,
    the icon fallback, the per-event unit of work and the batch loop,
    followed by the properties the specification states about them,
    and by the CSV loader and further properties of the same code.

    Python values are an inductive type, dictionaries are finite maps with
    string keys, floats are the kernel's binary64 numbers.  Candidate events
    are objects on a heap, because [ingest_event_with_sources] pops keys out
    of the dictionary it is handed.  The database connection is a pair of
    table sets (committed, and the working copy of the open transaction)
    together with the outcomes the server gives to the next statements. *)

From Stdlib Require Import ZArith Ascii String Floats.PrimFloat Floats.FloatOps Floats.SpecFloat.
From stdpp Require Import base option list gmap strings.

Set Warnings "-register-all,-inexact-float".
Set Default Proof Using "Type".

Local Open Scope string_scope.
Local Open Scope list_scope.
Local Open Scope Z_scope.

(** ** Python values *)

Inductive pyval :=
| VNone
| VBool (b : bool)
| VInt (z : Z)
| VFloat (f : float)
| VStr (s : string)
| VList (l : list pyval)
| VDict (d : gmap string pyval).

Abbreviation pydict := (gmap string pyval).

(** Exceptions the modelled code can meet.  [Psycopg2Error] carries the
    server's message; the others are the builtin exception classes. *)
Inductive exn :=
| Psycopg2Error (e : string)
| TypeError
| ValueError
| OverflowError
| AttributeError
| KeyError.

(** An f-string is kept as its pieces: literal text, and the values that
    Python renders with [str].  Rendering a value of the candidate may
    raise; [py_str] below is the step that does it. *)
Inductive piece :=
| Lit (s : string)
| Fmt (v : pyval).

Abbreviation text := (list piece).

(** ** Control flow: fall through, [return], or a raised exception *)

Inductive flow (R A : Type) :=
| Next (a : A)
| Return (r : R)
| Throw (x : exn).
Arguments Next {R A} a.
Arguments Return {R A} r.
Arguments Throw {R A} x.

#[global] Instance flow_ret {R} : MRet (flow R) := λ A a, Next a.
#[global] Instance flow_bind {R} : MBind (flow R) := λ A B k m,
  match m with
  | Next a => k a
  | Return r => Return r
  | Throw x => Throw x
  end.

(** The result of calling a function whose body is [m]. *)
Inductive res (R : Type) :=
| Ret (r : R)
| Raise (x : exn).
Arguments Ret {R} r.
Arguments Raise {R} x.

Definition call {R} (m : flow R R) : res R :=
  match m with
  | Next r | Return r => Ret r
  | Throw x => Raise x
  end.

(** [if c: return r] *)
Definition return_if {R} (c : bool) (r : R) : flow R unit :=
  if c then Return r else Next tt.

(** [try: x = e  except (TypeError, ValueError): return r] *)
Definition try_value {R A} (e : res A) (r : R) : flow R A :=
  match e with
  | Ret a => Next a
  | Raise TypeError | Raise ValueError => Return r
  | Raise x => Throw x
  end.

(** An expression that may raise, inside a function body. *)
Definition raising {R A} (r : res A) : flow R A :=
  match r with
  | Ret a => Next a
  | Raise x => Throw x
  end.

(** ** Builtins *)

(** [float(s)] and [int(s)] on a string are the interpreter's: any pair of
    partial readers will do, [None] standing for [ValueError].  So is
    [str(v)] on an integer, a list or a dictionary: [str_raises v] is the
    exception it raises there, if any (CPython refuses with [ValueError]
    an integer of more decimal digits than the interpreter's limit, also
    inside a container). *)
Class PyConv := {
  str_to_float : string → option float;
  str_to_int : string → option Z;
  str_raises : pyval → option exn
}.

(** [bool(v)] *)
Definition truthy (v : pyval) : bool :=
  match v with
  | VNone => false
  | VBool b => b
  | VInt z => negb (z =? 0)
  | VFloat f => negb (PrimFloat.eqb f 0)
  | VStr s => negb (String.eqb s "")
  | VList l => negb (Nat.eqb (length l) 0)
  | VDict d => negb (Nat.eqb (size d) 0)
  end.

Definition is_none (v : pyval) : bool :=
  match v with VNone => true | _ => false end.

Definition is_str (v : pyval) : bool :=
  match v with VStr _ => true | _ => false end.

(** [v in l] for a list [l] of string constants *)
Definition in_strs (v : pyval) (l : list string) : bool :=
  match v with
  | VStr s => bool_decide (s ∈ l)
  | _ => false
  end.

(** [k in d] and [d[k]] (the latter read only under a guard [k in d]) *)
Definition key_in (k : string) (d : pydict) : bool :=
  bool_decide (is_Some (d !! k)).

Definition item (d : pydict) (k : string) : pyval :=
  default VNone (d !! k).

(** [d.get(k, dflt)] *)
Definition dict_get (d : pydict) (k : string) (dflt : pyval) : pyval :=
  default dflt (d !! k).

(** The nearest binary64 number to an integer (ties to even), as
    [int.__float__] computes it. *)
Definition Z_to_float (z : Z) : float :=
  SF2Prim (binary_normalize prec emax z 0 false).

(** The integer part of a finite binary64 number, as [float.__int__]. *)
Definition float_trunc (f : float) : res Z :=
  match Prim2SF f with
  | S754_zero _ => Ret 0
  | S754_infinity _ => Raise OverflowError
  | S754_nan => Raise ValueError
  | S754_finite s m e =>
      let a := if 0 <=? e then Z.pos m * 2 ^ e else Z.pos m / 2 ^ (- e) in
      Ret (if s then - a else a)
  end.

Section Builtins.
Context {conv : PyConv}.

(** [float(v)] *)
Definition py_float (v : pyval) : res float :=
  match v with
  | VFloat f => Ret f
  | VInt z =>
      let f := Z_to_float z in
      if PrimFloat.is_infinity f then Raise OverflowError else Ret f
  | VBool b => Ret (if b then 1%float else 0%float)
  | VStr s =>
      match str_to_float s with
      | Some f => Ret f
      | None => Raise ValueError
      end
  | VNone | VList _ | VDict _ => Raise TypeError
  end.

(** [int(v)] *)
Definition py_int (v : pyval) : res Z :=
  match v with
  | VInt z => Ret z
  | VBool b => Ret (if b then 1 else 0)
  | VFloat f => float_trunc f
  | VStr s =>
      match str_to_int s with
      | Some z => Ret z
      | None => Raise ValueError
      end
  | VNone | VList _ | VDict _ => Raise TypeError
  end.

(** [str(v)] as an f-string calls it: the piece it contributes.  On
    [None], a boolean, a float and a string it always succeeds. *)
Definition py_str (v : pyval) : res piece :=
  match v with
  | VInt _ | VList _ | VDict _ =>
      match str_raises v with
      | Some x => Raise x
      | None => Ret (Fmt v)
      end
  | VNone | VBool _ | VFloat _ | VStr _ => Ret (Fmt v)
  end.

(** [str] renders [v]. *)
Definition renders (v : pyval) : bool :=
  match py_str v with
  | Ret _ => true
  | Raise _ => false
  end.

(** The values an f-string renders, from left to right. *)
Fixpoint render_all (vs : list pyval) : res unit :=
  match vs with
  | [] => Ret tt
  | v :: rest =>
      match py_str v with
      | Ret _ => render_all rest
      | Raise x => Raise x
      end
  end.

End Builtins.

(** ** Class constants *)

Definition VALID_SOURCE_TYPES : list string :=
  [ "scientific_paper"; "book"; "article"; "database";
    "expert_consensus"; "wikipedia"; "wikidata"; "other" ].

Definition PRECISION_LEVELS : list string :=
  [ "nanosecond"; "microsecond"; "millisecond"; "second"; "minute";
    "hour"; "day"; "week"; "month"; "year"; "decade"; "century";
    "thousand_years"; "million_years"; "billion_years" ].

(** ** The validators *)

Section Validators.
Context {conv : PyConv}.

(** [validate_source(source, context)] *)
Definition validate_source (source : pyval) (context : text)
  : res (bool * text) :=
  call (
    match source with
    | VDict src =>
        (* At least URL or title required *)
        return_if (negb (key_in "url" src) && negb (key_in "title" src))
          (false, context ++ [Lit ": must have 'url' or 'title'"]);;
        (* Validate source_type if present *)
        (if key_in "source_type" src then
           if negb (in_strs (item src "source_type") VALID_SOURCE_TYPES) then
             source_type ← raising (py_str (item src "source_type"));
             Return (false, context ++ [Lit ": invalid source_type: ";
                                        source_type])
           else mret tt
         else mret tt);;
        (* Validate credibility_score if present *)
        (if key_in "credibility_score" src then
           score ← try_value (py_int (item src "credibility_score"))
                     (false, context ++ [Lit ": credibility_score must be numeric"]);
           return_if ((score <? 0) || (100 <? score))
             (false, context ++ [Lit ": credibility_score must be 0-100"])
         else mret tt);;
        Return (true, [])
    | _ => Return (false, context ++ [Lit " must be a dictionary"])
    end).

(** The loop [for i, source in enumerate(event['sources'])] of
    [validate_event], from index [i] on. *)
Fixpoint validate_sources_from (i : Z) (sources : list pyval)
  : flow (bool * text) unit :=
  match sources with
  | [] => Next tt
  | source :: rest =>
      match validate_source source [Lit "sources["; Fmt (VInt i); Lit "]"] with
      | Ret (valid, msg) =>
          return_if (negb valid) (false, msg);;
          validate_sources_from (i + 1) rest
      | Raise x => Throw x
      end
  end.

(** [validate_event(event)] *)
Definition validate_event (event : pyval) : res (bool * text) :=
  call (
    match event with
    | VDict ev =>
        (* Check required fields *)
        return_if (negb (key_in "title" ev) || negb (truthy (item ev "title")))
          (false, [Lit "Missing required field: title"]);;
        return_if (negb (key_in "unix_seconds" ev))
          (false, [Lit "Missing required field: unix_seconds"]);;
        return_if (negb (key_in "precision_level" ev))
          (false, [Lit "Missing required field: precision_level"]);;
        (* REQUIRE geo coordinates *)
        return_if (negb (key_in "latitude" ev) || is_none (item ev "latitude"))
          (false, [Lit "Missing required field: latitude (all events must have geo point)"]);;
        return_if (negb (key_in "longitude" ev) || is_none (item ev "longitude"))
          (false, [Lit "Missing required field: longitude (all events must have geo point)"]);;
        (* REQUIRE single category *)
        return_if (negb (key_in "category" ev))
          (false, [Lit "Missing required field: category (must be a leaf category)"]);;
        return_if (negb (is_str (item ev "category")))
          (false, [Lit "category must be a string"]);;
        (* Validate latitude/longitude ranges *)
        lat ← try_value (py_float (item ev "latitude"))
                (false, [Lit "latitude must be numeric"]);
        return_if (PrimFloat.ltb lat (-90) || PrimFloat.ltb 90 lat)
          (false, [Lit "latitude must be between -90 and 90"]);;
        lon ← try_value (py_float (item ev "longitude"))
                (false, [Lit "longitude must be numeric"]);
        return_if (PrimFloat.ltb lon (-180) || PrimFloat.ltb 180 lon)
          (false, [Lit "longitude must be between -180 and 180"]);;
        (* Validate precision level *)
        (if negb (in_strs (item ev "precision_level") PRECISION_LEVELS) then
           precision_level ← raising (py_str (item ev "precision_level"));
           Return (false, [Lit "Invalid precision_level: "; precision_level])
         else mret tt);;
        (* Validate unix_seconds is numeric *)
        _ ← try_value (py_int (item ev "unix_seconds"))
              (false, [Lit "unix_seconds must be numeric"]);
        (* Validate importance_score if present *)
        (if key_in "importance_score" ev then
           score ← try_value (py_int (item ev "importance_score"))
                     (false, [Lit "importance_score must be numeric"]);
           return_if ((score <? 0) || (100 <? score))
             (false, [Lit "importance_score must be between 0 and 100"])
         else mret tt);;
        (* Validate sources if present *)
        (if key_in "sources" ev then
           match item ev "sources" with
           | VList sources => validate_sources_from 0 sources
           | _ => Return (false, [Lit "sources must be a list"])
           end
         else mret tt);;
        Return (true, [])
    | _ => Return (false, [Lit "Event must be a dictionary"])
    end).

End Validators.

(** ** Category icons *)

(** [name.rfind('.')], counted from position [i] of the whole name. *)
Fixpoint rfind_dot (s : string) (i : nat) : option nat :=
  match s with
  | EmptyString => None
  | String c rest =>
      match rfind_dot rest (S i) with
      | Some j => Some j
      | None => if Ascii.eqb c "."%char then Some i else None
      end
  end.

(** [PurePath.stem]: the name without its last suffix. *)
Definition path_stem (name : string) : string :=
  match rfind_dot name 0 with
  | Some i =>
      if ((0 <? i) && (i <? String.length name - 1))%nat
      then substring 0 i name
      else name
  | None => name
  end.

(** [fnmatch(name, "*.svg")] *)
Definition is_svg (name : string) : bool :=
  let n := String.length name in
  ((4 <=? n)%nat && String.eqb (substring (n - 4) 4 name) ".svg")%bool.

(** [_load_category_icons()]: [icon_dir] lists the file names of the icon
    directory, in the order [glob] yields them; [None] when the directory
    does not exist. *)
Definition _load_category_icons (icon_dir : option (list string))
  : gmap string string :=
  match icon_dir with
  | Some names =>
      foldl (λ icons icon_file,
               <[path_stem icon_file := "/images/categories/" +:+ icon_file]> icons)
            ∅ (filter (λ n, is_svg n = true) names)
  | None => ∅
  end.

(** ['.' in category] *)
Fixpoint has_dot (s : string) : bool :=
  match s with
  | EmptyString => false
  | String c rest => Ascii.eqb c "."%char || has_dot rest
  end.

(** [category.split('.')[0]] *)
Fixpoint split_dot_0 (s : string) : string :=
  match s with
  | EmptyString => EmptyString
  | String c rest => if Ascii.eqb c "."%char then EmptyString else String c (split_dot_0 rest)
  end.

(** [_get_fallback_image(category)] *)
Definition _get_fallback_image (category_icons : gmap string string)
  (category : string) : option string :=
  if String.eqb category "" then None
  else
    (* Try exact match first *)
    match category_icons !! category with
    | Some icon => Some icon
    | None =>
        (* Try parent category *)
        if has_dot category then
          let parent := split_dot_0 category in
          match category_icons !! parent with
          | Some icon => Some icon
          | None => None
          end
        else None
    end.

(** ** The store *)

(** [str(uuid.uuid4())]: identifiers are drawn from a supply that never
    repeats, here the natural numbers in order. *)
Abbreviation uuid := nat.

(** Rows as the INSERT statements bind them.  The [created_at] and
    [updated_at] columns hold the wall clock and the [geojson] column is
    [json.dumps] of the [lon], [lat] pair; they are left out. *)
Record event_row := {
  ev_id : uuid;
  ev_title : pyval;
  ev_timeline_seconds : Z;
  ev_unix_seconds : Z;
  ev_unix_nanos : Z;
  ev_precision_level : pyval;
  ev_description : pyval;
  ev_category : pyval;
  ev_image_url : pyval;
  ev_importance_score : Z;
  ev_uncertainty_range : pyval;
  ev_created_by_user_id : option string
}.

Record source_row := {
  src_id : uuid;
  src_event_id : uuid;
  src_source_type : pyval;
  src_title : pyval;
  src_url : pyval;
  src_citation : pyval;
  src_credibility_score : Z;
  src_added_by_user_id : option string
}.

Record location_row := {
  loc_id : uuid;
  loc_event_id : uuid;
  loc_location_name : pyval;
  loc_location_type : string;
  loc_lat : pyval;
  loc_lon : pyval;
  loc_is_primary : bool
}.

Record tables := {
  events : list event_row;
  event_sources : list source_row;
  event_locations : list location_row
}.

(** The connection: the [categories] table (only read), the committed
    tables, the tables as the open transaction sees them, and what the
    server answers to the next statements ([Some e]: the statement raises
    [psycopg2.Error(e)]; once the list is used up every statement
    succeeds).  It is an open connection: [cursor()], [cursor.close()] and
    [rollback()] succeed on it. *)
Record connection := {
  categories : list string;
  committed : tables;
  working : tables;
  outcomes : list (option string)
}.

Record statistics := {
  events_created : Z;
  sources_created : Z;
  events_skipped : Z;
  image_urls_replaced : Z;
  errors : list text
}.

(** The ingester's attributes ([dry_run], [category_icons], [stats],
    [conn]), the heap of candidate-event objects and the identifier
    supply. *)
Record world := {
  dry_run : bool;
  category_icons : gmap string string;
  stats : statistics;
  conn : connection;
  heap : gmap nat pyval;
  next_uuid : uuid
}.

Definition with_stats (f : statistics → statistics) (w : world) : world :=
  {| dry_run := dry_run w; category_icons := category_icons w;
     stats := f (stats w); conn := conn w; heap := heap w;
     next_uuid := next_uuid w |}.

Definition with_conn (f : connection → connection) (w : world) : world :=
  {| dry_run := dry_run w; category_icons := category_icons w;
     stats := stats w; conn := f (conn w); heap := heap w;
     next_uuid := next_uuid w |}.

Definition with_heap (f : gmap nat pyval → gmap nat pyval) (w : world) : world :=
  {| dry_run := dry_run w; category_icons := category_icons w;
     stats := stats w; conn := conn w; heap := f (heap w);
     next_uuid := next_uuid w |}.

Definition with_next_uuid (n : uuid) (w : world) : world :=
  {| dry_run := dry_run w; category_icons := category_icons w;
     stats := stats w; conn := conn w; heap := heap w;
     next_uuid := n |}.

Definition with_working (f : tables → tables) (c : connection) : connection :=
  {| categories := categories c; committed := committed c;
     working := f (working c); outcomes := outcomes c |}.

Definition with_outcomes (o : list (option string)) (c : connection) : connection :=
  {| categories := categories c; committed := committed c;
     working := working c; outcomes := o |}.

Definition add_event (r : event_row) (t : tables) : tables :=
  {| events := events t ++ [r]; event_sources := event_sources t;
     event_locations := event_locations t |}.

Definition add_source (r : source_row) (t : tables) : tables :=
  {| events := events t; event_sources := event_sources t ++ [r];
     event_locations := event_locations t |}.

Definition add_location (r : location_row) (t : tables) : tables :=
  {| events := events t; event_sources := event_sources t;
     event_locations := event_locations t ++ [r] |}.

(** ** Stateful code *)

Definition M (R A : Type) : Type := world → flow R A * world.

#[global] Instance M_ret {R} : MRet (M R) := λ A a w, (Next a, w).
#[global] Instance M_bind {R} : MBind (M R) := λ A B k m w,
  match m w with
  | (Next a, w') => k a w'
  | (Return r, w') => (Return r, w')
  | (Throw x, w') => (Throw x, w')
  end.

Definition call_m {R} (m : M R R) (w : world) : res R * world :=
  match m w with
  | (Next r, w') | (Return r, w') => (Ret r, w')
  | (Throw x, w') => (Raise x, w')
  end.

Definition return_now {R A} (r : R) : M R A := λ w, (Return r, w).
Definition throw {R A} (x : exn) : M R A := λ w, (Throw x, w).
Definition gets {R A} (f : world → A) : M R A := λ w, (Next (f w), w).
Definition modify {R} (f : world → world) : M R unit := λ w, (Next tt, f w).

(** [if c: body] *)
Definition if_then {R} (c : bool) (body : M R unit) : M R unit :=
  if c then body else mret tt.

Definition lift {R A} (r : res A) : M R A :=
  match r with
  | Ret a => mret a
  | Raise x => throw x
  end.

(** [try: body  except psycopg2.Error as e: handler(e)] *)
Definition try_except_psycopg2 {R A} (body : M R A) (handler : string → M R A)
  : M R A := λ w,
  match body w with
  | (Throw (Psycopg2Error e), w') => handler e w'
  | other => other
  end.

(** [try: body  finally: final]: [final] runs however [body] ends, and what
    it raises or returns takes the place of the outcome of [body]. *)
Definition try_finally {R A} (body : M R A) (final : M R unit) : M R A := λ w,
  match body w with
  | (o, w') =>
      match final w' with
      | (Next _, w'') => (o, w'')
      | (Return r, w'') => (Return r, w'')
      | (Throw x, w'') => (Throw x, w'')
      end
  end.

(** [self.conn.cursor()] and [cursor.close()], on an open connection. *)
Definition cursor {R} : M R unit := mret tt.
Definition cursor_close {R} : M R unit := mret tt.

Definition uuid4 {R} : M R uuid := λ w,
  (Next (next_uuid w), with_next_uuid (S (next_uuid w)) w).

(** One statement sent to the server. *)
Definition server_answer {R} : M R unit := λ w,
  match outcomes (conn w) with
  | [] => (Next tt, w)
  | None :: rest => (Next tt, with_conn (with_outcomes rest) w)
  | Some e :: rest => (Throw (Psycopg2Error e), with_conn (with_outcomes rest) w)
  end.

(** [cursor.execute("SELECT id FROM categories WHERE id = %s", (category,))]
    followed by [cursor.fetchone()] *)
Definition select_category {R} (category : pyval) : M R bool :=
  server_answer;;
  c ← gets conn;
  mret (in_strs category (categories c)).

Definition execute_insert {R} (ins : tables → tables) : M R unit :=
  server_answer;;
  modify (with_conn (with_working ins)).

(** [self.conn.commit()] *)
Definition commit {R} : M R unit :=
  server_answer;;
  modify (with_conn (λ c,
    {| categories := categories c; committed := working c;
       working := working c; outcomes := outcomes c |})).

(** [self.conn.rollback()] *)
Definition rollback {R} : M R unit :=
  modify (with_conn (λ c,
    {| categories := categories c; committed := committed c;
       working := committed c; outcomes := outcomes c |})).

(** Reads and [pop] on the dictionary object at [o]. *)
Definition deref {R} (o : nat) : M R pyval :=
  gets (λ w, default VNone (heap w !! o)).

Definition obj_pop {R} (o : nat) (k : string) (dflt : pyval) : M R pyval :=
  v ← deref o;
  match v with
  | VDict d =>
      modify (with_heap (<[o := VDict (delete k d)]>));;
      mret (dict_get d k dflt)
  | _ => throw AttributeError
  end.

Definition obj_get {R} (o : nat) (k : string) (dflt : pyval) : M R pyval :=
  v ← deref o;
  match v with
  | VDict d => mret (dict_get d k dflt)
  | _ => throw AttributeError
  end.

Definition obj_item {R} (o : nat) (k : string) : M R pyval :=
  v ← deref o;
  match v with
  | VDict d =>
      match d !! k with
      | Some x => mret x
      | None => throw KeyError
      end
  | _ => throw TypeError
  end.

(** [source.get(k, dflt)] on a value *)
Definition val_get {R} (v : pyval) (k : string) (dflt : pyval) : M R pyval :=
  match v with
  | VDict d => mret (dict_get d k dflt)
  | _ => throw AttributeError
  end.

Definition incr_events_created (s : statistics) : statistics :=
  {| events_created := events_created s + 1; sources_created := sources_created s;
     events_skipped := events_skipped s; image_urls_replaced := image_urls_replaced s;
     errors := errors s |}.

Definition incr_sources_created (s : statistics) : statistics :=
  {| events_created := events_created s; sources_created := sources_created s + 1;
     events_skipped := events_skipped s; image_urls_replaced := image_urls_replaced s;
     errors := errors s |}.

Definition incr_events_skipped (s : statistics) : statistics :=
  {| events_created := events_created s; sources_created := sources_created s;
     events_skipped := events_skipped s + 1; image_urls_replaced := image_urls_replaced s;
     errors := errors s |}.

Definition incr_image_urls_replaced (s : statistics) : statistics :=
  {| events_created := events_created s; sources_created := sources_created s;
     events_skipped := events_skipped s; image_urls_replaced := image_urls_replaced s + 1;
     errors := errors s |}.

Definition append_error (e : text) (s : statistics) : statistics :=
  {| events_created := events_created s; sources_created := sources_created s;
     events_skipped := events_skipped s; image_urls_replaced := image_urls_replaced s;
     errors := errors s ++ [e] |}.

(** ** The ingestion engine *)

(** What [ingest_event_with_sources] returns: (success, message, event_id). *)
Abbreviation outcome := (bool * text * option uuid)%type.

Section Ingest.
Context {conv : PyConv}.

(** A call of [logger.info] or [logger.warning] whose f-string renders the
    values [vs] of the candidate, in this order, besides strings, counts and
    identifiers of the program's own.  The f-string is evaluated before the
    call; the record goes to the log, which is not part of the state. *)
Definition logger {R} (vs : list pyval) : M R unit :=
  lift (render_all vs).

(** The loop [for source in sources] of [ingest_event_with_sources]. *)
Fixpoint insert_sources {R} (event : nat) (event_id : uuid)
  (user_id : option string)
  (sources : list pyval) (source_ids : list uuid) : M R (list uuid) :=
  match sources with
  | [] => mret source_ids
  | source :: rest =>
      '(source_valid, source_msg) ← lift (validate_source source [Lit "source"]);
      if negb source_valid then
        (* logger.warning(f"Skipping invalid source for {event['title']}:
           {source_msg}"); continue *)
        title ← obj_item event "title";
        logger [title];;
        insert_sources event event_id user_id rest source_ids
      else
        source_id ← uuid4;
        source_type ← val_get source "source_type" (VStr "other");
        title ← val_get source "title" VNone;
        url ← val_get source "url" VNone;
        citation ← val_get source "citation" VNone;
        credibility_score ← val_get source "credibility_score" (VInt 50);
        credibility_score ← lift (py_int credibility_score);
        execute_insert (add_source
          {| src_id := source_id; src_event_id := event_id;
             src_source_type := source_type; src_title := title;
             src_url := url; src_citation := citation;
             src_credibility_score := credibility_score;
             src_added_by_user_id := user_id |});;
        modify (with_stats incr_sources_created);;
        insert_sources event event_id user_id rest (source_ids ++ [source_id])
  end.

(** The [try] block of [ingest_event_with_sources]. *)
Definition unit_of_work (event : nat) (user_id : option string)
  : M outcome outcome :=
  cursor;;
  event_id ← uuid4;
  (* Extract sources, category, and location data before creating event *)
  sources ← obj_pop event "sources" (VList []);
  category ← obj_pop event "category" VNone;
  latitude ← obj_pop event "latitude" VNone;
  longitude ← obj_pop event "longitude" VNone;
  location_name ← obj_pop event "location_name" VNone;
  (* Verify category exists in database *)
  found ← select_category category;
  if_then (negb found) (
     modify (with_stats incr_events_skipped);;
     category ← lift (py_str category);
     return_now (false, [Lit "Category '"; category;
                         Lit "' not found in database"], None));;
  (* Check and fix image_url (use category for fallback) *)
  image_url ← obj_get event "image_url" VNone;
  image_url ←
    (if truthy image_url then mret image_url
     else
       icons ← gets category_icons;
       fallback ← match category with
                  | VStr c => mret (_get_fallback_image icons c)
                  | _ => throw TypeError
                  end;
       match fallback with
       | Some icon =>
           if negb (String.eqb icon "") then
             (* logger.info(f"No image_url provided, using category icon:
                {fallback}"), which renders a string *)
             modify (with_stats incr_image_urls_replaced);;
             mret (VStr icon)
           else mret image_url
       | None => mret image_url
       end);
  (* Prepare event data *)
  unix_seconds ← obj_item event "unix_seconds";
  unix_seconds ← lift (py_int unix_seconds);
  title ← obj_item event "title";
  unix_nanos ← obj_get event "unix_nanos" (VInt 0);
  unix_nanos ← lift (py_int unix_nanos);
  precision_level ← obj_item event "precision_level";
  description ← obj_get event "description" VNone;
  importance_score ← obj_get event "importance_score" (VInt 50);
  importance_score ← lift (py_int importance_score);
  uncertainty_range ← obj_get event "uncertainty_range" VNone;
  (* Insert event *)
  execute_insert (add_event
    {| ev_id := event_id; ev_title := title;
       ev_timeline_seconds := unix_seconds; ev_unix_seconds := unix_seconds;
       ev_unix_nanos := unix_nanos; ev_precision_level := precision_level;
       ev_description := description; ev_category := category;
       ev_image_url := image_url; ev_importance_score := importance_score;
       ev_uncertainty_range := uncertainty_range;
       ev_created_by_user_id := user_id |});;
  modify (with_stats incr_events_created);;
  (* logger.info(f"Created event: {event['title']} (ID: {event_id})") *)
  title ← obj_item event "title";
  logger [title];;
  (* Insert sources *)
  source_ids ← match sources with
               | VList l => insert_sources event event_id user_id l []
               | _ => throw TypeError
               end;
  (* logger.info(f"Created {len(source_ids)} sources for event {event_id}"),
     which renders a count and an identifier *)
  (* Insert location if provided *)
  if_then (negb (is_none latitude) && negb (is_none longitude)) (
     location_id ← uuid4;
     execute_insert (add_location
       {| loc_id := location_id; loc_event_id := event_id;
          loc_location_name :=
            (if truthy location_name then location_name else VStr "Unknown");
          loc_location_type := "primary";
          loc_lat := latitude; loc_lon := longitude;
          loc_is_primary := true |});;
     (* logger.info(f"Created location for event {event_id}:
        {location_name} ({latitude}, {longitude})") *)
     logger [location_name; latitude; longitude]);;
  commit;;
  return_now (true, [Lit "Created event with ";
                     Fmt (VInt (Z.of_nat (length source_ids)));
                     Lit " sources"], Some event_id).

(** The [except psycopg2.Error as e] clause. *)
Definition on_database_error (e : string) : M outcome outcome :=
  rollback;;
  modify (with_stats incr_events_skipped);;
  let error_msg := [Lit "Database error: "; Lit e] in
  modify (with_stats (append_error error_msg));;
  return_now (false, error_msg, None).

(** [ingest_event_with_sources(event, user_id)]; [event] is the address of
    the candidate's dictionary. *)
Definition ingest_event_with_sources (event : nat) (user_id : option string)
  : world → res outcome * world :=
  call_m (
    (* Validate event *)
    ev ← deref event;
    '(valid, msg) ← lift (validate_event ev);
    if_then (negb valid) (
       modify (with_stats incr_events_skipped);;
       return_now (false, Lit "Event validation failed: " :: msg, None));;
    dry ← gets dry_run;
    if_then dry (
       (* logger.info(f"[DRY RUN] Would create event: {event['title']}") *)
       title ← obj_item event "title";
       logger [title];;
       event_id ← uuid4;
       return_now (true, [Lit "Dry run - not written to database"], Some event_id));;
    try_finally
      (try_except_psycopg2 (unit_of_work event user_id) on_database_error)
      cursor_close).

(** [ingest_batch(events, user_id)]: the [for] loop, then [self.stats]. *)
Fixpoint ingest_each (events : list nat) (user_id : option string)
  : M statistics unit :=
  match events with
  | [] => mret tt
  | event :: rest =>
      _ ← (λ w, match ingest_event_with_sources event user_id w with
                | (Ret r, w') => (Next r, w')
                | (Raise x, w') => (Throw x, w')
                end) : M statistics outcome;
      ingest_each rest user_id
  end.

Definition ingest_batch (events : list nat) (user_id : option string)
  : world → res statistics * world :=
  call_m (ingest_each events user_id;; gets stats).

End Ingest.

(** ** Readers for ASCII decimal literals

    An instance of [PyConv] to evaluate the code on concrete events: it
    reads what [int] and [float] read among plain ASCII literals (blanks
    around, a sign, decimal digits, a fraction and an exponent for floats,
    and the spellings of infinity and nan), and refuses the rest; [str]
    refuses an integer of more digits than a limit and renders everything
    else.  CPython starts with a limit of 4300 digits, and 640 is the
    lowest limit it can be set to. *)

Definition is_blank (c : ascii) : bool :=
  let n := nat_of_ascii c in ((n =? 32) || ((9 <=? n) && (n <=? 13)))%nat.

Fixpoint lstrip (s : string) : string :=
  match s with
  | String c rest => if is_blank c then lstrip rest else s
  | EmptyString => s
  end.

Fixpoint rstrip (s : string) : string :=
  match s with
  | String c rest =>
      match rstrip rest with
      | EmptyString => if is_blank c then EmptyString else String c EmptyString
      | rest' => String c rest'
      end
  | EmptyString => s
  end.

Definition read_sign (s : string) : bool * string :=
  match s with
  | String "-" rest => (true, rest)
  | String "+" rest => (false, rest)
  | _ => (false, s)
  end.

(** Leading digits of [s]: their value after [acc], how many, the rest. *)
Fixpoint read_digits (s : string) (acc : Z) (n : nat) : Z * nat * string :=
  match s with
  | String c rest =>
      let d := nat_of_ascii c in
      if ((48 <=? d) && (d <=? 57))%nat
      then read_digits rest (10 * acc + Z.of_nat (d - 48)) (S n)
      else (acc, n, s)
  | EmptyString => (acc, n, s)
  end.

Definition ascii_to_int (s : string) : option Z :=
  let '(neg, s) := read_sign (rstrip (lstrip s)) in
  match read_digits s 0 0 with
  | (z, S _, EmptyString) => Some (if neg then - z else z)
  | _ => None
  end.

(** The binary64 number nearest to [(-1)^neg * n * 10^e]. *)
Definition decimal_to_float (neg : bool) (n e : Z) : float :=
  let signed (m : Z) := if neg then - m else m in
  if n =? 0 then (if neg then neg_zero else zero)
  else if 0 <=? e then
    SF2Prim (binary_normalize prec emax (signed (n * 10 ^ e)) 0 neg)
  else
    let d := 10 ^ (- e) in
    let s := Z.max 0 (64 + Z.log2_up d - Z.log2 n) in
    let q := (n * 2 ^ s) / d in
    let sticky := if (n * 2 ^ s) mod d =? 0 then 0 else 1 in
    SF2Prim (binary_normalize prec emax (signed (2 * q + sticky)) (- s - 1) neg).

Definition lower (c : ascii) : ascii :=
  let n := nat_of_ascii c in
  if ((65 <=? n) && (n <=? 90))%nat then ascii_of_nat (n + 32) else c.

Fixpoint lowercase (s : string) : string :=
  match s with
  | String c rest => String (lower c) (lowercase rest)
  | EmptyString => EmptyString
  end.

Definition read_exponent (s : string) : option Z :=
  match s with
  | EmptyString => Some 0
  | String c rest =>
      if Ascii.eqb (lower c) "e" then
        let '(neg, rest) := read_sign rest in
        match read_digits rest 0 0 with
        | (z, S _, EmptyString) => Some (if neg then - z else z)
        | _ => None
        end
      else None
  end.

Definition ascii_to_float (s : string) : option float :=
  let '(neg, s) := read_sign (rstrip (lstrip s)) in
  let word := lowercase s in
  if String.eqb word "inf" || String.eqb word "infinity"
  then Some (if neg then neg_infinity else infinity)
  else if String.eqb word "nan" then Some nan
  else
    let '(i, ni, s) := read_digits s 0 0 in
    let '(f, nf, s) :=
      match s with
      | String "." rest => read_digits rest i 0
      | _ => (i, 0%nat, s)
      end in
    if ((ni + nf =? 0)%nat : bool) then None
    else
      match read_exponent s with
      | Some e => Some (decimal_to_float neg f (e - Z.of_nat nf))
      | None => None
      end.

(** The value is, or holds, an integer of more than [n] decimal digits. *)
Fixpoint exceeds_digits (n : Z) (v : pyval) : bool :=
  match v with
  | VInt z => 10 ^ n <=? Z.abs z
  | VList l => existsb (exceeds_digits n) l
  | VDict d => map_fold (λ _ v' b, exceeds_digits n v' || b) false d
  | VNone | VBool _ | VFloat _ | VStr _ => false
  end.

Definition ascii_conv_limit (max_str_digits : Z) : PyConv :=
  {| str_to_float := ascii_to_float; str_to_int := ascii_to_int;
     str_raises := λ v,
       if exceeds_digits max_str_digits v then Some ValueError else None |}.

Definition ascii_conv : PyConv := ascii_conv_limit 4300.

(** ** Notions used to state the properties *)

(** The keys [ingest_event_with_sources] pops out of the candidate, and the
    dictionary that is left. *)
Definition popped_keys : list string :=
  ["sources"; "category"; "latitude"; "longitude"; "location_name"].

Definition popped (d : pydict) : pydict :=
  delete "location_name" (delete "longitude" (delete "latitude"
    (delete "category" (delete "sources" d)))).

(** A candidate that lacks a required field: the key is not there, or the
    title is the empty string. *)
Definition missing_required_field (ev : pydict) : bool :=
  negb (key_in "title" ev)
  || match ev !! "title" with Some (VStr "") => true | _ => false end
  || negb (key_in "unix_seconds" ev)
  || negb (key_in "precision_level" ev)
  || negb (key_in "latitude" ev)
  || negb (key_in "longitude" ev)
  || negb (key_in "category" ev).

(** The fallback lookup in the specification's words: an exact match on the
    category identifier; for a [parent.child] identifier one retry on the
    parent segment; otherwise absent. *)
Definition fallback_lookup_spec (placeholders : gmap string string)
  (category : string) : option string :=
  match placeholders !! category with
  | Some p => Some p
  | None =>
      if has_dot category then placeholders !! split_dot_0 category else None
  end.

(** Icons as a directory listing yields them: no key and no path is
    empty. *)
Definition icons_wf (icons : gmap string string) : Prop :=
  ∀ k v, icons !! k = Some v → k ≠ "" ∧ v ≠ "".

(** No statement of the server is scheduled to fail. *)
Definition no_faults (w : world) : Prop :=
  Forall (λ o, o = None) (outcomes (conn w)).

(** Every identifier stored in the tables was drawn before [n]. *)
Definition ids_below (n : uuid) (t : tables) : Prop :=
  Forall (λ r, (ev_id r < n)%nat) (events t)
  ∧ Forall (λ r, (src_id r < n)%nat ∧ (src_event_id r < n)%nat) (event_sources t)
  ∧ Forall (λ r, (loc_id r < n)%nat ∧ (loc_event_id r < n)%nat) (event_locations t).

(** ** Sample candidates and a sample ingester, to run the code on *)

Definition src_wikipedia : pyval :=
  VDict (list_to_map
    [ ("url", VStr "https://en.wikipedia.org/wiki/Apollo_11");
      ("title", VStr "Apollo 11"); ("source_type", VStr "wikipedia");
      ("credibility_score", VInt 85) ]).

Definition src_book : pyval :=
  VDict (list_to_map
    [ ("title", VStr "Carrying the Fire"); ("source_type", VStr "book") ]).

(** A source with neither [url] nor [title]. *)
Definition src_citation_only : pyval :=
  VDict (list_to_map [ ("citation", VStr "NASA press kit") ]).

(** A source whose [url] and [title] are both there and both empty. *)
Definition src_blank : pyval :=
  VDict (list_to_map [ ("url", VStr ""); ("title", VStr "") ]).

Definition moon_landing_fields : list (string * pyval) :=
  [ ("title", VStr "Apollo 11 Moon landing");
    ("unix_seconds", VInt (-14182940));
    ("precision_level", VStr "minute");
    ("latitude", VFloat 0.67409); ("longitude", VFloat 23.47297);
    ("category", VStr "space_exploration.moon_landing") ].

Definition moon_landing_dict (sources : list pyval) : pydict :=
  list_to_map (moon_landing_fields ++ [("sources", VList sources)]).

Definition moon_landing (sources : list pyval) : pyval :=
  VDict (moon_landing_dict sources).

(** The same candidate as read from JSON with ["unix_nanos": null]. *)
Definition moon_landing_null_nanos : pyval :=
  VDict (list_to_map (moon_landing_fields ++ [("unix_nanos", VNone)])).

(** A candidate without an image whose category has no icon. *)
Definition bastille_dict : pydict :=
  list_to_map
    [ ("title", VStr "Storming of the Bastille");
      ("unix_seconds", VInt (-5694969600));
      ("precision_level", VStr "day");
      ("latitude", VFloat 48.8566); ("longitude", VFloat 2.3522);
      ("category", VStr "history.revolution") ].

Definition bastille : pyval := VDict bastille_dict.

(** The icon directory of the sample ingester. *)
Definition sample_icon_dir : option (list string) :=
  Some ["space_exploration.svg"; "science.svg"; "README.md"].

Definition zero_stats : statistics :=
  {| events_created := 0; sources_created := 0; events_skipped := 0;
     image_urls_replaced := 0; errors := [] |}.

Definition no_rows : tables :=
  {| events := []; event_sources := []; event_locations := [] |}.

(** A freshly built and connected ingester: the icon directory holds two
    icons, the [categories] table three leaves, the store is empty; the
    candidates [objects] sit at addresses 0, 1, ... *)
Definition sample_world (dry : bool) (answers : list (option string))
  (objects : list pyval) : world :=
  {| dry_run := dry;
     category_icons := _load_category_icons sample_icon_dir;
     stats := zero_stats;
     conn := {| categories := ["space_exploration.moon_landing";
                               "science.discovery"; "history.revolution"];
                committed := no_rows; working := no_rows;
                outcomes := answers |};
     heap := map_seq 0 objects;
     next_uuid := 0%nat |}.

(** A computation keeps [f] when no run of it changes the value of [f]. *)
Definition keeps {R A X} (f : world → X) (m : M R A) : Prop :=
  ∀ w, f (m w).2 = f w.

(** A computation keeps [f] on the runs that raise. *)
Definition keeps_on_throw {R A X} (f : world → X) (m : M R A) : Prop :=
  ∀ w x w1, m w = (Throw x, w1) → f w1 = f w.

Section Notions.
Context {conv : PyConv}.

(** Sources the loop of the unit of work inserts: those [validate_source]
    accepts. *)
Definition accepted (source : pyval) : bool :=
  match validate_source source [Lit "source"] with
  | Ret (true, _) => true
  | _ => false
  end.

(** The image the unit of work stores for a candidate of category [c] that
    came with [supplied], and whether the fallback counter is bumped. *)
Definition image_choice (icons : gmap string string) (c : string)
  (supplied : pyval) : pyval * bool :=
  if truthy supplied then (supplied, false)
  else
    match _get_fallback_image icons c with
    | Some icon =>
        if negb (String.eqb icon "") then (VStr icon, true) else (supplied, false)
    | None => (supplied, false)
    end.

End Notions.

(** * Notions and code for the further properties *)

(** ** What the validators accept, as predicates *)

Section Wellformed.
Context {conv : PyConv}.

(** A source [validate_source] has nothing to say against. *)
Definition well_formed_source (source : pyval) : Prop :=
  ∃ src, source = VDict src
    ∧ (is_Some (src !! "url") ∨ is_Some (src !! "title"))
    ∧ (∀ v, src !! "source_type" = Some v →
         ∃ s, v = VStr s ∧ s ∈ VALID_SOURCE_TYPES)
    ∧ (∀ v, src !! "credibility_score" = Some v →
         ∃ z, py_int v = Ret z ∧ 0 ≤ z ≤ 100).

(** A coordinate that [float] reads and that is neither below [lo] nor
    above [hi], in the comparisons of binary64 numbers. *)
Definition coordinate_within (lo hi : float) (v : pyval) : Prop :=
  v ≠ VNone
  ∧ ∃ x, py_float v = Ret x
      ∧ PrimFloat.ltb x lo = false ∧ PrimFloat.ltb hi x = false.

(** A candidate [validate_event] has nothing to say against. *)
Definition well_formed_event (event : pyval) : Prop :=
  ∃ ev, event = VDict ev
    ∧ (∃ t, ev !! "title" = Some t ∧ truthy t = true)
    ∧ (∃ us z, ev !! "unix_seconds" = Some us ∧ py_int us = Ret z)
    ∧ (∃ pl, ev !! "precision_level" = Some (VStr pl) ∧ pl ∈ PRECISION_LEVELS)
    ∧ (∃ lat, ev !! "latitude" = Some lat ∧ coordinate_within (-90) 90 lat)
    ∧ (∃ lon, ev !! "longitude" = Some lon ∧ coordinate_within (-180) 180 lon)
    ∧ (∃ c, ev !! "category" = Some (VStr c))
    ∧ (∀ v, ev !! "importance_score" = Some v →
         ∃ z, py_int v = Ret z ∧ 0 ≤ z ≤ 100)
    ∧ (∀ v, ev !! "sources" = Some v →
         ∃ l, v = VList l ∧ Forall well_formed_source l).

End Wellformed.

(** ** The rows a unit of work binds *)

Section Rows.
Context {conv : PyConv}.

(** [r] is the row the loop of the unit of work binds for [source]: the
    fields of the source, with ['other'] and [50] for a missing type and
    score. *)
Definition is_row_of_source (event_id : uuid) (user_id : option string)
  (source : pyval) (r : source_row) : Prop :=
  ∃ src, source = VDict src
    ∧ src_event_id r = event_id
    ∧ src_source_type r = dict_get src "source_type" (VStr "other")
    ∧ src_title r = dict_get src "title" VNone
    ∧ src_url r = dict_get src "url" VNone
    ∧ src_citation r = dict_get src "citation" VNone
    ∧ py_int (dict_get src "credibility_score" (VInt 50))
      = Ret (src_credibility_score r)
    ∧ src_added_by_user_id r = user_id.

End Rows.

(** An exception of the database driver. *)
Definition is_database_error (x : exn) : bool :=
  match x with
  | Psycopg2Error _ => true
  | _ => false
  end.

Section EventRows.
Context {conv : PyConv}.

(** [r] is the row the unit of work binds for the candidate [d] of category
    [c]: the candidate's fields, with [0] and [50] for a missing
    [unix_nanos] and [importance_score], the timeline position equal to the
    Unix time, and the image the fallback settles on. *)
Definition is_row_of_event (event_id : uuid) (user_id : option string)
  (icons : gmap string string) (d : pydict) (c : string) (r : event_row) : Prop :=
  ev_id r = event_id
  ∧ d !! "title" = Some (ev_title r)
  ∧ (∃ us, d !! "unix_seconds" = Some us ∧ py_int us = Ret (ev_unix_seconds r))
  ∧ ev_timeline_seconds r = ev_unix_seconds r
  ∧ py_int (dict_get d "unix_nanos" (VInt 0)) = Ret (ev_unix_nanos r)
  ∧ d !! "precision_level" = Some (ev_precision_level r)
  ∧ ev_description r = dict_get d "description" VNone
  ∧ ev_category r = VStr c
  ∧ ev_image_url r = (image_choice icons c (dict_get d "image_url" VNone)).1
  ∧ py_int (dict_get d "importance_score" (VInt 50)) = Ret (ev_importance_score r)
  ∧ ev_uncertainty_range r = dict_get d "uncertainty_range" VNone
  ∧ ev_created_by_user_id r = user_id.

End EventRows.

(** [r] is the row the unit of work binds for the location of the
    candidate [d]: its coordinates as they were given, and its
    [location_name], or ['Unknown'] when that is missing or empty. *)
Definition is_row_of_location (location_id event_id : uuid) (d : pydict)
  (r : location_row) : Prop :=
  loc_id r = location_id
  ∧ loc_event_id r = event_id
  ∧ loc_location_name r
    = (if truthy (dict_get d "location_name" VNone)
       then dict_get d "location_name" VNone else VStr "Unknown")
  ∧ loc_location_type r = "primary"
  ∧ d !! "latitude" = Some (loc_lat r)
  ∧ d !! "longitude" = Some (loc_lon r)
  ∧ loc_is_primary r = true.

(** The statistics after [n] more events and [m] more sources were created
    and [k] more images replaced. *)
Definition stats_plus (n m k : Z) (s : statistics) : statistics :=
  {| events_created := events_created s + n;
     sources_created := sources_created s + m;
     events_skipped := events_skipped s;
     image_urls_replaced := image_urls_replaced s + k;
     errors := errors s |}.

(** The store between two calls: nothing is pending, every stored
    identifier has been drawn already, identifiers are unique within each
    table, and every source and location row belongs to an event row. *)
Definition store_consistent (w : world) : Prop :=
  let t := committed (conn w) in
  working (conn w) = t
  ∧ ids_below (next_uuid w) t
  ∧ NoDup (ev_id <$> events t)
  ∧ NoDup (src_id <$> event_sources t)
  ∧ NoDup (loc_id <$> event_locations t)
  ∧ Forall (λ r, src_event_id r ∈ ev_id <$> events t) (event_sources t)
  ∧ Forall (λ r, loc_event_id r ∈ ev_id <$> events t) (event_locations t).

Section Faultless.
Context {conv : PyConv}.


End Faultless.

(** ** More sample candidates *)

(** A candidate whose category is not in the [categories] table of the
    sample ingester. *)
Definition krakatoa_dict : pydict :=
  list_to_map
    [ ("title", VStr "Eruption of Krakatoa");
      ("unix_seconds", VInt (-2724019200));
      ("precision_level", VStr "day");
      ("latitude", VFloat (-6.102)); ("longitude", VFloat 105.423);
      ("category", VStr "geology.volcano") ].

Definition krakatoa : pyval := VDict krakatoa_dict.

(** The Moon landing with a latitude off the globe, and with one too large
    for a float. *)
Definition moon_landing_off_globe : pydict :=
  <["latitude" := VFloat 123]> (list_to_map moon_landing_fields).

Definition moon_landing_huge_latitude : pydict :=
  <["latitude" := VInt (10 ^ 400)]> (list_to_map moon_landing_fields).

(** The Moon landing with a number of 641 digits for its precision, and
    for its title. *)
Definition moon_landing_long_precision : pydict :=
  <["precision_level" := VInt (10 ^ 640)]> (list_to_map moon_landing_fields).

Definition moon_landing_long_title : pydict :=
  <["title" := VInt (10 ^ 640)]> (list_to_map moon_landing_fields).

(** The Moon landing with a place name, an importance, a description and a
    user-supplied image. *)
Definition moon_landing_full_dict : pydict :=
  list_to_map (moon_landing_fields ++
    [ ("location_name", VStr "Mare Tranquillitatis");
      ("importance_score", VInt 95);
      ("description", VStr "First crewed landing on the Moon");
      ("image_url", VStr "https://example.org/apollo11.jpg");
      ("sources", VList [src_wikipedia; src_book]) ]).

(** ** Loading candidates from a CSV file *)

(** [str.strip()] and the text [str(e)] of a builtin exception are the
    interpreter's: any two functions will do. *)
Class PyText := {
  str_strip : string → string;
  exn_message : exn → string
}.

(** [str(e)] *)
Definition str_exn {txt : PyText} (x : exn) : text :=
  match x with
  | Psycopg2Error e => [Lit e]
  | _ => [Lit (exn_message x)]
  end.

(** A row as [csv.DictReader] yields it: the cell under each column name,
    [None] where the line was shorter than the header. *)
Abbreviation csv_row := (gmap string (option string)).

(** [row.get(k, dflt)] *)
Definition row_get (row : csv_row) (k : string) (dflt : string) : pyval :=
  match row !! k with
  | Some (Some s) => VStr s
  | Some None => VNone
  | None => VStr dflt
  end.

(** [v.strip()] *)
Definition py_strip {txt : PyText} (v : pyval) : res string :=
  match v with
  | VStr s => Ret (str_strip s)
  | _ => Raise AttributeError
  end.

(** [s or None] *)
Definition str_or_none (s : string) : pyval :=
  if String.eqb s "" then VNone else VStr s.

(** [event['sources'].append(source)] *)
Definition sources_append (source : pyval) (event : pydict) : res pydict :=
  match event !! "sources" with
  | Some (VList l) => Ret (<["sources" := VList (l ++ [source])]> event)
  | Some _ => Raise AttributeError
  | None => Raise KeyError
  end.

(** [events_dict[title]] updated in place; the dictionary keeps its keys in
    the order they were first set. *)
Fixpoint update_event (events_dict : list (string * pydict)) (title : string)
  (f : pydict → res pydict) : res (list (string * pydict)) :=
  match events_dict with
  | [] => Raise KeyError
  | (t, event) :: rest =>
      if String.eqb t title then
        match f event with
        | Ret event' => Ret ((t, event') :: rest)
        | Raise x => Raise x
        end
      else
        match update_event rest title f with
        | Ret rest' => Ret ((t, event) :: rest')
        | Raise x => Raise x
        end
  end.

Section CsvRows.
Context {txt : PyText}.

(** The body of the loop [for row in reader] of [ingest_from_csv_file];
    [Return] stands for [continue]. *)
Definition csv_row_step (events_dict : list (string * pydict)) (row : csv_row)
  : res (list (string * pydict)) :=
  call (
    title ← raising (py_strip (row_get row "title" ""));
    return_if (String.eqb title "") events_dict;;
    (* Create event if first time seeing this title *)
    events_dict ←
      (if bool_decide (title ∈ events_dict.*1) then mret events_dict
       else
         description ← raising (py_strip (row_get row "description" ""));
         category ← raising (py_strip (row_get row "category" ""));
         image_url ← raising (py_strip (row_get row "image_url" ""));
         uncertainty_range ←
           raising (py_strip (row_get row "uncertainty_range" ""));
         mret (events_dict ++
           [(title, list_to_map
              [ ("title", VStr title);
                ("unix_seconds", row_get row "unix_seconds" "0");
                ("precision_level", row_get row "precision_level" "day");
                ("description", str_or_none description);
                ("category", str_or_none category);
                ("importance_score", row_get row "importance_score" "50");
                ("image_url", str_or_none image_url);
                ("uncertainty_range", str_or_none uncertainty_range);
                ("sources", VList []) ])]));
    (* Add source if data provided *)
    source_url ← raising (py_strip (row_get row "source_url" ""));
    has_source ←
      (if negb (String.eqb source_url "") then mret true
       else
         source_title ← raising (py_strip (row_get row "source_title" ""));
         mret (negb (String.eqb source_title "")));
    if has_source : bool then
      url ← raising (py_strip (row_get row "source_url" ""));
      source_title ← raising (py_strip (row_get row "source_title" ""));
      source_type ← raising (py_strip (row_get row "source_type" "other"));
      citation ← raising (py_strip (row_get row "source_citation" ""));
      raising (update_event events_dict title
        (sources_append (VDict (list_to_map
           [ ("url", str_or_none url);
             ("title", str_or_none source_title);
             ("source_type", VStr source_type);
             ("citation", str_or_none citation);
             ("credibility_score", row_get row "credibility_score" "50") ]))))
    else mret events_dict).

Fixpoint csv_rows (events_dict : list (string * pydict)) (rows : list csv_row)
  : res (list (string * pydict)) :=
  match rows with
  | [] => Ret events_dict
  | row :: rest =>
      match csv_row_step events_dict row with
      | Ret events_dict => csv_rows events_dict rest
      | Raise x => Raise x
      end
  end.

End CsvRows.

(** A new object on the heap. *)
Definition alloc {R} (v : pyval) : M R nat := λ w,
  let o := fresh (dom (heap w)) in (Next o, with_heap (<[o := v]>) w).

Fixpoint alloc_all {R} (vs : list pyval) : M R (list nat) :=
  match vs with
  | [] => mret []
  | v :: rest =>
      o ← alloc v;
      os ← alloc_all rest;
      mret (o :: os)
  end.

(** A method call inside a function body. *)
Definition invoke {R A} (f : world → res A * world) : M R A := λ w,
  match f w with
  | (Ret a, w') => (Next a, w')
  | (Raise x, w') => (Throw x, w')
  end.

(** [try: body  except Exception as e: handler(e)] *)
Definition try_except_exception {R A} (body : M R A) (handler : exn → M R A)
  : M R A := λ w,
  match body w with
  | (Throw x, w') => handler x w'
  | other => other
  end.

Section CsvFile.
Context {conv : PyConv} {txt : PyText}.

(** [ingest_from_csv_file(file_path, user_id)]: [file] is what the reader
    yields for the file at [file_path], [None] when there is no such file;
    the candidates built from the rows become objects on the heap. *)
Definition ingest_from_csv_file (file : option (list csv_row))
  (file_path : string) (user_id : option string)
  : world → res statistics * world :=
  call_m (
    match file with
    | Some rows =>
        try_except_exception (
          events_dict ← lift (csv_rows [] rows);
          events ← alloc_all (VDict <$> events_dict.*2);
          s ← invoke (ingest_batch events user_id);
          return_now s)
        (λ e,
          modify (with_stats (append_error (str_exn e)));;
          gets stats)
    | None =>
        (* except FileNotFoundError *)
        modify (with_stats (append_error
          [Lit "File not found: "; Fmt (VStr file_path)]));;
        gets stats
    end).

End CsvFile.

(** A candidate as the CSV loader builds it: titled, timed, with a list of
    sources, and without coordinates. *)
Definition lacks_geo (d : pydict) : Prop :=
  (∃ t, d !! "title" = Some (VStr t) ∧ t ≠ "")
  ∧ is_Some (d !! "unix_seconds")
  ∧ is_Some (d !! "precision_level")
  ∧ (∃ l, d !! "sources" = Some (VList l))
  ∧ d !! "latitude" = None.

(** No cell of the row is missing. *)
Definition row_complete (row : csv_row) : bool :=
  bool_decide (map_Forall (λ _ cell, is_Some cell) row).

(** An instance of [PyText] to run the loader on concrete rows: [strip]
    on ASCII blanks, and the text of the one builtin exception the loader
    can meet, the [AttributeError] of [None.strip()]. *)
Definition ascii_text : PyText :=
  {| str_strip := λ s, rstrip (lstrip s);
     exn_message := λ _, "'NoneType' object has no attribute 'strip'" |}.

Definition csv_sample : list csv_row :=
  [ list_to_map
      [ ("title", Some "Apollo 11 Moon landing");
        ("unix_seconds", Some "-14182940");
        ("precision_level", Some "minute");
        ("category", Some "space_exploration.moon_landing");
        ("source_url", Some "https://en.wikipedia.org/wiki/Apollo_11");
        ("source_type", Some "wikipedia") ];
    list_to_map
      [ ("title", Some " Apollo 11 Moon landing ");
        ("source_title", Some "Carrying the Fire");
        ("source_type", Some "book") ];
    list_to_map
      [ ("title", Some "Storming of the Bastille");
        ("unix_seconds", Some "-5694969600");
        ("category", Some "history.revolution") ];
    list_to_map [ ("title", Some "   ") ] ].

(** * Properties *)

(** ** Running the control-flow combinators *)

Lemma bind_run {R A B} (m : M R A) (k : A → M R B) w :
  (m ≫= k) w = match m w with
               | (Next a, w') => k a w'
               | (Return r, w') => (Return r, w')
               | (Throw x, w') => (Throw x, w')
               end.
Proof. reflexivity. Qed.

Lemma bind_assoc_run {R A B C} (m : M R A) (k : A → M R B) (k' : B → M R C) w :
  ((m ≫= k) ≫= k') w = (m ≫= λ a, k a ≫= k') w.
Proof. rewrite !bind_run. by destruct (m w) as [[a|r|x] w1]. Qed.

Lemma try_finally_close {R A} (m : M R A) w :
  try_finally m cursor_close w = m w.
Proof. unfold try_finally, cursor_close. by destruct (m w) as [[a|r|x] w1]. Qed.

Lemma cursor_run {R} w : (cursor : M R unit) w = (Next tt, w).
Proof. reflexivity. Qed.

Lemma server_answer_cases {R} w :
  let w1 := with_conn (with_outcomes (tail (outcomes (conn w)))) w in
  (server_answer : M R unit) w = (Next tt, w1)
  ∨ ∃ e, hd None (outcomes (conn w)) = Some e
         ∧ (server_answer : M R unit) w = (Throw (Psycopg2Error e), w1).
Proof.
  unfold server_answer. destruct w as [dr ic st [cs cm wk os] hp nu]; simpl.
  destruct os as [|[e|] rest]; simpl; eauto.
Qed.

Lemma obj_pop_run {R} o k dflt (d : pydict) w :
  heap w !! o = Some (VDict d) →
  (obj_pop o k dflt : M R pyval) w
  = (Next (dict_get d k dflt), with_heap (<[o := VDict (delete k d)]>) w).
Proof.
  intros Hh. unfold obj_pop, deref, gets. rewrite bind_run. simpl.
  by rewrite Hh.
Qed.

Lemma obj_get_run {R} o k dflt (d : pydict) w :
  heap w !! o = Some (VDict d) →
  (obj_get o k dflt : M R pyval) w = (Next (dict_get d k dflt), w).
Proof.
  intros Hh. unfold obj_get, deref, gets. rewrite bind_run. simpl.
  by rewrite Hh.
Qed.

Lemma obj_item_run {R} o k (d : pydict) w :
  heap w !! o = Some (VDict d) →
  (obj_item o k : M R pyval) w
  = match d !! k with
    | Some x => (Next x, w)
    | None => (Throw KeyError, w)
    end.
Proof.
  intros Hh. unfold obj_item, deref, gets. rewrite bind_run. simpl.
  rewrite Hh. simpl. by destruct (d !! k).
Qed.

(** ** Frames: what a computation leaves alone *)

Section Keeps.
Context {R : Type} {X : Type} (f : world → X).

Lemma keeps_ret {A} (a : A) : keeps f (mret a : M R A).
Proof. by intros w. Qed.

Lemma keeps_return_now {A} (r : R) : keeps f (return_now r : M R A).
Proof. by intros w. Qed.

Lemma keeps_throw {A} x : keeps f (throw x : M R A).
Proof. by intros w. Qed.

Lemma keeps_gets {A} (g : world → A) : keeps f (gets g : M R A).
Proof. by intros w. Qed.

Lemma keeps_lift {A} (r : res A) : keeps f (lift r : M R A).
Proof. by destruct r; intros w. Qed.

Lemma keeps_bind {A B} (m : M R A) (k : A → M R B) :
  keeps f m → (∀ a, keeps f (k a)) → keeps f (m ≫= k).
Proof.
  intros Hm Hk w. rewrite bind_run. specialize (Hm w).
  destruct (m w) as [[a|r|x] w1]; simpl in *; [|done..].
  by rewrite Hk.
Qed.

Lemma keeps_if_then c (m : M R unit) : keeps f m → keeps f (if_then c m).
Proof. destruct c; [done|]. intros _. apply keeps_ret. Qed.

Lemma keeps_try_except_psycopg2 {A} (body : M R A) handler :
  keeps f body → (∀ e, keeps f (handler e)) →
  keeps f (try_except_psycopg2 body handler).
Proof.
  intros Hb Hh w. unfold try_except_psycopg2. specialize (Hb w).
  destruct (body w) as [[a|r|x] w1]; simpl in *; try done.
  destruct x; try done. by rewrite Hh.
Qed.

Lemma keeps_try_finally {A} (body : M R A) final :
  keeps f body → keeps f final → keeps f (try_finally body final).
Proof.
  intros Hb Hf w. unfold try_finally. specialize (Hb w).
  destruct (body w) as [o w1]. specialize (Hf w1).
  destruct (final w1) as [[a|r|x] w2]; simpl in *; congruence.
Qed.

End Keeps.

Ltac keeps_prim :=
  intros ?;
  unfold select_category, execute_insert, commit, rollback, obj_get, obj_item,
    val_get, deref, server_answer, uuid4, gets, modify, throw, mbind, M_bind,
    mret, M_ret;
  simpl; repeat case_match; simplify_eq/=; reflexivity.

Ltac keeps_step :=
  first
  [ apply keeps_ret | apply keeps_return_now | apply keeps_throw
  | apply keeps_gets | apply keeps_lift
  | apply keeps_if_then
  | apply keeps_bind; [|intros ?]
  | match goal with
    | |- keeps _ (match ?x with _ => _ end) => destruct x
    | |- keeps _ (if ?x then _ else _) => destruct x
    end
  | solve [keeps_prim] ].

(** ** Dictionaries *)

Lemma key_in_true k (d : pydict) : key_in k d = true ↔ is_Some (d !! k).
Proof. unfold key_in. by rewrite bool_decide_eq_true. Qed.

Lemma key_in_false k (d : pydict) : key_in k d = false ↔ d !! k = None.
Proof. unfold key_in. by rewrite bool_decide_eq_false, eq_None_not_Some. Qed.

Lemma lookup_popped (d : pydict) k :
  popped d !! k = if bool_decide (k ∈ popped_keys) then None else d !! k.
Proof.
  unfold popped, popped_keys. case_bool_decide as Hk.
  - rewrite !elem_of_cons, elem_of_nil in Hk.
    destruct_or!; try done; subst; by simplify_map_eq.
  - rewrite !lookup_delete_ne; [done|intros Heq; apply Hk; rewrite <- Heq;
      rewrite !elem_of_cons; tauto..].
Qed.

Lemma key_in_popped (d : pydict) k :
  key_in k (popped d) = negb (bool_decide (k ∈ popped_keys)) && key_in k d.
Proof.
  unfold key_in. rewrite lookup_popped.
  by destruct (bool_decide (k ∈ popped_keys)).
Qed.

Lemma item_popped (d : pydict) k :
  item (popped d) k = if bool_decide (k ∈ popped_keys) then VNone else item d k.
Proof.
  unfold item. rewrite lookup_popped.
  by destruct (bool_decide (k ∈ popped_keys)).
Qed.

Lemma dict_get_popped (d : pydict) k dflt :
  dict_get (popped d) k dflt
  = if bool_decide (k ∈ popped_keys) then dflt else dict_get d k dflt.
Proof.
  unfold dict_get. rewrite lookup_popped.
  by destruct (bool_decide (k ∈ popped_keys)).
Qed.

(** ** The validators *)

Section ValidatorFacts.
Context {conv : PyConv}.

Lemma validate_source_accepted source context msg :
  validate_source source context = Ret (true, msg) →
  ∃ src, source = VDict src ∧ (is_Some (src !! "url") ∨ is_Some (src !! "title")).
Proof.
  destruct source as [| | | | | |src]; try discriminate.
  intros Hv. exists src. split; [done|].
  unfold validate_source in Hv.
  destruct (key_in "url" src) eqn:Hu; [left; by apply key_in_true|].
  destruct (key_in "title" src) eqn:Ht; [right; by apply key_in_true|].
  discriminate.
Qed.

Lemma validate_source_neither (src : pydict) context :
  src !! "url" = None → src !! "title" = None →
  validate_source (VDict src) context
  = Ret (false, context ++ [Lit ": must have 'url' or 'title'"]).
Proof.
  intros Hu%key_in_false Ht%key_in_false. unfold validate_source.
  by rewrite Hu, Ht.
Qed.

Lemma validate_event_missing (ev : pydict) :
  missing_required_field ev = true →
  ∃ msg, validate_event (VDict ev) = Ret (false, msg).
Proof.
  unfold missing_required_field, validate_event, item. intros Hm.
  destruct (key_in "title" ev) eqn:Ht; simpl; [|by eexists].
  destruct (ev !! "title") as [t|] eqn:Htv; simpl; [|by eexists].
  destruct (truthy t) eqn:Htt; simpl; [|by eexists].
  assert (match t with VStr "" => true | _ => false end = false) as Hne.
  { destruct t as [| | | |s| |]; try done. by destruct s. }
  simpl in Hm. rewrite Hne in Hm. simpl in Hm.
  repeat match goal with
  | |- context [call (return_if ?c _ ≫= _)] =>
      destruct c eqn:?; simpl in *; [by eexists|]
  end.
  repeat match goal with
  | Hk : negb (key_in ?k ev) = false |- _ =>
      apply negb_false_iff in Hk; rewrite Hk in Hm
  | Hk : negb (key_in ?k ev) || _ = false |- _ =>
      apply orb_false_iff in Hk as [Hk _]
  end.
  done.
Qed.

Lemma validate_event_dict event msg :
  validate_event event = Ret (true, msg) → ∃ d, event = VDict d.
Proof. destruct event; try discriminate. eauto. Qed.

Lemma validate_event_popped (d : pydict) msg :
  validate_event (VDict d) = Ret (true, msg) →
  validate_event (VDict (popped d))
  = Ret (false, [Lit "Missing required field: latitude (all events must have geo point)"]).
Proof.
  intros Hv. unfold validate_event in *.
  do 3 match type of Hv with
  | context [call (return_if ?c _ ≫= _)] =>
      destruct c eqn:?; simpl in Hv; [discriminate|]
  end.
  rewrite !key_in_popped, !item_popped.
  repeat match goal with
  | |- context [bool_decide (?k ∈ popped_keys)] =>
      let b := eval vm_compute in (bool_decide (k ∈ popped_keys)) in
      change (bool_decide (k ∈ popped_keys)) with b
  end.
  cbn [negb andb].
  repeat match goal with Hc : _ = false |- _ => rewrite Hc; clear Hc end.
  reflexivity.
Qed.

(** ** Entering [ingest_event_with_sources] *)

Lemma ingest_invalid event user_id w ev msg :
  heap w !! event = Some ev →
  validate_event ev = Ret (false, msg) →
  ingest_event_with_sources event user_id w
  = (Ret (false, Lit "Event validation failed: " :: msg, None),
     with_stats incr_events_skipped w).
Proof.
  intros Hh Hv. unfold ingest_event_with_sources, call_m, deref, gets.
  unfold mbind at 1, M_bind. rewrite Hh. simpl. rewrite Hv. reflexivity.
Qed.

Lemma ingest_valid event user_id w ev msg :
  heap w !! event = Some ev →
  validate_event ev = Ret (true, msg) →
  dry_run w = false →
  ingest_event_with_sources event user_id w
  = call_m (try_except_psycopg2 (unit_of_work event user_id) on_database_error) w.
Proof.
  intros Hh Hv Hd. unfold ingest_event_with_sources, call_m, deref, gets.
  unfold mbind at 1, M_bind. rewrite Hh. simpl. rewrite Hv. simpl.
  unfold mbind, M_bind, gets, if_then. simpl. rewrite Hd. simpl.
  by rewrite try_finally_close.
Qed.

(** ** The heap *)

Lemma keeps_heap_insert_sources {R} event event_id user_id sources ids :
  keeps heap (insert_sources event event_id user_id sources ids : M R (list uuid)).
Proof.
  revert ids. induction sources as [|s rest IH]; intros ids; simpl.
  - apply keeps_ret.
  - repeat first [ apply IH | keeps_step ].
Qed.

(** Running the first statements of the [try] block: the identifier is
    drawn and the five keys are popped. *)
Lemma unit_of_work_pops event user_id (d : pydict) w :
  heap w !! event = Some (VDict d) →
  ∃ rest : M outcome outcome,
    unit_of_work event user_id w
    = rest (with_heap (<[event := VDict (popped d)]>)
              (with_next_uuid (S (next_uuid w)) w))
    ∧ keeps heap rest.
Proof.
  intros Hh. unfold unit_of_work.
  rewrite bind_run, cursor_run. cbv beta iota.
  rewrite bind_run. unfold uuid4 at 1. cbv beta iota.
  rewrite bind_run, (obj_pop_run _ _ _ d) by done. cbv beta iota.
  rewrite bind_run, (obj_pop_run _ _ _ (delete "sources" d))
    by (simpl; apply lookup_insert_eq). cbv beta iota.
  rewrite bind_run, (obj_pop_run _ _ _ (delete "category" (delete "sources" d)))
    by (simpl; apply lookup_insert_eq). cbv beta iota.
  rewrite bind_run, (obj_pop_run _ _ _
    (delete "latitude" (delete "category" (delete "sources" d))))
    by (simpl; apply lookup_insert_eq). cbv beta iota.
  rewrite bind_run, (obj_pop_run _ _ _
    (delete "longitude" (delete "latitude" (delete "category" (delete "sources" d)))))
    by (simpl; apply lookup_insert_eq). cbv beta iota.
  eexists. split.
  - unfold with_heap. simpl. rewrite !insert_insert_eq. reflexivity.
  - repeat first [ apply keeps_heap_insert_sources | keeps_step ].
Qed.

Lemma ingest_heap event user_id (d : pydict) msg w :
  dry_run w = false →
  heap w !! event = Some (VDict d) →
  validate_event (VDict d) = Ret (true, msg) →
  heap (ingest_event_with_sources event user_id w).2
  = <[event := VDict (popped d)]> (heap w).
Proof.
  intros Hd Hh Hv. rewrite (ingest_valid _ _ _ _ _ Hh Hv Hd).
  destruct (unit_of_work_pops event user_id d w Hh) as (rest & Hrun & Hk).
  unfold call_m, try_except_psycopg2. rewrite Hrun.
  match goal with |- context [rest ?w1] =>
    specialize (Hk w1); destruct (rest w1) as [[a|r|x] w2] end;
    simpl in *; try done.
  by destruct x.
Qed.

End ValidatorFacts.

(** ** The candidate is changed by the call *)

(** C10.  A call that is not a dry run and passes validation pops the keys
    [sources], [category], [latitude], [longitude] and [location_name] out
    of the candidate object, whatever the call returns; the object is
    therefore no longer what it was, and handing the same object to
    [ingest_event_with_sources] again is rejected by validation for a
    missing required field. *)
Theorem ingest_pops_candidate_keys {conv : PyConv} w event user_id ev msg :
  dry_run w = false →
  heap w !! event = Some ev →
  validate_event ev = Ret (true, msg) →
  let w1 := (ingest_event_with_sources event user_id w).2 in
  ∃ d, ev = VDict d
    ∧ heap w1 !! event = Some (VDict (popped d))
    ∧ (∀ k, k ∈ popped_keys → popped d !! k = None)
    ∧ (∀ k, k ∉ popped_keys → popped d !! k = d !! k)
    ∧ popped d ≠ d
    ∧ ingest_event_with_sources event user_id w1
      = (Ret (false,
              [Lit "Event validation failed: ";
               Lit "Missing required field: latitude (all events must have geo point)"],
              None),
         with_stats incr_events_skipped w1).
Proof.
  intros Hd Hh Hv w1.
  destruct (validate_event_dict _ _ Hv) as [d ->]. exists d.
  assert (heap w1 !! event = Some (VDict (popped d))) as Hh1.
  { unfold w1. rewrite (ingest_heap _ _ d msg) by done. apply lookup_insert_eq. }
  pose proof (validate_event_popped d msg Hv) as Hp.
  split_and!; [done|done|..].
  - intros k Hk. rewrite lookup_popped. by rewrite bool_decide_eq_true_2.
  - intros k Hk. rewrite lookup_popped. by rewrite bool_decide_eq_false_2.
  - intros Heq. rewrite Heq in Hp. congruence.
  - by apply ingest_invalid with (ev := VDict (popped d)).
Qed.

Lemma ingest_pops_candidate_keys_witness :
  let w := sample_world false [] [moon_landing [src_wikipedia]] in
  let w1 := (ingest_event_with_sources (conv := ascii_conv) 0 None w).2 in
  ∃ d, moon_landing [src_wikipedia] = VDict d
    ∧ heap w1 !! 0%nat = Some (VDict (popped d))
    ∧ (∀ k, k ∈ popped_keys → popped d !! k = None)
    ∧ (∀ k, k ∉ popped_keys → popped d !! k = d !! k)
    ∧ popped d ≠ d
    ∧ ingest_event_with_sources (conv := ascii_conv) 0 None w1
      = (Ret (false,
              [Lit "Event validation failed: ";
               Lit "Missing required field: latitude (all events must have geo point)"],
              None),
         with_stats incr_events_skipped w1).
Proof.
  apply (ingest_pops_candidate_keys (conv := ascii_conv)
           (sample_world false [] [moon_landing [src_wikipedia]]) 0%nat None
           (moon_landing [src_wikipedia]) []).
  - reflexivity.
  - reflexivity.
  - vm_compute. reflexivity.
Defined.

(** ** Candidates that lack a required field *)

(** C6.  A candidate that lacks one of [title] (or has an empty title),
    [unix_seconds], [precision_level], [latitude], [longitude] or
    [category] is rejected: the call returns [(False, reason, None)], and
    nothing but the skip counter changes, so no table receives a row. *)
Theorem ingest_rejects_missing_field {conv : PyConv} w event user_id
    (ev : pydict) :
  heap w !! event = Some (VDict ev) →
  missing_required_field ev = true →
  ∃ reason w',
    ingest_event_with_sources event user_id w = (Ret (false, reason, None), w')
    ∧ w' = with_stats incr_events_skipped w
    ∧ committed (conn w') = committed (conn w)
    ∧ working (conn w') = working (conn w).
Proof.
  intros Hh Hm. destruct (validate_event_missing ev Hm) as [msg Hv].
  eexists _, _. split; [by apply ingest_invalid with (ev := VDict ev)|].
  done.
Qed.

Lemma ingest_rejects_missing_field_witness :
  ∃ reason w',
    ingest_event_with_sources (conv := ascii_conv) 0 None
      (sample_world false []
         [VDict (delete "longitude" (list_to_map moon_landing_fields))])
    = (Ret (false, reason, None), w')
    ∧ w' = with_stats incr_events_skipped
             (sample_world false []
                [VDict (delete "longitude" (list_to_map moon_landing_fields))])
    ∧ committed (conn w') = no_rows
    ∧ working (conn w') = no_rows.
Proof.
  apply (ingest_rejects_missing_field (conv := ascii_conv)
           (sample_world false []
              [VDict (delete "longitude" (list_to_map moon_landing_fields))])
           0%nat None (delete "longitude" (list_to_map moon_landing_fields))).
  - reflexivity.
  - vm_compute. reflexivity.
Defined.

(** ** What [validate_source] asks of a source *)

(** C7, as the specification states it, fails: a source whose [url] and
    [title] are both present and both empty is accepted. *)
Lemma validate_source_accepts_blank :
  validate_source (conv := ascii_conv) src_blank [Lit "source"] = Ret (true, []).
Proof. vm_compute. reflexivity. Qed.

(** C7, amended.  [validate_source] accepts a source only if it is a
    dictionary in which at least one of the keys [url] and [title] is
    present (whether its value is empty is not looked at); a dictionary
    with neither key is rejected, and so is a value that is no
    dictionary. *)
Theorem validate_source_requires_key {conv : PyConv} source context :
  (∀ msg, validate_source source context = Ret (true, msg) →
     ∃ src, source = VDict src
       ∧ (is_Some (src !! "url") ∨ is_Some (src !! "title")))
  ∧ (∀ src, source = VDict src → src !! "url" = None → src !! "title" = None →
       validate_source source context
       = Ret (false, context ++ [Lit ": must have 'url' or 'title'"]))
  ∧ ((∀ src, source ≠ VDict src) →
       validate_source source context
       = Ret (false, context ++ [Lit " must be a dictionary"])).
Proof.
  split_and!.
  - intros msg. apply validate_source_accepted.
  - intros src -> Hu Ht. by apply validate_source_neither.
  - intros Hnd. destruct source; try done. by destruct (Hnd d).
Qed.

(** ** Symbolic execution of a run that is known to end well *)

Lemma execute_insert_cases {R} ins w :
  let w1 := with_conn (with_outcomes (tail (outcomes (conn w)))) w in
  (execute_insert ins : M R unit) w = (Next tt, with_conn (with_working ins) w1)
  ∨ ∃ e, hd None (outcomes (conn w)) = Some e
         ∧ (execute_insert ins : M R unit) w = (Throw (Psycopg2Error e), w1).
Proof.
  intros w1. unfold execute_insert. rewrite bind_run.
  destruct (server_answer_cases (R := R) w) as [->|(e & He & ->)]; eauto.
Qed.

Lemma select_category_cases {R} c w :
  let w1 := with_conn (with_outcomes (tail (outcomes (conn w)))) w in
  (select_category c : M R bool) w = (Next (in_strs c (categories (conn w))), w1)
  ∨ ∃ e, hd None (outcomes (conn w)) = Some e
         ∧ (select_category c : M R bool) w = (Throw (Psycopg2Error e), w1).
Proof.
  intros w1. unfold select_category. rewrite bind_run.
  destruct (server_answer_cases (R := R) w) as [->|(e & He & ->)]; eauto.
Qed.

Lemma commit_cases {R} w :
  let w1 := with_conn (with_outcomes (tail (outcomes (conn w)))) w in
  (commit : M R unit) w
  = (Next tt, with_conn (λ c, {| categories := categories c;
                                 committed := working c; working := working c;
                                 outcomes := outcomes c |}) w1)
  ∨ ∃ e, hd None (outcomes (conn w)) = Some e
         ∧ (commit : M R unit) w = (Throw (Psycopg2Error e), w1).
Proof.
  intros w1. unfold commit. rewrite bind_run.
  destruct (server_answer_cases (R := R) w) as [->|(e & He & ->)]; eauto.
Qed.

Lemma if_then_true {R} (m : M R unit) : if_then true m = m.
Proof. reflexivity. Qed.

Lemma if_then_false {R} (m : M R unit) : if_then false m = mret tt.
Proof. reflexivity. Qed.

Lemma mret_run {R A} (a : A) w : (mret a : M R A) w = (Next a, w).
Proof. reflexivity. Qed.

Lemma lift_Ret_run {R A} (a : A) w : (lift (Ret a) : M R A) w = (Next a, w).
Proof. reflexivity. Qed.

Lemma lift_Raise_run {R A} x w : (lift (Raise x) : M R A) w = (Throw x, w).
Proof. reflexivity. Qed.

Lemma val_get_dict_run {R} (d : pydict) k dflt w :
  (val_get (VDict d) k dflt : M R pyval) w = (Next (dict_get d k dflt), w).
Proof. reflexivity. Qed.

Lemma obj_item_cases {R} o k w :
  (∃ x, (obj_item o k : M R pyval) w = (Next x, w))
  ∨ (∃ x, (obj_item o k : M R pyval) w = (Throw x, w)).
Proof.
  unfold obj_item, deref, gets. rewrite bind_run. cbv beta iota.
  destruct (default VNone (heap w !! o)) as [| | | | | |d];
    try (right; by eexists).
  destruct (d !! k); [left|right]; by eexists.
Qed.

Lemma logger_cases {conv : PyConv} {R} vs w :
  render_all vs = Ret tt ∧ (logger vs : M R unit) w = (Next tt, w)
  ∨ ∃ x, render_all vs = Raise x ∧ (logger vs : M R unit) w = (Throw x, w).
Proof.
  unfold logger. destruct (render_all vs) as [[]|x]; [left|right]; eauto.
Qed.

Lemma render_all_cons {conv : PyConv} v vs :
  render_all (v :: vs) = Ret tt ↔ renders v = true ∧ render_all vs = Ret tt.
Proof.
  unfold renders. simpl. destruct (py_str v); [|split; [done|by intros [? _]]].
  split; [done|by intros [_ ?]].
Qed.

Lemma render_all_one {conv : PyConv} v :
  render_all [v] = Ret tt ↔ renders v = true.
Proof. rewrite render_all_cons. simpl. tauto. Qed.

(** One statement of a run [H : (m ≫= k) w = _] whose end is known. *)
Ltac exec_head H :=
  lazymatch type of H with
  | match uuid4 _ with _ => _ end = _ => unfold uuid4 at 1 in H
  | match gets _ _ with _ => _ end = _ => unfold gets at 1 in H
  | match modify _ _ with _ => _ end = _ => unfold modify at 1 in H
  | match mret _ _ with _ => _ end = _ => rewrite mret_run in H
  | match cursor _ with _ => _ end = _ => rewrite cursor_run in H
  | match @logger ?c ?R ?vs ?w with _ => _ end = _ =>
      let x := fresh "x" in let Hr := fresh "Hr" in let Hs := fresh "Hs" in
      destruct (logger_cases (conv := c) (R := R) vs w)
        as [[Hr Hs]|(x & Hr & Hs)];
      rewrite Hs in H; clear Hs
  | match throw _ _ with _ => _ end = _ => unfold throw at 1 in H
  | match return_now _ _ with _ => _ end = _ => unfold return_now at 1 in H
  | match lift ?r _ with _ => _ end = _ =>
      let E := fresh "E" in
      destruct r eqn:E; [rewrite lift_Ret_run in H|rewrite lift_Raise_run in H]
  | match obj_get ?o ?k ?dflt ?w with _ => _ end = _ =>
      rewrite (obj_get_run o k dflt _ w) in H by (simpl; eassumption)
  | match @obj_item ?R ?o ?k ?w with _ => _ end = _ =>
      first
      [ rewrite (obj_item_run o k _ w) in H by (simpl; eassumption);
        let E := fresh "E" in
        match type of H with
        | match match ?x with _ => _ end with _ => _ end = _ => destruct x eqn:E
        end
      | let x := fresh "x" in let Hs := fresh "Hs" in
        destruct (obj_item_cases (R := R) o k w) as [[x Hs]|[x Hs]];
        rewrite Hs in H; clear Hs ]
  | match val_get ?v _ _ _ with _ => _ end = _ =>
      first [ rewrite val_get_dict_run in H
            | destruct v; [unfold val_get at 1, throw at 1 in H..
                          |rewrite val_get_dict_run in H] ]
  | match select_category ?c ?w with _ => _ end = _ =>
      let e := fresh "e" in let He := fresh "He" in let Hs := fresh "Hs" in
      destruct (select_category_cases (R := outcome) c w) as [Hs|(e & He & Hs)];
      rewrite Hs in H; clear Hs
  | match @execute_insert ?R ?ins ?w with _ => _ end = _ =>
      let e := fresh "e" in let He := fresh "He" in let Hs := fresh "Hs" in
      destruct (execute_insert_cases (R := R) ins w) as [Hs|(e & He & Hs)];
      rewrite Hs in H; clear Hs
  | match @commit ?R ?w with _ => _ end = _ =>
      let e := fresh "e" in let He := fresh "He" in let Hs := fresh "Hs" in
      destruct (commit_cases (R := R) w) as [Hs|(e & He & Hs)];
      rewrite Hs in H; clear Hs
  end.

Ltac exec H :=
  lazymatch type of H with
  | (if_then ?c _ ≫= _) _ = _ =>
      let E := fresh "E" in
      destruct c eqn:E; [rewrite if_then_true in H|rewrite if_then_false in H]
  | ((if ?c then _ else _) ≫= _) _ = _ =>
      let E := fresh "E" in destruct c eqn:E
  | _ => idtac
  end;
  rewrite ?bind_assoc_run in H; rewrite bind_run in H; exec_head H;
  cbv beta iota in H; try discriminate H.

Ltac exec_ok H Hf :=
  exec H; try (exfalso; clear -H Hf; by destruct Hf; simplify_eq).

Section Loop.
Context {conv : PyConv}.

Lemma insert_sources_next {R} event event_id user_id sources ids w ids' w' :
  (insert_sources event event_id user_id sources ids : M R (list uuid)) w
  = (Next ids', w') →
  ∃ rows,
    length rows = length (filter (λ s, accepted s = true) sources)
    ∧ Forall (λ r, src_event_id r = event_id ∧ (next_uuid w ≤ src_id r)%nat) rows
    ∧ ids' = ids ++ (src_id <$> rows)
    ∧ working (conn w')
      = {| events := events (working (conn w));
           event_sources := event_sources (working (conn w)) ++ rows;
           event_locations := event_locations (working (conn w)) |}
    ∧ committed (conn w') = committed (conn w)
    ∧ categories (conn w') = categories (conn w)
    ∧ stats w'
      = {| events_created := events_created (stats w);
           sources_created := sources_created (stats w) + Z.of_nat (length rows);
           events_skipped := events_skipped (stats w);
           image_urls_replaced := image_urls_replaced (stats w);
           errors := errors (stats w) |}
    ∧ next_uuid w' = (next_uuid w + length rows)%nat.
Proof.
  revert ids w. induction sources as [|s rest IH]; intros ids w H; simpl in H.
  - unfold mret, M_ret in H. simplify_eq. exists []. simpl.
    rewrite !app_nil_r, Z.add_0_r, Nat.add_0_r.
    split_and!; try done; [by destruct (working (conn w'))|by destruct (stats w')].
  - rewrite filter_cons.
    exec H. destruct r as [[] msg]; simpl in H.
    + do 9 exec H.
      assert (accepted (VDict d) = true) as Hacc
        by (unfold accepted; by rewrite E).
      apply IH in H as (rows & Hlen & Hall & -> & Hwk & Hcm & Hcat & Hst & Hnu).
      match type of Hwk with context [add_source ?r] => exists (r :: rows) end.
      simpl in Hall, Hwk, Hcm, Hcat, Hst, Hnu. split_and!.
      * case_decide; [|done]. simpl. by rewrite Hlen.
      * constructor; [simpl; split; [done|lia]|].
        eapply Forall_impl; [exact Hall|]. simpl. intros row [? ?]. split; [done|lia].
      * by rewrite <- app_assoc.
      * rewrite Hwk. by rewrite <- app_assoc.
      * done.
      * done.
      * rewrite Hst. simpl. f_equal. lia.
      * rewrite Hnu. simpl. lia.
    + do 2 exec H.
      apply IH in H as (rows & Hlen & Hall & -> & Hwk & Hcm & Hcat & Hst & Hnu).
      exists rows. split_and!; try done.
      case_decide as Hacc; [|done]. unfold accepted in Hacc. by rewrite E in Hacc.
Qed.

Lemma insert_sources_no_return {R} event event_id user_id sources ids w r w' :
  (insert_sources event event_id user_id sources ids : M R (list uuid)) w
  ≠ (Return r, w').
Proof.
  revert ids w. induction sources as [|s rest IH]; intros ids w H; simpl in H.
  - by rewrite mret_run in H.
  - exec H. destruct r0 as [[] msg]; simpl in H;
      [|do 2 exec H; by eapply IH].
    do 9 exec H. by eapply IH.
Qed.

End Loop.

(** ** A unit of work that ends well *)

Section Success.
Context {conv : PyConv}.

Lemma dict_get_delete_ne (d : pydict) k k' dflt :
  k ≠ k' → dict_get (delete k d) k' dflt = dict_get d k' dflt.
Proof. intros Hne. unfold dict_get. by rewrite lookup_delete_ne. Qed.

Lemma resolve_image_run {R} c supplied w :
  ((if truthy supplied then mret supplied
    else
      gets category_icons ≫= λ icons,
      mret (_get_fallback_image icons c) ≫= λ fallback : option string,
      match fallback with
      | Some icon =>
          if negb (String.eqb icon "") then
            modify (with_stats incr_image_urls_replaced) ≫= λ _, mret (VStr icon)
          else mret supplied
      | None => mret supplied
      end) : M R pyval) w
  = (Next (image_choice (category_icons w) c supplied).1,
     if (image_choice (category_icons w) c supplied).2
     then with_stats incr_image_urls_replaced w else w).
Proof.
  unfold image_choice. destruct (truthy supplied); [done|].
  rewrite !bind_run. unfold gets. cbv beta iota.
  destruct (_get_fallback_image (category_icons w) c) as [icon|]; [|done].
  rewrite bind_run, mret_run. cbv beta iota.
  by destruct (negb (String.eqb icon "")).
Qed.

(** What a run of the [try] block that returns success has done. *)
Lemma unit_of_work_success event user_id (d : pydict) w f w' msg id :
  heap w !! event = Some (VDict d) →
  unit_of_work event user_id w = (f, w') →
  f = Next (true, msg, Some id) ∨ f = Return (true, msg, Some id) →
  ∃ c erow srows lrows l,
    (renders (item d "title") = true
     ∧ (is_none (dict_get d "latitude" VNone) = false →
        is_none (dict_get d "longitude" VNone) = false →
        render_all [dict_get d "location_name" VNone;
                    dict_get d "latitude" VNone;
                    dict_get d "longitude" VNone] = Ret tt))
    ∧ id = next_uuid w
    ∧ (next_uuid w < next_uuid w')%nat
    ∧ d !! "category" = Some (VStr c)
    ∧ c ∈ categories (conn w)
    ∧ dict_get d "sources" (VList []) = VList l
    ∧ committed (conn w')
      = {| events := events (working (conn w)) ++ [erow];
           event_sources := event_sources (working (conn w)) ++ srows;
           event_locations := event_locations (working (conn w)) ++ lrows |}
    ∧ working (conn w') = committed (conn w')
    ∧ ev_id erow = id
    ∧ ev_title erow = item d "title"
    ∧ ev_category erow = VStr c
    ∧ py_int (item d "unix_seconds") = Ret (ev_unix_seconds erow)
    ∧ ev_image_url erow
      = (image_choice (category_icons w) c (dict_get d "image_url" VNone)).1
    ∧ length srows = length (filter (λ s, accepted s = true) l)
    ∧ Forall (λ r, src_event_id r = id) srows
    ∧ Forall (λ r, loc_event_id r = id ∧ loc_is_primary r = true) lrows
    ∧ stats w'
      = {| events_created := events_created (stats w) + 1;
           sources_created := sources_created (stats w) + Z.of_nat (length srows);
           events_skipped := events_skipped (stats w);
           image_urls_replaced :=
             image_urls_replaced (stats w)
             + (if (image_choice (category_icons w) c
                      (dict_get d "image_url" VNone)).2 then 1 else 0);
           errors := errors (stats w) |}
    ∧ d !! "title" = Some (ev_title erow)
    ∧ d !! "precision_level" = Some (ev_precision_level erow)
    ∧ is_Some (d !! "unix_seconds")
    ∧ py_int (dict_get d "unix_nanos" (VInt 0)) = Ret (ev_unix_nanos erow)
    ∧ py_int (dict_get d "importance_score" (VInt 50))
      = Ret (ev_importance_score erow).
Proof.
  intros Hh H Hf. unfold unit_of_work in H.
  do 2 exec H.
  rewrite bind_run, (obj_pop_run _ _ _ d) in H by done. cbv beta iota in H.
  rewrite bind_run, (obj_pop_run _ _ _ (delete "sources" d)) in H
    by (simpl; apply lookup_insert_eq). cbv beta iota in H.
  rewrite bind_run, (obj_pop_run _ _ _ (delete "category" (delete "sources" d))) in H
    by (simpl; apply lookup_insert_eq). cbv beta iota in H.
  rewrite bind_run, (obj_pop_run _ _ _
    (delete "latitude" (delete "category" (delete "sources" d)))) in H
    by (simpl; apply lookup_insert_eq). cbv beta iota in H.
  rewrite bind_run, (obj_pop_run _ _ _
    (delete "longitude" (delete "latitude" (delete "category" (delete "sources" d))))) in H
    by (simpl; apply lookup_insert_eq). cbv beta iota in H.
  rewrite !dict_get_delete_ne in H by done.
  match type of H with _ ?w0 = _ => remember w0 as w5 eqn:Hw5 end.
  assert (heap w5 !! event = Some (VDict (popped d))) as Hh5
    by (subst w5; simpl; rewrite !insert_insert_eq; apply lookup_insert_eq).
  assert (conn w5 = conn w) as Hc5 by by subst w5.
  assert (stats w5 = stats w) as Hs5 by by subst w5.
  assert (category_icons w5 = category_icons w) as Hi5 by by subst w5.
  assert (next_uuid w5 = S (next_uuid w)) as Hn5 by by subst w5.
  clear Hw5.
  (* the category is looked up *)
  exec H; [|by destruct Hf; simplify_eq].
  exec H; [exec H; try exec H; by destruct Hf; simplify_eq|].
  apply negb_false_iff in E.
  destruct (dict_get d "category" VNone) as [| | | |c| |] eqn:Hcat; try done.
  simpl in E. apply bool_decide_eq_true in E.
  (* the image is resolved *)
  exec H. rewrite dict_get_popped in H.
  change (bool_decide ("image_url" ∈ popped_keys)) with false in H.
  cbv iota in H.
  rewrite bind_run, resolve_image_run in H. cbv beta iota in H.
  match type of H with context [image_choice ?ic c ?s] =>
    remember (image_choice ic c s) as choice eqn:Hchoice;
    simpl in Hchoice; rewrite Hi5 in Hchoice
  end.
  match type of H with _ ?w0 = _ => remember w0 as w6 eqn:Hw6 end.
  assert (heap w6 !! event = Some (VDict (popped d))) as Hh6
    by (subst w6; by destruct (choice.2); simpl).
  assert (conn w6 = with_outcomes (tail (outcomes (conn w))) (conn w)) as Hc6
    by (subst w6; destruct (choice.2); simpl; by rewrite Hc5).
  assert (next_uuid w6 = S (next_uuid w)) as Hn6
    by (subst w6; by destruct (choice.2); simpl).
  assert (stats w6 = if choice.2 then incr_image_urls_replaced (stats w) else stats w)
    as Hs6 by (subst w6; destruct (choice.2); simpl; by rewrite Hs5).
  clear Hw6.
  (* the row is prepared *)
  do 10 exec_ok H Hf.
  rewrite lookup_popped in E0, E2, E4. rewrite dict_get_popped in E3, E5.
  change (bool_decide (_ ∈ popped_keys)) with false in E0, E2, E3, E4, E5.
  cbv iota in E0, E2, E3, E4, E5.
  (* the event row is inserted *)
  do 2 exec_ok H Hf.
  do 2 exec_ok H Hf.
  rewrite lookup_popped in E6.
  change (bool_decide (_ ∈ popped_keys)) with false in E6. cbv iota in E6.
  assert (renders (item d "title") = true) as Hrt.
  { unfold item. rewrite E6. simpl. by apply render_all_one. }
  (* the sources *)
  destruct (dict_get d "sources" (VList [])) as [| | | | |l|] eqn:Hsrc;
    try by exec_ok H Hf.
  rewrite bind_run in H.
  match type of H with context [insert_sources ?ev ?a ?b ?c ?e ?w0] =>
    destruct (insert_sources ev a b c e w0) as [[ids|r2|x] w7] eqn:Hloop
  end; try (exfalso; clear -H Hf; by destruct Hf; simplify_eq).
  2: { by apply insert_sources_no_return in Hloop. }
  apply insert_sources_next in Hloop
    as (srows & Hlen & Hall & -> & Hwk & Hcm & Hcat' & Hst & Hnu).
  simpl in Hall, Hwk, Hcm, Hcat', Hst, Hnu.
  rewrite Hc6 in Hwk, Hcm, Hcat'. rewrite Hs6 in Hst. rewrite Hn6 in Hnu, Hall.
  simpl in Hwk, Hcm, Hcat'.
  (* the location, and the commit *)
  assert (d !! "category" = Some (VStr c)) as Hdc.
  { unfold dict_get in Hcat. destruct (d !! "category"); simpl in Hcat; by subst. }
  rewrite Hc5 in E.
  assert (∀ W, (Return (true, [Lit "Created event with ";
                  Fmt (VInt (Z.of_nat (length ([] ++ (src_id <$> srows)))));
                  Lit " sources"], Some (next_uuid w)) : flow outcome outcome, W)
               = (f, w') → id = next_uuid w ∧ W = w') as Hend.
  { intros W HW. by destruct Hf; simplify_eq. }
  exec_ok H Hf.
  - do 3 exec_ok H Hf. unfold return_now in H.
    apply Hend in H as [-> <-]. clear Hend Hf.
    eexists c, _, srows, [_], l. simpl. rewrite Hwk, Hst, Hnu. simpl.
    split_and!; try done.
    + lia.
    + unfold item. by rewrite E2.
    + unfold item. by rewrite E0.
    + by rewrite Hchoice.
    + eapply Forall_impl; [exact Hall|]. by intros ? [? ?].
    + by constructor.
    + rewrite <- Hchoice. destruct (choice.2); simpl; f_equal; lia.
  - exec_ok H Hf. unfold return_now in H.
    apply Hend in H as [-> <-]. clear Hend Hf.
    eexists c, _, srows, [], l. simpl. rewrite Hwk, Hst, Hnu. simpl.
    rewrite app_nil_r.
    split_and!; try done.
    + intros Hlat Hlon. rewrite Hlat, Hlon in E7. done.
    + lia.
    + unfold item. by rewrite E2.
    + unfold item. by rewrite E0.
    + by rewrite Hchoice.
    + eapply Forall_impl; [exact Hall|]. by intros ? [? ?].
    + rewrite <- Hchoice. destruct (choice.2); simpl; f_equal; lia.
Qed.

End Success.

(** ** A call that returns success *)

Section IngestSuccess.
Context {conv : PyConv}.

Lemma ingest_raise event user_id w ev x :
  heap w !! event = Some ev →
  validate_event ev = Raise x →
  ingest_event_with_sources event user_id w = (Raise x, w).
Proof.
  intros Hh Hv. unfold ingest_event_with_sources, call_m, deref, gets.
  unfold mbind at 1, M_bind. rewrite Hh. simpl. rewrite Hv. reflexivity.
Qed.

Lemma ingest_success_inv event user_id w ev msg id w' :
  dry_run w = false →
  heap w !! event = Some ev →
  ingest_event_with_sources event user_id w = (Ret (true, msg, Some id), w') →
  ∃ d vmsg f,
    ev = VDict d
    ∧ validate_event (VDict d) = Ret (true, vmsg)
    ∧ unit_of_work event user_id w = (f, w')
    ∧ (f = Next (true, msg, Some id) ∨ f = Return (true, msg, Some id)).
Proof.
  intros Hd Hh H.
  destruct (validate_event ev) as [[[] vmsg]|x] eqn:Hv.
  - destruct (validate_event_dict _ _ Hv) as [d ->].
    rewrite (ingest_valid _ _ _ _ _ Hh Hv Hd) in H.
    unfold call_m, try_except_psycopg2 in H.
    destruct (unit_of_work event user_id w) as [[a|r|x] w1] eqn:Hu.
    + exists d, vmsg, (Next a). simplify_eq. eauto.
    + exists d, vmsg, (Return r). simplify_eq. eauto.
    + destruct x; simpl in H; simplify_eq.
  - rewrite (ingest_invalid _ _ _ _ _ Hh Hv) in H. simplify_eq.
  - rewrite (ingest_raise _ _ _ _ _ Hh Hv) in H. simplify_eq.
Qed.

(** What a successful call has done, read off the unit of work. *)
Lemma ingest_success event user_id w (d : pydict) msg id w' :
  dry_run w = false →
  heap w !! event = Some (VDict d) →
  ingest_event_with_sources event user_id w = (Ret (true, msg, Some id), w') →
  ∃ c erow srows lrows l vmsg,
    validate_event (VDict d) = Ret (true, vmsg)
    ∧ id = next_uuid w
    ∧ (next_uuid w < next_uuid w')%nat
    ∧ d !! "category" = Some (VStr c)
    ∧ c ∈ categories (conn w)
    ∧ dict_get d "sources" (VList []) = VList l
    ∧ committed (conn w')
      = {| events := events (working (conn w)) ++ [erow];
           event_sources := event_sources (working (conn w)) ++ srows;
           event_locations := event_locations (working (conn w)) ++ lrows |}
    ∧ working (conn w') = committed (conn w')
    ∧ ev_id erow = id
    ∧ ev_title erow = item d "title"
    ∧ ev_category erow = VStr c
    ∧ py_int (item d "unix_seconds") = Ret (ev_unix_seconds erow)
    ∧ ev_image_url erow
      = (image_choice (category_icons w) c (dict_get d "image_url" VNone)).1
    ∧ length srows = length (filter (λ s, accepted s = true) l)
    ∧ Forall (λ r, src_event_id r = id) srows
    ∧ Forall (λ r, loc_event_id r = id ∧ loc_is_primary r = true) lrows
    ∧ stats w'
      = {| events_created := events_created (stats w) + 1;
           sources_created := sources_created (stats w) + Z.of_nat (length srows);
           events_skipped := events_skipped (stats w);
           image_urls_replaced :=
             image_urls_replaced (stats w)
             + (if (image_choice (category_icons w) c
                      (dict_get d "image_url" VNone)).2 then 1 else 0);
           errors := errors (stats w) |}
    ∧ d !! "title" = Some (ev_title erow)
    ∧ d !! "precision_level" = Some (ev_precision_level erow)
    ∧ is_Some (d !! "unix_seconds")
    ∧ py_int (dict_get d "unix_nanos" (VInt 0)) = Ret (ev_unix_nanos erow)
    ∧ py_int (dict_get d "importance_score" (VInt 50))
      = Ret (ev_importance_score erow).
Proof.
  intros Hd Hh H.
  destruct (ingest_success_inv _ _ _ _ _ _ _ Hd Hh H)
    as (d' & vmsg & f & Hev & Hv & Hu & Hf).
  injection Hev as <-.
  destruct (unit_of_work_success _ _ _ _ _ _ _ _ Hh Hu Hf)
    as (c & erow & srows & lrows & l & _ & Hrest).
  exists c, erow, srows, lrows, l, vmsg. by split.
Qed.

(** A successful call has rendered the title, and the location name and
    the coordinates, for its log. *)
Lemma ingest_success_renders event user_id w (d : pydict) msg id w' :
  dry_run w = false →
  heap w !! event = Some (VDict d) →
  ingest_event_with_sources event user_id w = (Ret (true, msg, Some id), w') →
  renders (item d "title") = true
  ∧ (is_none (dict_get d "latitude" VNone) = false →
     is_none (dict_get d "longitude" VNone) = false →
     render_all [dict_get d "location_name" VNone;
                 dict_get d "latitude" VNone;
                 dict_get d "longitude" VNone] = Ret tt).
Proof.
  intros Hd Hh H.
  destruct (ingest_success_inv _ _ _ _ _ _ _ Hd Hh H)
    as (d' & vmsg & f & Hev & Hv & Hu & Hf).
  injection Hev as <-.
  by destruct (unit_of_work_success _ _ _ _ _ _ _ _ Hh Hu Hf)
    as (c & erow & srows & lrows & l & Hr & _).
Qed.

End IngestSuccess.

(** ** The icon fallback *)

Lemma path_stem_nonempty name : is_svg name = true → path_stem name ≠ "".
Proof.
  unfold is_svg, path_stem. intros Hs.
  apply andb_true_iff in Hs as [Hlen _]. apply Nat.leb_le in Hlen.
  destruct name as [|c rest]; [simpl in Hlen; lia|].
  destruct (rfind_dot (String c rest) 0) as [i|]; [|done].
  destruct ((0 <? i)%nat && (i <? String.length (String c rest) - 1)%nat) eqn:Hi;
    [|done].
  apply andb_true_iff in Hi as [Hi _]. apply Nat.ltb_lt in Hi.
  destruct i as [|i]; [lia|]. done.
Qed.

Lemma load_category_icons_wf icon_dir : icons_wf (_load_category_icons icon_dir).
Proof.
  unfold _load_category_icons. destruct icon_dir as [names|]; [|by intros k v].
  assert (Forall (λ n, is_svg n = true) (filter (λ n, is_svg n = true) names)) as Hall.
  { apply Forall_forall. intros n Hn. by apply list_elem_of_filter in Hn as [? _]. }
  revert Hall. generalize (filter (λ n, is_svg n = true) names). intros l.
  assert (icons_wf (∅ : gmap string string)) as Hwf by by intros k v.
  revert Hwf. generalize (∅ : gmap string string).
  induction l as [|n l IH]; intros acc Hwf Hall; simpl; [done|].
  apply Forall_cons in Hall as [Hn Hall].
  apply IH; [|done]. intros k v. rewrite lookup_insert.
  case_decide; [|by apply Hwf].
  intros [= <-]. subst k. split; [by apply path_stem_nonempty|done].
Qed.

Lemma get_fallback_image_spec (icons : gmap string string) c :
  icons_wf icons →
  _get_fallback_image icons c = fallback_lookup_spec icons c.
Proof.
  intros Hwf. unfold _get_fallback_image, fallback_lookup_spec.
  destruct (String.eqb c "") eqn:Hc.
  - apply String.eqb_eq in Hc as ->. simpl.
    destruct (icons !! "") as [v|] eqn:Hv; [|done].
    by destruct (Hwf _ _ Hv).
  - destruct (icons !! c); [done|]. destruct (has_dot c); [|done].
    by destruct (icons !! split_dot_0 c).
Qed.

Lemma get_fallback_image_nonempty (icons : gmap string string) c icon :
  icons_wf icons → _get_fallback_image icons c = Some icon → icon ≠ "".
Proof.
  intros Hwf. unfold _get_fallback_image.
  destruct (String.eqb c ""); [done|].
  destruct (icons !! c) as [v|] eqn:Hv.
  { intros [= <-]. by destruct (Hwf _ _ Hv). }
  destruct (has_dot c); [|done].
  destruct (icons !! split_dot_0 c) as [v|] eqn:Hv'; [|done].
  intros [= <-]. by destruct (Hwf _ _ Hv').
Qed.

Lemma image_choice_supplied icons c supplied :
  truthy supplied = true → image_choice icons c supplied = (supplied, false).
Proof. intros Ht. unfold image_choice. by rewrite Ht. Qed.

Lemma image_choice_fallback icons c supplied icon :
  icons_wf icons →
  truthy supplied = false →
  _get_fallback_image icons c = Some icon →
  image_choice icons c supplied = (VStr icon, true).
Proof.
  intros Hwf Ht Hf. unfold image_choice. rewrite Ht, Hf.
  pose proof (get_fallback_image_nonempty _ _ _ Hwf Hf) as Hne.
  destruct (String.eqb icon "") eqn:He; [|done].
  by apply String.eqb_eq in He.
Qed.

Lemma image_choice_none icons c supplied :
  truthy supplied = false →
  _get_fallback_image icons c = None →
  image_choice icons c supplied = (supplied, false).
Proof. intros Ht Hf. unfold image_choice. by rewrite Ht, Hf. Qed.

(** C2, as the specification states it, fails: a candidate without an image
    whose category has no icon is persisted with a null image URL. *)
Lemma ingest_persists_null_image :
  let r := ingest_event_with_sources (conv := ascii_conv) 0 None
             (sample_world false [] [bastille]) in
  r.1 = Ret (true, [Lit "Created event with "; Fmt (VInt 0); Lit " sources"],
             Some 0%nat)
  ∧ (λ row, (ev_id row, ev_image_url row)) <$> events (committed (conn r.2))
    = [(0%nat, VNone)].
Proof. vm_compute. split; reflexivity. Qed.

(** C2, amended.  The row of a successfully ingested event carries the
    supplied image URL when one was supplied; otherwise the placeholder of
    the event's category when the fallback lookup finds one; otherwise what
    was supplied, which is null when the candidate has no [image_url].  So
    the image URL is non-null whenever an image was supplied or a
    placeholder exists for the category or its parent, and only then. *)
Theorem persisted_image_url {conv : PyConv} w icon_dir event user_id
    (d : pydict) msg id w' :
  dry_run w = false →
  category_icons w = _load_category_icons icon_dir →
  heap w !! event = Some (VDict d) →
  ingest_event_with_sources event user_id w = (Ret (true, msg, Some id), w') →
  ∃ row c,
    events (committed (conn w')) = events (working (conn w)) ++ [row]
    ∧ ev_id row = id
    ∧ d !! "category" = Some (VStr c)
    ∧ let supplied := dict_get d "image_url" VNone in
      (truthy supplied = true → ev_image_url row = supplied)
      ∧ (truthy supplied = false →
         ∀ icon, _get_fallback_image (category_icons w) c = Some icon →
                 ev_image_url row = VStr icon)
      ∧ (truthy supplied = false →
         _get_fallback_image (category_icons w) c = None →
         ev_image_url row = supplied ∧ (d !! "image_url" = None → ev_image_url row = VNone)).
Proof.
  intros Hd Hic Hh H.
  destruct (ingest_success _ _ _ _ _ _ _ Hd Hh H)
    as (c & erow & srows & lrows & l & vmsg & _ & Hid & _ & Hc & _ & _ & Hcm
        & _ & Heid & _ & _ & _ & Himg & _).
  assert (icons_wf (category_icons w)) as Hwf
    by (rewrite Hic; apply load_category_icons_wf).
  exists erow, c. rewrite Hcm. simpl. split_and!; try done.
  - intros Ht. by rewrite Himg, image_choice_supplied.
  - intros Ht icon Hf. by rewrite Himg, (image_choice_fallback _ _ _ icon).
  - intros Ht Hf. rewrite Himg, image_choice_none by done. split; [done|].
    intros Hn. unfold dict_get. by rewrite Hn.
Qed.

Lemma persisted_image_url_witness :
  let w := sample_world false [] [bastille] in
  let w' := (ingest_event_with_sources (conv := ascii_conv) 0 None w).2 in
  ∃ row c,
    events (committed (conn w')) = [] ++ [row]
    ∧ ev_id row = 0%nat
    ∧ bastille_dict !! "category" = Some (VStr c)
    ∧ (truthy VNone = true → ev_image_url row = VNone)
    ∧ (truthy VNone = false →
       ∀ icon, _get_fallback_image (category_icons w) c = Some icon →
               ev_image_url row = VStr icon)
    ∧ (truthy VNone = false →
       _get_fallback_image (category_icons w) c = None →
       ev_image_url row = VNone
       ∧ (bastille_dict !! "image_url" = None → ev_image_url row = VNone)).
Proof.
  apply (persisted_image_url (conv := ascii_conv)
           (sample_world false [] [bastille]) sample_icon_dir
           0%nat None bastille_dict
           [Lit "Created event with "; Fmt (VInt 0); Lit " sources"] 0%nat).
  - reflexivity.
  - reflexivity.
  - reflexivity.
  - vm_compute. reflexivity.
Defined.

(** C8.  A candidate without an image whose category resolves to a
    placeholder through the fallback lookup (exact match, then one retry on
    the parent segment of a [parent.child] identifier) is persisted with
    that placeholder as its image URL, and the call adds exactly one to the
    fallback counter. *)
Theorem fallback_image_persisted {conv : PyConv} w icon_dir event user_id
    (d : pydict) c p msg id w' :
  dry_run w = false →
  category_icons w = _load_category_icons icon_dir →
  heap w !! event = Some (VDict d) →
  truthy (dict_get d "image_url" VNone) = false →
  d !! "category" = Some (VStr c) →
  fallback_lookup_spec (category_icons w) c = Some p →
  ingest_event_with_sources event user_id w = (Ret (true, msg, Some id), w') →
  (∃ row, events (committed (conn w')) = events (working (conn w)) ++ [row]
          ∧ ev_id row = id ∧ ev_image_url row = VStr p)
  ∧ image_urls_replaced (stats w') = image_urls_replaced (stats w) + 1.
Proof.
  intros Hd Hic Hh Ht Hc Hp H.
  destruct (ingest_success _ _ _ _ _ _ _ Hd Hh H)
    as (c' & erow & srows & lrows & l & vmsg & _ & Hid & _ & Hc' & _ & _ & Hcm
        & _ & Heid & _ & _ & _ & Himg & _ & _ & _ & Hst & _).
  assert (c' = c) as -> by congruence.
  assert (icons_wf (category_icons w)) as Hwf
    by (rewrite Hic; apply load_category_icons_wf).
  rewrite <- get_fallback_image_spec in Hp by done.
  rewrite (image_choice_fallback _ _ _ p) in Himg, Hst by done.
  split.
  - exists erow. by rewrite Hcm.
  - by rewrite Hst.
Qed.

Lemma fallback_image_persisted_witness :
  let w := sample_world false [] [moon_landing [src_wikipedia]] in
  let w' := (ingest_event_with_sources (conv := ascii_conv) 0 None w).2 in
  (∃ row, events (committed (conn w')) = [] ++ [row]
          ∧ ev_id row = 0%nat
          ∧ ev_image_url row = VStr "/images/categories/space_exploration.svg")
  ∧ image_urls_replaced (stats w') = 0 + 1.
Proof.
  apply (fallback_image_persisted (conv := ascii_conv)
           (sample_world false [] [moon_landing [src_wikipedia]]) sample_icon_dir
           0%nat None (moon_landing_dict [src_wikipedia])
           "space_exploration.moon_landing"
           "/images/categories/space_exploration.svg"
           [Lit "Created event with "; Fmt (VInt 1); Lit " sources"] 0%nat).
  - reflexivity.
  - reflexivity.
  - reflexivity.
  - reflexivity.
  - reflexivity.
  - vm_compute. reflexivity.
  - vm_compute. reflexivity.
Defined.

(** ** Sources of a valid event *)

Section Sources.
Context {conv : PyConv}.

(** Whether [validate_source] accepts does not depend on the context it is
    given, which only words the message. *)
Lemma validate_source_accepts_any_context source context msg :
  validate_source source context = Ret (true, msg) → accepted source = true.
Proof.
  unfold accepted, validate_source.
  destruct source as [| | | | | |src]; try discriminate.
  destruct (negb (key_in "url" src) && negb (key_in "title" src));
    [discriminate|].
  simpl.
  destruct (key_in "source_type" src); simpl.
  - destruct (negb (in_strs (item src "source_type") VALID_SOURCE_TYPES));
      [by destruct (py_str (item src "source_type"))|]. simpl.
    destruct (key_in "credibility_score" src); simpl; [|done].
    destruct (py_int (item src "credibility_score")) as [score|[]]; simpl;
      try discriminate.
    by destruct ((score <? 0) || (100 <? score)).
  - destruct (key_in "credibility_score" src); simpl; [|done].
    destruct (py_int (item src "credibility_score")) as [score|[]]; simpl;
      try discriminate.
    by destruct ((score <? 0) || (100 <? score)).
Qed.

Lemma validate_sources_from_next i sources :
  validate_sources_from i sources = Next tt →
  Forall (λ s, accepted s = true) sources.
Proof.
  revert i. induction sources as [|s rest IH]; intros i H; [done|].
  simpl in H.
  destruct (validate_source s _) as [[valid msg]|x] eqn:Hv; [|done].
  destruct valid; simpl in H; [|done].
  constructor; [by eapply validate_source_accepts_any_context|by eapply IH].
Qed.

Lemma validate_sources_from_return i sources r :
  validate_sources_from i sources = Return r → r.1 = false.
Proof.
  revert i. induction sources as [|s rest IH]; intros i H; [done|].
  simpl in H.
  destruct (validate_source s _) as [[valid msg]|x] eqn:Hv; [|done].
  destruct valid; simpl in H; [by eapply IH|]. by simplify_eq.
Qed.

(** Every source of an event that passes [validate_event] is accepted by
    [validate_source]. *)
Lemma validate_event_sources (d : pydict) msg l :
  validate_event (VDict d) = Ret (true, msg) →
  dict_get d "sources" (VList []) = VList l →
  Forall (λ s, accepted s = true) l.
Proof.
  intros Hv Hl. unfold validate_event in Hv.
  repeat match type of Hv with
  | call (return_if ?c _ ≫= _) = _ =>
      destruct c eqn:?; simpl in Hv; [discriminate|]
  | call (try_value ?e _ ≫= _) = _ =>
      destruct e as [?|[]] eqn:?; simpl in Hv; try discriminate
  | call ((if negb (in_strs ?v PRECISION_LEVELS) then _ else _) ≫= _) = _ =>
      destruct (in_strs v PRECISION_LEVELS) eqn:?; simpl in Hv;
        [|by destruct (py_str v)]
  end.
  assert (∀ m : flow (bool * text) unit,
            call (m ≫= λ _, Return (true, [])) = Ret (true, msg) →
            (∀ out, m = Return out → out.1 = false) → m = Next tt) as Hlast.
  { intros [[]|out|exc] Hc Hr; simpl in Hc; try done.
    specialize (Hr out eq_refl). destruct out as [b t]. simpl in *.
    by simplify_eq. }
  assert (call ((if key_in "sources" d
                 then match item d "sources" with
                      | VList sources => validate_sources_from 0 sources
                      | _ => Return (false, [Lit "sources must be a list"])
                      end
                 else mret tt) ≫= λ _, Return (true, [])) = Ret (true, msg))
    as Hs.
  { destruct (key_in "importance_score" d); simpl in Hv; [|done].
    destruct (py_int (item d "importance_score")) as [score|[]]; simpl in Hv;
      try discriminate.
    by destruct ((score <? 0) || (100 <? score)). }
  clear Hv. unfold dict_get, item in *.
  destruct (key_in "sources" d) eqn:Hk.
  - apply key_in_true in Hk as [v Hk]. rewrite Hk in Hl, Hs. simpl in Hl, Hs.
    subst v. apply Hlast in Hs.
    + by eapply validate_sources_from_next.
    + intros out. apply validate_sources_from_return.
  - apply key_in_false in Hk. rewrite Hk in Hl. simpl in Hl. by simplify_eq.
Qed.

End Sources.

(** C9, as the specification states it, fails: a candidate with three
    sources of which one has neither [url] nor [title] is rejected by
    [validate_event], which names the index of that source, and nothing is
    written. *)
Lemma ingest_rejects_event_with_invalid_source :
  let w := sample_world false []
             [moon_landing [src_wikipedia; src_citation_only; src_book]] in
  ingest_event_with_sources (conv := ascii_conv) 0 None w
  = (Ret (false,
          [Lit "Event validation failed: "; Lit "sources["; Fmt (VInt 1);
           Lit "]"; Lit ": must have 'url' or 'title'"], None),
     with_stats incr_events_skipped w)
  ∧ accepted (conv := ascii_conv) src_citation_only = false
  ∧ accepted (conv := ascii_conv) src_wikipedia = true
  ∧ accepted (conv := ascii_conv) src_book = true.
Proof. vm_compute. split_and!; reflexivity. Qed.

(** C9, amended.  Every source of an event that is ingested successfully
    is one that [validate_source] accepts, so no source is skipped at
    insert time and the event gets exactly one source row per source of
    the candidate (three rows for three sources).  An event whose sources
    list holds a source that [validate_source] does not accept is not
    ingested: [validate_event], which runs first, either rejects the event,
    and the call returns [(False, "Event validation failed: ...", None)]
    with only the skip counter changed, or raises, and the call raises the
    same exception with nothing changed. *)
Theorem ingest_inserts_every_source {conv : PyConv} w event user_id
    (d : pydict) l :
  heap w !! event = Some (VDict d) →
  d !! "sources" = Some (VList l) →
  (∀ msg id w',
     dry_run w = false →
     ingest_event_with_sources event user_id w = (Ret (true, msg, Some id), w') →
     Forall (λ s, accepted s = true) l
     ∧ ∃ srows,
         event_sources (committed (conn w'))
         = event_sources (working (conn w)) ++ srows
         ∧ length srows = length l
         ∧ Forall (λ r, src_event_id r = id) srows)
  ∧ (¬ Forall (λ s, accepted s = true) l →
     (∃ vmsg,
        validate_event (VDict d) = Ret (false, vmsg)
        ∧ ingest_event_with_sources event user_id w
          = (Ret (false, Lit "Event validation failed: " :: vmsg, None),
             with_stats incr_events_skipped w))
     ∨ (∃ x,
          validate_event (VDict d) = Raise x
          ∧ ingest_event_with_sources event user_id w = (Raise x, w))).
Proof.
  intros Hh Hl. split.
  - intros msg id w' Hd H.
    destruct (ingest_success _ _ _ _ _ _ _ Hd Hh H)
      as (c & erow & srows & lrows & l' & vmsg & Hv & Hid & _ & _ & _ & Hl' & Hcm
          & _ & _ & _ & _ & _ & _ & Hlen & Hall & _).
    assert (l' = l) as ->.
    { unfold dict_get in Hl'. rewrite Hl in Hl'. simpl in Hl'. by simplify_eq. }
    pose proof (validate_event_sources d vmsg l Hv Hl') as Hacc.
    split; [done|]. exists srows. rewrite Hcm. simpl. split_and!; try done.
    rewrite Hlen. f_equal. clear -Hacc.
    induction Hacc as [|s l Hs Hacc IH]; [done|].
    rewrite filter_cons. rewrite decide_True by done. by rewrite IH.
  - intros Hnot.
    destruct (validate_event (VDict d)) as [[[] vmsg]|x] eqn:Hv.
    + destruct Hnot. apply (validate_event_sources d vmsg l Hv).
      unfold dict_get. by rewrite Hl.
    + left. exists vmsg. split; [done|]. by apply (ingest_invalid _ _ _ _ _ Hh).
    + right. exists x. split; [done|]. by apply (ingest_raise _ _ _ _ _ Hh).
Qed.

Lemma ingest_inserts_every_source_witness :
  let w := sample_world false [] [moon_landing [src_wikipedia; src_blank; src_book]] in
  let w' := (ingest_event_with_sources (conv := ascii_conv) 0 None w).2 in
  let v := sample_world false []
             [moon_landing [src_wikipedia; src_citation_only; src_book]] in
  (Forall (λ s, accepted (conv := ascii_conv) s = true)
     [src_wikipedia; src_blank; src_book]
   ∧ ∃ srows,
       event_sources (committed (conn w')) = [] ++ srows
       ∧ length srows = 3%nat
       ∧ Forall (λ r, src_event_id r = 0%nat) srows)
  ∧ ((∃ vmsg,
        validate_event (conv := ascii_conv)
          (moon_landing [src_wikipedia; src_citation_only; src_book])
        = Ret (false, vmsg)
        ∧ ingest_event_with_sources (conv := ascii_conv) 0 None v
          = (Ret (false, Lit "Event validation failed: " :: vmsg, None),
             with_stats incr_events_skipped v))
     ∨ (∃ x,
          validate_event (conv := ascii_conv)
            (moon_landing [src_wikipedia; src_citation_only; src_book])
          = Raise x
          ∧ ingest_event_with_sources (conv := ascii_conv) 0 None v
            = (Raise x, v))).
Proof.
  split.
  - apply (proj1 (ingest_inserts_every_source (conv := ascii_conv)
             (sample_world false []
                [moon_landing [src_wikipedia; src_blank; src_book]])
             0%nat None (moon_landing_dict [src_wikipedia; src_blank; src_book])
             [src_wikipedia; src_blank; src_book] eq_refl eq_refl)
           [Lit "Created event with "; Fmt (VInt 3); Lit " sources"] 0%nat).
    + reflexivity.
    + vm_compute. reflexivity.
  - apply (proj2 (ingest_inserts_every_source (conv := ascii_conv)
             (sample_world false []
                [moon_landing [src_wikipedia; src_citation_only; src_book]])
             0%nat None
             (moon_landing_dict [src_wikipedia; src_citation_only; src_book])
             [src_wikipedia; src_citation_only; src_book] eq_refl eq_refl)).
    intros Hall. apply Forall_cons in Hall as [_ Hall].
    apply Forall_cons in Hall as [Hall _]. vm_compute in Hall. discriminate.
Defined.

(** ** What a call leaves alone *)

Section Frames.
Context {conv : PyConv}.

Lemma keeps_obj_pop {R X} (f : world → X) o k dflt :
  (∀ g w, f (with_heap g w) = f w) → keeps f (obj_pop o k dflt : M R pyval).
Proof.
  intros Hf w. unfold obj_pop, deref, gets. rewrite bind_run. simpl.
  destruct (default VNone (heap w !! o)); try done. apply Hf.
Qed.

Lemma keeps_dry_run_insert_sources {R} event event_id user_id sources ids :
  keeps dry_run (insert_sources event event_id user_id sources ids : M R (list uuid)).
Proof.
  revert ids. induction sources as [|s rest IH]; intros ids; simpl.
  - apply keeps_ret.
  - repeat first [ apply IH | keeps_step ].
Qed.

Lemma keeps_committed_insert_sources {R} event event_id user_id sources ids :
  keeps (λ w, committed (conn w))
    (insert_sources event event_id user_id sources ids : M R (list uuid)).
Proof.
  revert ids. induction sources as [|s rest IH]; intros ids; simpl.
  - apply keeps_ret.
  - repeat first [ apply IH | keeps_step ].
Qed.

Lemma keeps_dry_run_unit_of_work event user_id :
  keeps dry_run (unit_of_work event user_id).
Proof.
  unfold unit_of_work.
  repeat first [ apply keeps_dry_run_insert_sources
               | apply keeps_obj_pop; done | keeps_step ].
Qed.

Lemma ingest_dry_run event user_id w :
  dry_run (ingest_event_with_sources event user_id w).2 = dry_run w.
Proof.
  unfold ingest_event_with_sources, call_m.
  match goal with |- dry_run (match ?m w with _ => _ end).2 = _ =>
    assert (keeps dry_run m) as Hk end.
  { repeat keeps_step.
    apply keeps_try_finally; [|apply keeps_ret].
    apply keeps_try_except_psycopg2; [apply keeps_dry_run_unit_of_work|].
    intros e. unfold on_database_error. repeat keeps_step. }
  specialize (Hk w). revert Hk.
  match goal with |- _ (?m w).2 = _ → _ =>
    by destruct (m w) as [[v1|r1|x1] w1] end.
Qed.

Lemma keeps_on_throw_bind {R A B X} (f : world → X) (m : M R A) (k : A → M R B) :
  keeps f m → (∀ a, keeps_on_throw f (k a)) → keeps_on_throw f (m ≫= k).
Proof.
  intros Hm Hk w x w1. rewrite bind_run. specialize (Hm w).
  destruct (m w) as [[a|r|y] w2]; simpl in *; intros H; simplify_eq; [|done].
  rewrite <- Hm. by eapply Hk.
Qed.

(** A run of the [try] block that raises has committed nothing. *)
Lemma unit_of_work_throw_committed event user_id w x w1 :
  unit_of_work event user_id w = (Throw x, w1) →
  committed (conn w1) = committed (conn w).
Proof.
  revert w x w1. change (keeps_on_throw (λ w, committed (conn w))
                           (unit_of_work event user_id)).
  unfold unit_of_work.
  repeat (apply keeps_on_throw_bind;
          [solve [repeat first [ apply keeps_committed_insert_sources
                               | apply keeps_obj_pop; done | keeps_step ]]
          |intros ?]).
  intros w x w1. rewrite bind_run.
  destruct (commit_cases (R := outcome) w) as [->|(e & _ & ->)];
    unfold return_now; intros H; by simplify_eq.
Qed.

End Frames.

(** ** A persistence error inside the unit of work *)

(** C1.  When the unit of work of a call fails with a persistence-layer
    error (at whatever statement: the category lookup, the event insert, a
    later source or location insert, the commit), the call rolls the
    transaction back and returns [(False, "Database error: ...", None)]:
    the committed tables are what they were before the call, nothing is
    left pending, and no row carries the identifier drawn for the attempt
    (the first one the call draws, [next_uuid w]). *)
Theorem database_error_rolls_back {conv : PyConv} w event user_id ev vmsg e w1 :
  dry_run w = false →
  heap w !! event = Some ev →
  validate_event ev = Ret (true, vmsg) →
  ids_below (next_uuid w) (committed (conn w)) →
  unit_of_work event user_id w = (Throw (Psycopg2Error e), w1) →
  ∃ w',
    ingest_event_with_sources event user_id w
    = (Ret (false, [Lit "Database error: "; Lit e], None), w')
    ∧ committed (conn w') = committed (conn w)
    ∧ working (conn w') = committed (conn w')
    ∧ Forall (λ r, ev_id r ≠ next_uuid w) (events (committed (conn w')))
    ∧ Forall (λ r, src_event_id r ≠ next_uuid w)
        (event_sources (committed (conn w')))
    ∧ Forall (λ r, loc_event_id r ≠ next_uuid w)
        (event_locations (committed (conn w'))).
Proof.
  intros Hd Hh Hv (Hev & Hsrc & Hloc) Hu.
  rewrite (ingest_valid _ _ _ _ _ Hh Hv Hd).
  unfold call_m, try_except_psycopg2. rewrite Hu.
  pose proof (unit_of_work_throw_committed _ _ _ _ _ Hu) as Hcm.
  eexists. split; [reflexivity|]. simpl. rewrite Hcm.
  split_and!; try done.
  - eapply Forall_impl; [exact Hev|]. simpl. lia.
  - eapply Forall_impl; [exact Hsrc|]. simpl. lia.
  - eapply Forall_impl; [exact Hloc|]. simpl. lia.
Qed.

(** The scenario of the specification: the category lookup and the event
    insert succeed, the insert of the first source fails; at that moment the
    event row is pending in the transaction. *)
Example unit_of_work_fails_at_source_insert :
  let w := sample_world false [None; None; Some "connection lost"]
             [moon_landing [src_wikipedia; src_book]] in
  let r := unit_of_work (conv := ascii_conv) 0 None w in
  r.1 = Throw (Psycopg2Error "connection lost")
  ∧ ev_id <$> events (working (conn r.2)) = [0%nat]
  ∧ committed (conn r.2) = no_rows.
Proof. vm_compute. split_and!; reflexivity. Qed.

Lemma database_error_rolls_back_witness :
  let w := sample_world false [None; None; Some "connection lost"]
             [moon_landing [src_wikipedia; src_book]] in
  ∃ w',
    ingest_event_with_sources (conv := ascii_conv) 0 None w
    = (Ret (false, [Lit "Database error: "; Lit "connection lost"], None), w')
    ∧ committed (conn w') = no_rows
    ∧ working (conn w') = committed (conn w')
    ∧ Forall (λ r, ev_id r ≠ 0%nat) (events (committed (conn w')))
    ∧ Forall (λ r, src_event_id r ≠ 0%nat) (event_sources (committed (conn w')))
    ∧ Forall (λ r, loc_event_id r ≠ 0%nat) (event_locations (committed (conn w'))).
Proof.
  apply (database_error_rolls_back (conv := ascii_conv)
           (sample_world false [None; None; Some "connection lost"]
              [moon_landing [src_wikipedia; src_book]])
           0%nat None (moon_landing [src_wikipedia; src_book]) []
           "connection lost"
           (unit_of_work (conv := ascii_conv) 0 None
              (sample_world false [None; None; Some "connection lost"]
                 [moon_landing [src_wikipedia; src_book]])).2).
  - reflexivity.
  - reflexivity.
  - vm_compute. reflexivity.
  - repeat split; constructor.
  - vm_compute. reflexivity.
Defined.

(** C3 fails on the code: [events_created] is incremented right after the
    event INSERT, and [sources_created] after each source INSERT, before the
    commit; when a later statement fails the transaction is rolled back but
    the counters keep what was added.  Here the second source insert fails:
    the call is rejected and the store is empty, yet the counters report one
    event and one source created. *)
Example counters_survive_rollback :
  let w := sample_world false [None; None; None; Some "connection lost"]
             [moon_landing [src_wikipedia; src_book]] in
  let r := ingest_event_with_sources (conv := ascii_conv) 0 None w in
  r.1 = Ret (false, [Lit "Database error: "; Lit "connection lost"], None)
  ∧ committed (conn r.2) = no_rows
  ∧ events_created (stats r.2) = 1
  ∧ sources_created (stats r.2) = 1
  ∧ events_skipped (stats r.2) = 1
  ∧ errors (stats r.2) = [[Lit "Database error: "; Lit "connection lost"]].
Proof. vm_compute. split_and!; reflexivity. Qed.

(** C4 fails on the code: only [psycopg2.Error] is caught.  [unix_nanos] is
    not looked at by [validate_event], and [int(None)] in the unit of work
    raises [TypeError], which leaves [ingest_event_with_sources] and then
    [ingest_batch]: the candidate after it is never processed. *)
Example batch_aborts_on_null_unix_nanos :
  let w := sample_world false [] [moon_landing_null_nanos; bastille] in
  let r := ingest_batch (conv := ascii_conv) [0; 1]%nat None w in
  validate_event (conv := ascii_conv) moon_landing_null_nanos = Ret (true, [])
  ∧ r.1 = Raise TypeError
  ∧ heap r.2 !! 1%nat = Some bastille
  ∧ stats r.2
    = {| events_created := 0; sources_created := 0; events_skipped := 0;
         image_urls_replaced := 1; errors := [] |}
  ∧ committed (conn r.2) = no_rows
  ∧ (ingest_batch (conv := ascii_conv) [1]%nat None w).1
    = Ret {| events_created := 1; sources_created := 0; events_skipped := 0;
             image_urls_replaced := 0; errors := [] |}.
Proof. vm_compute. split_and!; reflexivity. Qed.

(** ** A unit of work that meets no fault *)

Section Progress.
Context {conv : PyConv}.

Lemma no_faults_tail w :
  no_faults w → no_faults (with_conn (with_outcomes (tail (outcomes (conn w)))) w).
Proof. unfold no_faults. simpl. by apply Forall_tail. Qed.

Lemma server_answer_ok {R} w :
  no_faults w →
  (server_answer : M R unit) w
  = (Next tt, with_conn (with_outcomes (tail (outcomes (conn w)))) w).
Proof.
  intros Hn. destruct (server_answer_cases (R := R) w) as [->|(e & He & _)];
    [done|].
  unfold no_faults in Hn. destruct (outcomes (conn w)) as [|o rest]; [done|].
  apply Forall_cons in Hn as [-> _]. done.
Qed.

Lemma execute_insert_ok {R} ins w :
  no_faults w →
  (execute_insert ins : M R unit) w
  = (Next tt, with_conn (with_working ins)
                (with_conn (with_outcomes (tail (outcomes (conn w)))) w)).
Proof.
  intros Hn. unfold execute_insert. rewrite bind_run.
  by rewrite server_answer_ok.
Qed.

Lemma select_category_ok {R} c w :
  no_faults w →
  (select_category c : M R bool) w
  = (Next (in_strs c (categories (conn w))),
     with_conn (with_outcomes (tail (outcomes (conn w)))) w).
Proof.
  intros Hn. unfold select_category. rewrite bind_run.
  by rewrite server_answer_ok.
Qed.

Lemma commit_ok {R} w :
  no_faults w →
  (commit : M R unit) w
  = (Next tt, with_conn (λ c, {| categories := categories c;
                                 committed := working c; working := working c;
                                 outcomes := outcomes c |})
                (with_conn (with_outcomes (tail (outcomes (conn w)))) w)).
Proof.
  intros Hn. unfold commit. rewrite bind_run. by rewrite server_answer_ok.
Qed.

Ltac solve_no_faults :=
  unfold no_faults in *; simpl; repeat apply Forall_tail; assumption.

(** An accepted source has a credibility score that [int] reads. *)
Lemma accepted_credibility (src : pydict) :
  accepted (VDict src) = true →
  ∃ z, py_int (dict_get src "credibility_score" (VInt 50)) = Ret z.
Proof.
  unfold accepted, validate_source, dict_get, item. intros Hacc.
  destruct (key_in "credibility_score" src) eqn:Hk.
  - apply key_in_true in Hk as [v Hk]. rewrite Hk in Hacc |- *. simpl in *.
    destruct (py_int v) as [z|exc]; [eauto|]. exfalso.
    destruct (negb (key_in "url" src) && negb (key_in "title" src)); [done|].
    simpl in Hacc.
    destruct (key_in "source_type" src); simpl in Hacc.
    + destruct (negb (in_strs _ VALID_SOURCE_TYPES));
        [by destruct (py_str _)|]. simpl in Hacc.
      by destruct exc.
    + by destruct exc.
  - apply key_in_false in Hk. rewrite Hk. simpl. eauto.
Qed.

Lemma insert_sources_progress {R} event event_id user_id sources ids w :
  Forall (λ s, accepted s = true) sources →
  no_faults w →
  ∃ ids' w',
    (insert_sources event event_id user_id sources ids : M R (list uuid)) w
    = (Next ids', w')
    ∧ no_faults w'.
Proof.
  intros Hall. revert ids w.
  induction Hall as [|s rest Hs Hall IH]; intros ids w Hn;
    cbn [insert_sources].
  - rewrite mret_run. eauto.
  - pose proof Hs as Hs'. unfold accepted in Hs'.
    destruct (validate_source s [Lit "source"]) as [[[] msg]|] eqn:Hv; try done.
    destruct (validate_source_accepted _ _ _ Hv) as (src & -> & _).
    destruct (accepted_credibility src Hs) as [z Hz].
    rewrite bind_run, lift_Ret_run. cbv beta iota.
    change (negb true) with false. cbv iota.
    rewrite bind_run. unfold uuid4 at 1. cbv beta iota.
    do 5 (rewrite bind_run, val_get_dict_run; cbv beta iota).
    rewrite bind_run, Hz, lift_Ret_run. cbv beta iota.
    rewrite bind_run, execute_insert_ok by done. cbv beta iota.
    rewrite bind_run. unfold modify at 1. cbv beta iota.
    apply IH. by apply no_faults_tail.
Qed.

(** With a valid candidate, a registered category and a server that
    answers, the [try] block returns success. *)
Lemma unit_of_work_progress event user_id (d : pydict) w c us z1 t z2 pl z3 l :
  heap w !! event = Some (VDict d) →
  d !! "category" = Some (VStr c) →
  c ∈ categories (conn w) →
  d !! "unix_seconds" = Some us →
  py_int us = Ret z1 →
  d !! "title" = Some t →
  py_int (dict_get d "unix_nanos" (VInt 0)) = Ret z2 →
  d !! "precision_level" = Some pl →
  py_int (dict_get d "importance_score" (VInt 50)) = Ret z3 →
  dict_get d "sources" (VList []) = VList l →
  Forall (λ s, accepted s = true) l →
  renders t = true →
  (is_none (dict_get d "latitude" VNone) = false →
   is_none (dict_get d "longitude" VNone) = false →
   render_all [dict_get d "location_name" VNone;
               dict_get d "latitude" VNone;
               dict_get d "longitude" VNone] = Ret tt) →
  no_faults w →
  ∃ msg id w',
    unit_of_work event user_id w = (Return (true, msg, Some id), w').
Proof.
  intros Hh Hc Hcin Hus Hz1 Ht Hz2 Hpl Hz3 Hl Hacc Hrt Hloc Hn.
  unfold unit_of_work.
  rewrite bind_run, cursor_run. cbv beta iota.
  rewrite bind_run. unfold uuid4 at 1. cbv beta iota.
  rewrite bind_run, (obj_pop_run _ _ _ d) by done. cbv beta iota.
  rewrite bind_run, (obj_pop_run _ _ _ (delete "sources" d))
    by (simpl; apply lookup_insert_eq). cbv beta iota.
  rewrite bind_run, (obj_pop_run _ _ _ (delete "category" (delete "sources" d)))
    by (simpl; apply lookup_insert_eq). cbv beta iota.
  rewrite bind_run, (obj_pop_run _ _ _
    (delete "latitude" (delete "category" (delete "sources" d))))
    by (simpl; apply lookup_insert_eq). cbv beta iota.
  rewrite bind_run, (obj_pop_run _ _ _
    (delete "longitude" (delete "latitude" (delete "category" (delete "sources" d)))))
    by (simpl; apply lookup_insert_eq). cbv beta iota.
  rewrite !dict_get_delete_ne by done.
  assert (dict_get d "category" VNone = VStr c) as ->
    by (unfold dict_get; by rewrite Hc).
  rewrite Hl.
  match goal with |- context [_ ?w0 = _] =>
    match type of w0 with world => remember w0 as w5 eqn:Hw5 end end.
  assert (heap w5 !! event = Some (VDict (popped d))) as Hh5
    by (subst w5; simpl; rewrite !insert_insert_eq; apply lookup_insert_eq).
  assert (categories (conn w5) = categories (conn w)) as Hc5 by by subst w5.
  assert (no_faults w5) as Hn5 by by subst w5.
  clear Hw5.
  (* the category is found *)
  rewrite bind_run, select_category_ok by done. cbv beta iota.
  simpl in_strs. rewrite Hc5, bool_decide_eq_true_2 by done.
  simpl negb. rewrite if_then_false, bind_run, mret_run. cbv beta iota.
  (* the image *)
  rewrite bind_run, (obj_get_run _ _ _ (popped d)) by done. cbv beta iota.
  rewrite bind_run, resolve_image_run. cbv beta iota.
  match goal with |- context [image_choice ?ic c ?s] =>
    generalize (image_choice ic c s); intros choice end.
  match goal with |- context [_ ?w0 = _] =>
    match type of w0 with world => remember w0 as w6 eqn:Hw6 end end.
  assert (heap w6 !! event = Some (VDict (popped d))) as Hh6
    by (subst w6; by destruct (choice.2); simpl).
  assert (no_faults w6) as Hn6
    by (subst w6; destruct (choice.2); by apply no_faults_tail).
  clear Hw6.
  (* the row *)
  assert (∀ k, k ∉ popped_keys → popped d !! k = d !! k) as Hkeep.
  { intros k Hk. rewrite lookup_popped. by rewrite bool_decide_eq_false_2. }
  assert (∀ k dflt, k ∉ popped_keys →
            dict_get (popped d) k dflt = dict_get d k dflt) as Hkeep'.
  { intros k dflt Hk. unfold dict_get. by rewrite Hkeep. }
  assert (∀ k, bool_decide (k ∈ popped_keys) = false → k ∉ popped_keys) as Hnot.
  { intros k. by apply bool_decide_eq_false_1. }
  rewrite bind_run, (obj_item_run _ _ (popped d)) by done.
  rewrite Hkeep, Hus by by apply Hnot. cbv beta iota.
  rewrite bind_run, Hz1, lift_Ret_run. cbv beta iota.
  rewrite bind_run, (obj_item_run _ _ (popped d)) by done.
  rewrite Hkeep, Ht by by apply Hnot. cbv beta iota.
  rewrite bind_run, (obj_get_run _ _ _ (popped d)) by done. cbv beta iota.
  rewrite Hkeep', Hz2 by by apply Hnot.
  rewrite bind_run, lift_Ret_run. cbv beta iota.
  rewrite bind_run, (obj_item_run _ _ (popped d)) by done.
  rewrite Hkeep, Hpl by by apply Hnot. cbv beta iota.
  rewrite bind_run, (obj_get_run _ _ _ (popped d)) by done. cbv beta iota.
  rewrite bind_run, (obj_get_run _ _ _ (popped d)) by done. cbv beta iota.
  rewrite (Hkeep' "importance_score"), Hz3 by by apply Hnot.
  rewrite bind_run, lift_Ret_run. cbv beta iota.
  rewrite bind_run, (obj_get_run _ _ _ (popped d)) by done. cbv beta iota.
  (* the inserts *)
  rewrite bind_run, execute_insert_ok by done. cbv beta iota.
  rewrite bind_run. unfold modify at 1. cbv beta iota.
  rewrite bind_run, (obj_item_run _ _ (popped d)) by done.
  rewrite Hkeep, Ht by by apply Hnot. cbv beta iota.
  rewrite bind_run. unfold logger at 1.
  rewrite (proj2 (render_all_one t) Hrt), lift_Ret_run. cbv beta iota.
  rewrite bind_run.
  match goal with |- context [insert_sources ?ev ?a ?b ?c0 ?e ?w0] =>
    destruct (insert_sources_progress (R := outcome) ev a b c0 e w0 Hacc)
      as (ids' & w7 & -> & Hn7); [solve_no_faults|]
  end.
  cbv beta iota.
  destruct (negb (is_none (dict_get d "latitude" VNone))
            && negb (is_none (dict_get d "longitude" VNone))) eqn:Hgeo.
  - apply andb_true_iff in Hgeo as [Hlat Hlon].
    apply negb_true_iff in Hlat, Hlon. specialize (Hloc Hlat Hlon).
    rewrite if_then_true, bind_assoc_run, bind_run. unfold uuid4 at 1.
    cbv beta iota.
    rewrite bind_assoc_run.
    rewrite bind_run, execute_insert_ok by solve_no_faults. cbv beta iota.
    rewrite bind_run. unfold logger at 1. rewrite Hloc, lift_Ret_run.
    cbv beta iota.
    rewrite bind_run, commit_ok by solve_no_faults.
    cbv beta iota. unfold return_now. eauto.
  - rewrite if_then_false, bind_run, mret_run. cbv beta iota.
    rewrite bind_run, commit_ok by solve_no_faults. cbv beta iota.
    unfold return_now. eauto.
Qed.

End Progress.

(** ** No deduplication *)

Section Resubmission.
Context {conv : PyConv}.

Lemma keeps_categories_insert_sources {R} event event_id user_id sources ids :
  keeps (λ w, categories (conn w))
    (insert_sources event event_id user_id sources ids : M R (list uuid)).
Proof.
  revert ids. induction sources as [|s rest IH]; intros ids; simpl.
  - apply keeps_ret.
  - repeat first [ apply IH | keeps_step ].
Qed.

Lemma ingest_categories event user_id w :
  categories (conn (ingest_event_with_sources event user_id w).2)
  = categories (conn w).
Proof.
  unfold ingest_event_with_sources, call_m.
  match goal with |- categories (conn (match ?m w with _ => _ end).2) = _ =>
    assert (keeps (λ w, categories (conn w)) m) as Hk end.
  { repeat keeps_step.
    apply keeps_try_finally; [|apply keeps_ret].
    apply keeps_try_except_psycopg2.
    - unfold unit_of_work.
      repeat first [ apply keeps_categories_insert_sources
                   | apply keeps_obj_pop; done | keeps_step ].
    - intros e. unfold on_database_error. repeat keeps_step. }
  specialize (Hk w). revert Hk. simpl.
  match goal with |- _ (_ (?m w).2) = _ → _ =>
    by destruct (m w) as [[v1|r1|x1] w1] end.
Qed.

(** A valid candidate whose category is registered is ingested whenever
    the server answers every statement. *)
Lemma ingest_progress event user_id (d : pydict) w vmsg c us z1 t z2 pl z3 l :
  dry_run w = false →
  heap w !! event = Some (VDict d) →
  validate_event (VDict d) = Ret (true, vmsg) →
  d !! "category" = Some (VStr c) →
  c ∈ categories (conn w) →
  d !! "unix_seconds" = Some us →
  py_int us = Ret z1 →
  d !! "title" = Some t →
  py_int (dict_get d "unix_nanos" (VInt 0)) = Ret z2 →
  d !! "precision_level" = Some pl →
  py_int (dict_get d "importance_score" (VInt 50)) = Ret z3 →
  dict_get d "sources" (VList []) = VList l →
  renders t = true →
  (is_none (dict_get d "latitude" VNone) = false →
   is_none (dict_get d "longitude" VNone) = false →
   render_all [dict_get d "location_name" VNone;
               dict_get d "latitude" VNone;
               dict_get d "longitude" VNone] = Ret tt) →
  no_faults w →
  ∃ msg id w',
    ingest_event_with_sources event user_id w = (Ret (true, msg, Some id), w').
Proof.
  intros Hd Hh Hv Hc Hcin Hus Hz1 Ht Hz2 Hpl Hz3 Hl Hrt Hloc Hn.
  pose proof (validate_event_sources d vmsg l Hv Hl) as Hacc.
  destruct (unit_of_work_progress event user_id d w c us z1 t z2 pl z3 l)
    as (msg & id & w' & Hu); try done.
  exists msg, id, w'. rewrite (ingest_valid _ _ _ _ _ Hh Hv Hd).
  unfold call_m, try_except_psycopg2. by rewrite Hu.
Qed.

End Resubmission.

(** C5, as the specification states it, fails when the identical candidate
    is the same record object: the first call pops five keys out of it, so
    the second call rejects it for its latitude, and one event row exists. *)
Lemma same_candidate_twice_gives_one_event :
  let w := sample_world false [] [moon_landing [src_wikipedia]] in
  let r1 := ingest_event_with_sources (conv := ascii_conv) 0 None w in
  let r2 := ingest_event_with_sources (conv := ascii_conv) 0 None r1.2 in
  r1.1 = Ret (true, [Lit "Created event with "; Fmt (VInt 1); Lit " sources"],
              Some 0%nat)
  ∧ r2.1 = Ret (false,
                [Lit "Event validation failed: ";
                 Lit "Missing required field: latitude (all events must have geo point)"],
                None)
  ∧ ev_id <$> events (committed (conn r2.2)) = [0%nat].
Proof. vm_compute. split_and!; reflexivity. Qed.

(** C5, amended.  After a successful call for a candidate, a call for a
    second candidate object with the same content (the same title,
    timestamp and everything else) gives a second event: when the server
    answers its statements the second call succeeds as well, with an
    identifier different from the first (each call draws its own
    identifier from the supply of [uuid4], which is taken never to repeat),
    and the events table holds one more row for each call, the two rows
    agreeing on title and timestamp; nothing in the call looks for an
    earlier event with the same identity.  A second call for the same
    candidate object is rejected by validation, which no longer finds the
    latitude, and the events table holds the one row of the first call. *)
Theorem resubmission_creates_second_event {conv : PyConv} w e1 u1 u2
    (d : pydict) msg1 id1 w1 :
  dry_run w = false →
  working (conn w) = committed (conn w) →
  heap w !! e1 = Some (VDict d) →
  ingest_event_with_sources e1 u1 w = (Ret (true, msg1, Some id1), w1) →
  (∀ e2,
     e1 ≠ e2 →
     heap w !! e2 = Some (VDict d) →
     no_faults w1 →
     ∃ msg2 id2 w2 r1 r2,
       ingest_event_with_sources e2 u2 w1 = (Ret (true, msg2, Some id2), w2)
       ∧ id1 ≠ id2
       ∧ events (committed (conn w2)) = events (committed (conn w)) ++ [r1; r2]
       ∧ ev_id r1 = id1 ∧ ev_id r2 = id2
       ∧ ev_title r1 = ev_title r2
       ∧ ev_unix_seconds r1 = ev_unix_seconds r2)
  ∧ (∃ r1,
       ingest_event_with_sources e1 u2 w1
       = (Ret (false,
               [Lit "Event validation failed: ";
                Lit "Missing required field: latitude (all events must have geo point)"],
               None),
          with_stats incr_events_skipped w1)
       ∧ events (committed (conn w1)) = events (committed (conn w)) ++ [r1]
       ∧ ev_id r1 = id1).
Proof.
  intros Hd Hidle Hh1 H1.
  destruct (ingest_success _ _ _ _ _ _ _ Hd Hh1 H1)
    as (c & r1 & srows & lrows & l & vmsg & Hv & Hid1 & Hlt & Hc & Hcin & Hl
        & Hcm1 & Hwk1 & Hev1 & Ht1 & _ & Hus1 & _ & _ & _ & _ & _
        & Htitle & Hpl & [us Hus] & Hnanos & Himp).
  destruct (ingest_success_renders _ _ _ _ _ _ _ Hd Hh1 H1) as [Hrt Hloc].
  assert (dry_run w1 = false) as Hd1.
  { pose proof (ingest_dry_run e1 u1 w) as Hk. rewrite H1 in Hk. simpl in Hk.
    congruence. }
  assert (heap w1 = <[e1 := VDict (popped d)]> (heap w)) as Hheap.
  { pose proof (ingest_heap e1 u1 d vmsg w Hd Hh1 Hv) as Hk.
    by rewrite H1 in Hk. }
  split.
  - intros e2 Hne Hh2 Hn.
    assert (heap w1 !! e2 = Some (VDict d)) as Hh2'.
    { rewrite Hheap. by rewrite lookup_insert_ne. }
    assert (categories (conn w1) = categories (conn w)) as Hcat1.
    { pose proof (ingest_categories e1 u1 w) as Hk. by rewrite H1 in Hk. }
    unfold item in Hus1. rewrite Hus in Hus1. simpl in Hus1.
    unfold item in Hrt. rewrite Htitle in Hrt. simpl in Hrt.
    destruct (ingest_progress e2 u2 d w1 vmsg c us (ev_unix_seconds r1)
                (ev_title r1) (ev_unix_nanos r1) (ev_precision_level r1)
                (ev_importance_score r1) l)
      as (msg2 & id2 & w2 & H2); try done.
    { by rewrite Hcat1. }
    destruct (ingest_success _ _ _ _ _ _ _ Hd1 Hh2' H2)
      as (c' & r2 & srows' & lrows' & l' & vmsg' & _ & Hid2 & _ & _ & _ & _
          & Hcm2 & _ & Hev2 & Ht2 & _ & Hus2 & _).
    exists msg2, id2, w2, r1, r2. split; [done|].
    assert ((next_uuid w < next_uuid w1)%nat) as Hlt' by done.
    split_and!; try done.
    + subst id1 id2. lia.
    + rewrite Hcm2. simpl. rewrite Hwk1, Hcm1. simpl. rewrite Hidle.
      by rewrite <- app_assoc.
    + by rewrite Ht1, Ht2.
    + unfold item in Hus2. rewrite Hus in Hus2. simpl in Hus2. congruence.
  - exists r1. split_and!; [|by rewrite Hcm1; simpl; rewrite Hidle|done].
    apply (ingest_invalid e1 u2 w1 (VDict (popped d))).
    + rewrite Hheap. apply lookup_insert_eq.
    + by eapply validate_event_popped.
Qed.

Lemma resubmission_creates_second_event_witness :
  let w := sample_world false []
             [moon_landing [src_wikipedia]; moon_landing [src_wikipedia]] in
  let w1 := (ingest_event_with_sources (conv := ascii_conv) 0 None w).2 in
  (∃ msg2 id2 w2 r1 r2,
     ingest_event_with_sources (conv := ascii_conv) 1 None w1
     = (Ret (true, msg2, Some id2), w2)
     ∧ 0%nat ≠ id2
     ∧ events (committed (conn w2)) = [] ++ [r1; r2]
     ∧ ev_id r1 = 0%nat ∧ ev_id r2 = id2
     ∧ ev_title r1 = ev_title r2
     ∧ ev_unix_seconds r1 = ev_unix_seconds r2)
  ∧ (∃ r1,
       ingest_event_with_sources (conv := ascii_conv) 0 None w1
       = (Ret (false,
               [Lit "Event validation failed: ";
                Lit "Missing required field: latitude (all events must have geo point)"],
               None),
          with_stats incr_events_skipped w1)
       ∧ events (committed (conn w1)) = [] ++ [r1]
       ∧ ev_id r1 = 0%nat).
Proof.
  destruct (resubmission_creates_second_event (conv := ascii_conv)
              (sample_world false []
                 [moon_landing [src_wikipedia]; moon_landing [src_wikipedia]])
              0%nat None None (moon_landing_dict [src_wikipedia])
              [Lit "Created event with "; Fmt (VInt 1); Lit " sources"] 0%nat
              (ingest_event_with_sources (conv := ascii_conv) 0 None
                 (sample_world false []
                    [moon_landing [src_wikipedia]; moon_landing [src_wikipedia]])).2
              eq_refl eq_refl eq_refl)
    as [Hother Hsame].
  - vm_compute. reflexivity.
  - split; [|exact Hsame].
    apply (Hother 1%nat).
    + discriminate.
    + reflexivity.
    + vm_compute. constructor.
Defined.

(** * Further lemmas *)

(** ** What the validators accept *)

Section ValidatorsExact.
Context {conv : PyConv}.

Lemma in_strs_true v l : in_strs v l = true ↔ ∃ s, v = VStr s ∧ s ∈ l.
Proof.
  destruct v; simpl; try (split; [done|by intros (? & ? & ?)]).
  rewrite bool_decide_eq_true. split; [eauto|]. by intros (? & [= ->] & ?).
Qed.

Lemma score_in_range z : (z <? 0) || (100 <? z) = false ↔ 0 ≤ z ≤ 100.
Proof. rewrite orb_false_iff, !Z.ltb_ge. lia. Qed.

Lemma validate_source_true_iff source context msg :
  validate_source source context = Ret (true, msg)
  ↔ msg = [] ∧ well_formed_source source.
Proof.
  unfold well_formed_source. destruct source as [| | | | | |src];
    try (split; [done|by intros (_ & ? & ? & _)]).
  unfold validate_source, item.
  split.
  - intros Hv.
    destruct (key_in "url" src) eqn:Hu, (key_in "title" src) eqn:Ht;
      simpl in Hv; try done.
    all: destruct (key_in "source_type" src) eqn:Hst; simpl in Hv.
    all: try (destruct (in_strs (default VNone (src !! "source_type"))
                          VALID_SOURCE_TYPES) eqn:Hin; simpl in Hv;
              [|by destruct (py_str (default VNone (src !! "source_type")))]).
    all: destruct (key_in "credibility_score" src) eqn:Hcs; simpl in Hv.
    all: try (destruct (py_int (default VNone (src !! "credibility_score")))
                as [z|[]] eqn:Hz; simpl in Hv; try done;
              destruct ((z <? 0) || (100 <? z)) eqn:Hr; simpl in Hv; [done|]).
    all: injection Hv as <-; split; [done|]; exists src; split; [done|].
    all: split;
      [first [left; by apply key_in_true | right; by apply key_in_true]|].
    all: split.
    all: try (intros v Hv; rewrite Hv in *; simpl in *).
    all: try (by apply in_strs_true).
    all: try (apply key_in_false in Hst; congruence).
    all: try (apply key_in_false in Hcs; congruence).
    all: exists z; split; [done|]; by apply score_in_range.
  - intros (-> & src' & [= <-] & Hk & Hst & Hcs).
    assert (negb (key_in "url" src) && negb (key_in "title" src) = false) as ->.
    { destruct Hk as [Hk|Hk]; apply key_in_true in Hk; rewrite Hk; simpl;
        [done|by rewrite andb_false_r]. }
    simpl.
    destruct (key_in "source_type" src) eqn:Hst'; simpl.
    + apply key_in_true in Hst' as [v Hv]. rewrite Hv. simpl.
      apply Hst in Hv as Hin. apply in_strs_true in Hin. rewrite Hin. simpl.
      destruct (key_in "credibility_score" src) eqn:Hcs'; simpl; [|done].
      apply key_in_true in Hcs' as [v' Hv']. rewrite Hv'. simpl.
      apply Hcs in Hv' as (z & -> & Hz%score_in_range). simpl. by rewrite Hz.
    + destruct (key_in "credibility_score" src) eqn:Hcs'; simpl; [|done].
      apply key_in_true in Hcs' as [v' Hv']. rewrite Hv'. simpl.
      apply Hcs in Hv' as (z & -> & Hz%score_in_range). simpl. by rewrite Hz.
Qed.

Lemma validate_source_wf source context :
  well_formed_source source → validate_source source context = Ret (true, []).
Proof. intros Hwf. by apply validate_source_true_iff. Qed.

End ValidatorsExact.

Section ValidateEventExact.
Context {conv : PyConv}.

Lemma validate_sources_from_wf i sources :
  validate_sources_from i sources = Next tt ↔ Forall well_formed_source sources.
Proof.
  revert i. induction sources as [|s rest IH]; intros i; simpl; [done|].
  rewrite Forall_cons, <- (IH (i + 1)).
  destruct (validate_source s _) as [[[] msg]|x] eqn:Hv; simpl.
  - apply validate_source_true_iff in Hv as [_ Hv]. tauto.
  - split; [done|]. intros [Hwf _].
    apply (validate_source_wf _ [Lit "sources["; Fmt (VInt i); Lit "]"]) in Hwf.
    congruence.
  - split; [done|]. intros [Hwf _].
    apply (validate_source_wf _ [Lit "sources["; Fmt (VInt i); Lit "]"]) in Hwf.
    congruence.
Qed.

Lemma item_lookup (d : pydict) k v : d !! k = Some v → item d k = v.
Proof. unfold item. by intros ->. Qed.

Lemma key_in_lookup (d : pydict) k v : d !! k = Some v → key_in k d = true.
Proof. intros H. apply key_in_true. by rewrite H. Qed.

Lemma is_none_false v : is_none v = false ↔ v ≠ VNone.
Proof. by destruct v. Qed.

Lemma is_str_true v : is_str v = true ↔ ∃ s, v = VStr s.
Proof. destruct v; simpl; split; try done; eauto; by intros [? ?]. Qed.

Ltac vstep Hv H :=
  lazymatch type of Hv with
  | call (return_if ?c _ ≫= _) = _ =>
      destruct c eqn:H; simpl in Hv; [discriminate|]
  | call (try_value ?e _ ≫= _) = _ =>
      let x := fresh "x" in
      destruct e as [x|[]] eqn:H; simpl in Hv; try discriminate
  | call ((if negb (in_strs ?v ?l) then _ else _) ≫= _) = _ =>
      destruct (negb (in_strs v l)) eqn:H;
        [destruct (py_str v); simpl in Hv; discriminate|simpl in Hv]
  end.

(** The checks of [validate_event] before the sources, on a candidate
    whose fields pass them. *)
Lemma validate_event_upto_sources (ev : pydict) :
  (∃ t, ev !! "title" = Some t ∧ truthy t = true) →
  (∃ us z, ev !! "unix_seconds" = Some us ∧ py_int us = Ret z) →
  (∃ pl, ev !! "precision_level" = Some (VStr pl) ∧ pl ∈ PRECISION_LEVELS) →
  (∃ lat, ev !! "latitude" = Some lat ∧ coordinate_within (-90) 90 lat) →
  (∃ lon, ev !! "longitude" = Some lon ∧ coordinate_within (-180) 180 lon) →
  (∃ c, ev !! "category" = Some (VStr c)) →
  (∀ v, ev !! "importance_score" = Some v →
     ∃ z, py_int v = Ret z ∧ 0 ≤ z ≤ 100) →
  validate_event (VDict ev)
  = call ((if key_in "sources" ev
           then match item ev "sources" with
                | VList sources => validate_sources_from 0 sources
                | _ => Return (false, [Lit "sources must be a list"])
                end
           else mret tt) ≫= λ _, Return (true, [])).
Proof.
  intros (t & Ht & Htt) (us & z & Hus & Hz) (pl & Hpl & Hpl')
    (lat & Hlat & Hlat1 & x & Hx & Hx1 & Hx2)
    (lon & Hlon & Hlon1 & y & Hy & Hy1 & Hy2) (c & Hc) Himp.
  unfold validate_event.
  rewrite (key_in_lookup _ _ _ Ht), (key_in_lookup _ _ _ Hus),
    (key_in_lookup _ _ _ Hpl), (key_in_lookup _ _ _ Hlat),
    (key_in_lookup _ _ _ Hlon), (key_in_lookup _ _ _ Hc).
  rewrite (item_lookup _ _ _ Ht), (item_lookup _ _ _ Hus),
    (item_lookup _ _ _ Hpl), (item_lookup _ _ _ Hlat),
    (item_lookup _ _ _ Hlon), (item_lookup _ _ _ Hc).
  rewrite Htt. apply is_none_false in Hlat1, Hlon1. rewrite Hlat1, Hlon1.
  cbn [negb orb is_str return_if mbind flow_bind].
  rewrite Hx. cbn [try_value mbind flow_bind]. rewrite Hx1, Hx2.
  cbn [negb orb is_str return_if mbind flow_bind].
  rewrite Hy. cbn [try_value mbind flow_bind]. rewrite Hy1, Hy2.
  cbn [negb orb is_str return_if mbind flow_bind].
  assert (in_strs (VStr pl) PRECISION_LEVELS = true) as ->
    by (apply in_strs_true; eauto).
  cbn [negb orb is_str return_if mbind flow_bind].
  rewrite Hz. cbn [try_value mbind flow_bind].
  assert ((if key_in "importance_score" ev
           then try_value (py_int (item ev "importance_score"))
                  (false, [Lit "importance_score must be numeric"]) ≫= λ score,
                return_if ((score <? 0) || (100 <? score))
                  (false, [Lit "importance_score must be between 0 and 100"])
           else mret tt) = (Next tt : flow (bool * text) unit)) as ->.
  { destruct (key_in "importance_score" ev) eqn:Hk; [|done].
    apply key_in_true in Hk as [v Hk]. rewrite (item_lookup _ _ _ Hk).
    apply Himp in Hk as (z' & -> & Hr%score_in_range). simpl. by rewrite Hr. }
  done.
Qed.

Lemma validate_event_true_iff event msg :
  validate_event event = Ret (true, msg) ↔ msg = [] ∧ well_formed_event event.
Proof.
  unfold well_formed_event. destruct event as [| | | | | |ev];
    try (split; [done|by intros (_ & ? & ? & _)]).
  split.
  - unfold validate_event. intros Hv.
    vstep Hv H1. vstep Hv H2. vstep Hv H3. vstep Hv H4. vstep Hv H5.
    vstep Hv H6. vstep Hv H7. vstep Hv H8. vstep Hv H9. vstep Hv H10.
    vstep Hv H11. vstep Hv H12. vstep Hv H13.
    apply orb_false_iff in H1 as [H1 H1']. apply negb_false_iff in H1, H1'.
    apply negb_false_iff in H2, H3, H6, H7, H12.
    apply orb_false_iff in H4 as [H4 H4']. apply negb_false_iff in H4.
    apply orb_false_iff in H5 as [H5 H5']. apply negb_false_iff in H5.
    apply orb_false_iff in H9 as [H9 H9'].
    apply orb_false_iff in H11 as [H11 H11'].
    apply key_in_true in H1 as [t Ht], H2 as [us Hus], H3 as [pl Hpl],
      H4 as [lat Hlat], H5 as [lon Hlon], H6 as [c Hc].
    unfold item in *. rewrite ?Ht, ?Hus, ?Hpl, ?Hlat, ?Hlon, ?Hc in *.
    simpl in *.
    apply is_str_true in H7 as [c' ->].
    apply in_strs_true in H12 as (pl' & -> & Hpl').
    apply is_none_false in H4', H5'.
    assert (call ((if key_in "sources" ev
                   then match default VNone (ev !! "sources") with
                        | VList sources => validate_sources_from 0 sources
                        | _ => Return (false, [Lit "sources must be a list"])
                        end
                   else mret tt) ≫= λ _, Return (true, [])) = Ret (true, msg)
            ∧ (∀ v, ev !! "importance_score" = Some v →
                 ∃ z, py_int v = Ret z ∧ 0 ≤ z ≤ 100)) as [Hs Himp].
    { destruct (key_in "importance_score" ev) eqn:Hk; simpl in Hv.
      - apply key_in_true in Hk as [v Hk]. rewrite Hk in Hv. simpl in Hv.
        destruct (py_int v) as [z|[]] eqn:Hz; simpl in Hv; try done.
        destruct ((z <? 0) || (100 <? z)) eqn:Hr; simpl in Hv; [done|].
        split; [done|]. intros v' Hv'. rewrite Hk in Hv'. injection Hv' as <-.
        exists z. split; [done|].
        by apply score_in_range.
      - split; [done|]. apply key_in_false in Hk. congruence. }
    clear Hv.
    assert (msg = [] ∧ (∀ v, ev !! "sources" = Some v →
              ∃ l, v = VList l ∧ Forall well_formed_source l)) as [-> Hsrc].
    { destruct (key_in "sources" ev) eqn:Hk; simpl in Hs.
      - apply key_in_true in Hk as [v Hk]. rewrite Hk in Hs. simpl in Hs.
        destruct v as [| | | | |l|]; simpl in Hs; try done.
        destruct (validate_sources_from 0 l) as [[]|[b m]|e] eqn:Hl;
          simpl in Hs; try done.
        + apply validate_sources_from_wf in Hl. simplify_eq.
          split; [done|]. intros v Hv'. rewrite Hk in Hv'. injection Hv' as <-.
          eauto.
        + apply validate_sources_from_return in Hl. simpl in Hl. by simplify_eq.
      - simplify_eq. split; [done|]. apply key_in_false in Hk. congruence. }
    split; [done|]. exists ev. unfold coordinate_within.
    split_and!; eauto 10.
  - intros (-> & ev' & [= <-] & Ht & Hus & Hpl & Hlat & Hlon & Hc & Himp & Hsrc).
    rewrite validate_event_upto_sources by done.
    destruct (key_in "sources" ev) eqn:Hk; [|done].
    apply key_in_true in Hk as [v Hk]. rewrite (item_lookup _ _ _ Hk).
    apply Hsrc in Hk as (l & -> & Hl).
    apply (validate_sources_from_wf 0) in Hl. by rewrite Hl.
Qed.

End ValidateEventExact.

Section ValidatorReasons.
Context {conv : PyConv}.

Lemma validate_sources_from_first_invalid i l1 s l2 msg :
  Forall well_formed_source l1 →
  validate_source s [Lit "sources["; Fmt (VInt (i + Z.of_nat (length l1))); Lit "]"]
  = Ret (false, msg) →
  validate_sources_from i (l1 ++ s :: l2) = Return (false, msg).
Proof.
  intros Hall. revert i. induction Hall as [|s1 l1 Hs1 _ IH]; intros i Hs; simpl.
  - rewrite Z.add_0_r in Hs. by rewrite Hs.
  - rewrite (validate_source_wf _ _ Hs1). simpl. apply IH.
    replace (i + 1 + Z.of_nat (length l1))
      with (i + Z.of_nat (length (s1 :: l1))); [done|].
    cbn [length]. rewrite Nat2Z.inj_succ. lia.
Qed.

Lemma well_formed_without_sources (ev : pydict) vmsg :
  validate_event (VDict (delete "sources" ev)) = Ret (true, vmsg) →
  validate_event (VDict ev)
  = call ((if key_in "sources" ev
           then match item ev "sources" with
                | VList sources => validate_sources_from 0 sources
                | _ => Return (false, [Lit "sources must be a list"])
                end
           else mret tt) ≫= λ _, Return (true, [])).
Proof.
  intros Hv. apply validate_event_true_iff in Hv
    as (_ & ev' & [= <-] & Ht & Hus & Hpl & Hlat & Hlon & Hc & Himp & _).
  rewrite !lookup_delete_ne in Ht, Hus, Hpl, Hlat, Hlon, Hc by done.
  apply validate_event_upto_sources; try done.
  intros v Hv. apply Himp. by rewrite lookup_delete_ne.
Qed.

End ValidatorReasons.

(** ** What the validators raise *)

Section ValidatorFaults.
Context {conv : PyConv}.

Lemma float_trunc_raises f x :
  float_trunc f = Raise x → x = ValueError ∨ x = OverflowError.
Proof.
  unfold float_trunc. destruct (Prim2SF f); intros H; simplify_eq; eauto.
Qed.

Lemma py_int_raises v x :
  py_int v = Raise x → x = TypeError ∨ x = ValueError ∨ x = OverflowError.
Proof.
  destruct v; simpl; intros H; simplify_eq; eauto.
  - apply float_trunc_raises in H. tauto.
  - destruct (str_to_int s); simplify_eq. eauto.
Qed.

Lemma py_float_raises v x :
  py_float v = Raise x → x = TypeError ∨ x = ValueError ∨ x = OverflowError.
Proof.
  destruct v; simpl; intros H; simplify_eq; eauto.
  - destruct (is_infinity (Z_to_float z)); simplify_eq. eauto.
  - destruct (str_to_float s); simplify_eq. eauto.
Qed.

Lemma try_value_throws {R A} (e : res A) (r : R) x :
  (∀ y, e = Raise y → y = TypeError ∨ y = ValueError ∨ y = OverflowError) →
  try_value e r = Throw x → x = OverflowError.
Proof.
  intros He. destruct e as [a|y]; simpl; [done|].
  destruct (He y eq_refl) as [->|[->| ->]]; simpl; intros H; by simplify_eq.
Qed.

Lemma validate_source_raises source context x :
  validate_source source context = Raise x →
  x = OverflowError
  ∨ ∃ src v, source = VDict src ∧ src !! "source_type" = Some v
      ∧ py_str v = Raise x.
Proof.
  destruct source as [| | | | | |src]; try done.
  unfold validate_source.
  destruct (negb (key_in "url" src) && negb (key_in "title" src));
    simpl; [done|].
  assert (∀ m : flow (bool * text) unit,
    (∀ y, m = Throw y → y = OverflowError) →
    call (m ≫= λ _, Return (true, [])) = Raise x → x = OverflowError) as Hlast.
  { intros [[]|r|y] Hm; simpl; intros H; simplify_eq. by apply Hm. }
  assert (∀ y, (if key_in "credibility_score" src
                then try_value (py_int (item src "credibility_score"))
                       (false, context ++ [Lit ": credibility_score must be numeric"])
                     ≫= λ score,
                     return_if ((score <? 0) || (100 <? score))
                       (false, context ++ [Lit ": credibility_score must be 0-100"])
                else mret tt) = (Throw y : flow (bool * text) unit) →
               y = OverflowError) as Hcs.
  { intros y. destruct (key_in "credibility_score" src); [|done].
    destruct (try_value _ _) as [z|r|e] eqn:Ht; simpl.
    - by destruct ((z <? 0) || (100 <? z)).
    - done.
    - intros [= <-]. eapply try_value_throws; [|exact Ht]. apply py_int_raises. }
  destruct (key_in "source_type" src) eqn:Hk; simpl.
  - destruct (negb (in_strs (item src "source_type") VALID_SOURCE_TYPES));
      simpl.
    + apply key_in_true in Hk as [v Hk]. rewrite (item_lookup _ _ _ Hk).
      destruct (py_str v) as [p|y] eqn:Hp; simpl; [done|].
      intros [= <-]. right. eauto.
    + intros H. left. revert H. by apply Hlast.
  - intros H. left. revert H. by apply Hlast.
Qed.

Lemma validate_sources_from_throws i sources x :
  validate_sources_from i sources = Throw x →
  x = OverflowError
  ∨ ∃ src v, VDict src ∈ sources ∧ src !! "source_type" = Some v
      ∧ py_str v = Raise x.
Proof.
  revert i. induction sources as [|s rest IH]; intros i; simpl; [done|].
  destruct (validate_source s _) as [[[] msg]|y] eqn:Hv; simpl.
  - intros H. destruct (IH _ H) as [->|(src & v & Hin & Hst & Hp)]; [by left|].
    right. exists src, v. split_and!; try done. apply elem_of_cons; by right.
  - done.
  - intros [= <-].
    destruct (validate_source_raises _ _ _ Hv) as [->|(src & v & -> & Hst & Hp)];
      [by left|].
    right. exists src, v. split_and!; try done. apply elem_of_cons; by left.
Qed.

End ValidatorFaults.

(** ** The rows of the source loop *)

Section LoopRows.
Context {conv : PyConv}.

Lemma insert_sources_rows {R} event event_id user_id sources ids w ids' w' :
  (insert_sources event event_id user_id sources ids : M R (list uuid)) w
  = (Next ids', w') →
  ∃ rows,
    Forall2 (is_row_of_source event_id user_id)
      (filter (λ s, accepted s = true) sources) rows
    ∧ src_id <$> rows = seq (next_uuid w) (length rows)
    ∧ ids' = ids ++ (src_id <$> rows)
    ∧ working (conn w')
      = {| events := events (working (conn w));
           event_sources := event_sources (working (conn w)) ++ rows;
           event_locations := event_locations (working (conn w)) |}
    ∧ committed (conn w') = committed (conn w)
    ∧ stats w'
      = {| events_created := events_created (stats w);
           sources_created := sources_created (stats w) + Z.of_nat (length rows);
           events_skipped := events_skipped (stats w);
           image_urls_replaced := image_urls_replaced (stats w);
           errors := errors (stats w) |}
    ∧ next_uuid w' = (next_uuid w + length rows)%nat
    ∧ outcomes (conn w') = drop (length rows) (outcomes (conn w)).
Proof.
  revert ids w. induction sources as [|s rest IH]; intros ids w H; simpl in H.
  - unfold mret, M_ret in H. simplify_eq. exists []. simpl.
    rewrite !app_nil_r, Z.add_0_r, Nat.add_0_r.
    split_and!; try done; [by destruct (working (conn w'))|by destruct (stats w')].
  - rewrite filter_cons.
    exec H. destruct r as [[] msg]; simpl in H.
    + do 9 exec H.
      assert (accepted (VDict d) = true) as Hacc
        by (unfold accepted; by rewrite E).
      apply IH in H as (rows & Hall & Hids & -> & Hwk & Hcm & Hst & Hnu & Hout).
      match type of Hwk with context [add_source ?r] => exists (r :: rows) end.
      simpl in Hids, Hwk, Hcm, Hst, Hnu, Hout. split_and!.
      * rewrite decide_True by done. constructor; [|done].
        exists d. by split_and!.
      * rewrite fmap_cons. simpl. by f_equal.
      * rewrite fmap_cons. by rewrite <- app_assoc.
      * rewrite Hwk. by rewrite <- app_assoc.
      * done.
      * rewrite Hst. simpl. f_equal. lia.
      * rewrite Hnu. simpl. lia.
      * rewrite Hout. simpl. destruct (outcomes (conn w)); simpl;
          by rewrite ?drop_nil.
    + do 2 exec H.
      apply IH in H as (rows & Hall & Hids & -> & Hwk & Hcm & Hst & Hnu & Hout).
      exists rows. split_and!; try done.
      rewrite decide_False; [done|]. unfold accepted. by rewrite E.
Qed.

End LoopRows.

Section Outcomes.
Context {conv : PyConv}.

Lemma accepted_wf source : accepted source = true ↔ well_formed_source source.
Proof.
  unfold accepted. split.
  - destruct (validate_source source [Lit "source"]) as [[[] msg]|x] eqn:Hv;
      try done.
    intros _. by apply validate_source_true_iff in Hv as [_ ?].
  - intros Hwf. by rewrite (validate_source_wf _ _ Hwf).
Qed.

Lemma Forall_accepted_wf l :
  Forall (λ s, accepted s = true) l ↔ Forall well_formed_source l.
Proof. apply Forall_proper; [|done]. intros s. apply accepted_wf. Qed.

Lemma filter_accepted_all l :
  Forall (λ s, accepted s = true) l → filter (λ s, accepted s = true) l = l.
Proof.
  induction 1 as [|s l Hs _ IH]; [done|].
  rewrite filter_cons, decide_True by done. by rewrite IH.
Qed.

Lemma insert_sources_throw {R} event event_id user_id sources ids w x w' :
  Forall (λ s, accepted s = true) sources →
  (insert_sources event event_id user_id sources ids : M R (list uuid)) w
  = (Throw x, w') →
  (∃ e, x = Psycopg2Error e)
  ∧ events_skipped (stats w') = events_skipped (stats w)
  ∧ (next_uuid w ≤ next_uuid w')%nat.
Proof.
  intros Hall. revert ids w.
  induction Hall as [|s rest Hs Hall IH]; intros ids w H; simpl in H.
  - by rewrite mret_run in H.
  - pose proof Hs as Hs'. unfold accepted in Hs'.
    destruct (validate_source s [Lit "source"]) as [[[] msg]|] eqn:Hv; try done.
    destruct (validate_source_accepted _ _ _ Hv) as (src & -> & _).
    destruct (accepted_credibility src Hs) as [z Hz].
    rewrite bind_run, lift_Ret_run in H. cbv beta iota in H.
    change (negb true) with false in H. cbv iota in H.
    do 6 exec H. exec H; [|congruence].
    exec H; [|simplify_eq; simpl; split_and!; eauto].
    exec H. apply IH in H as (He & Hsk & Hnu). simpl in Hsk, Hnu.
    split_and!; [done|done|lia].
Qed.

End Outcomes.

(** * Further properties of the validators *)

(** X1.  [validate_event] returns [(True, "")] for exactly the candidates
    that are dictionaries with a non-empty [title], a [unix_seconds] that
    [int] reads, a [precision_level] of the fixed list, a [latitude] and a
    [longitude] that are not null, that [float] reads and that are not
    below or above the bounds (a NaN, being neither, passes), a string
    [category], an [importance_score] that, if present, [int] reads into
    0..100, and [sources] that, if present, are a list of sources
    [validate_source] accepts. *)
Theorem validate_event_accepts_exactly {conv : PyConv} event msg :
  validate_event event = Ret (true, msg) ↔ msg = [] ∧ well_formed_event event.
Proof. apply validate_event_true_iff. Qed.

(** X2.  [validate_source] returns [(True, "")], whatever the context it is
    given, for exactly the sources that are dictionaries with a [url] or a
    [title] key, a [source_type] that, if present, is of the fixed list,
    and a [credibility_score] that, if present, [int] reads into 0..100. *)
Theorem validate_source_accepts_exactly {conv : PyConv} source context msg :
  validate_source source context = Ret (true, msg)
  ↔ msg = [] ∧ well_formed_source source.
Proof. apply validate_source_true_iff. Qed.

(** X3.  An exception leaves [validate_event] only at a conversion or
    where a message is built from a value: it is the [OverflowError] of
    [float] on an integer too large or of [int] on an infinite float
    ([TypeError] and [ValueError] of the conversions are turned into
    rejections), or it is what [str] raises on the [precision_level], or
    on the [source_type] of one of the sources, for the message that
    reports it as invalid. *)
Theorem validate_event_raises_at_conversions {conv : PyConv} event x :
  validate_event event = Raise x →
  x = OverflowError
  ∨ ∃ ev v,
      event = VDict ev
      ∧ py_str v = Raise x
      ∧ (ev !! "precision_level" = Some v
         ∨ ∃ l src, ev !! "sources" = Some (VList l)
             ∧ VDict src ∈ l ∧ src !! "source_type" = Some v).
Proof.
  destruct event as [| | | | | |ev]; try done.
  unfold validate_event.
  assert (∀ y, (if key_in "importance_score" ev
                then try_value (py_int (item ev "importance_score"))
                       (false, [Lit "importance_score must be numeric"])
                     ≫= λ score,
                     return_if ((score <? 0) || (100 <? score))
                       (false, [Lit "importance_score must be between 0 and 100"])
                else mret tt) = (Throw y : flow (bool * text) unit) →
               y = OverflowError) as Himp.
  { intros y. destruct (key_in "importance_score" ev); [|done].
    destruct (try_value _ _) as [z|r|e] eqn:Hscore; simpl.
    - by destruct ((z <? 0) || (100 <? z)).
    - done.
    - intros [= <-]. eapply try_value_throws; [|exact Hscore].
      apply py_int_raises. }
  intros Hv.
  repeat lazymatch type of Hv with
  | call (return_if ?c _ ≫= _) = _ =>
      let Hc := fresh "Hc" in
      destruct c eqn:Hc; simpl in Hv; [discriminate|]
  | call (try_value ?e _ ≫= _) = _ =>
      let Ht := fresh "Ht" in
      destruct (try_value e _) as [?|?|?] eqn:Ht; simpl in Hv;
      [|discriminate
       |injection Hv as <-; left; eapply try_value_throws; [|exact Ht];
        first [apply py_float_raises|apply py_int_raises]]
  | call ((if negb (in_strs ?v ?l) then _ else _) ≫= _) = _ =>
      let Hp := fresh "Hp" in
      destruct (negb (in_strs v l));
        [destruct (py_str v) eqn:Hp; simpl in Hv; [discriminate|]
        |simpl in Hv]
  end.
  - (* the message for the precision level *)
    injection Hv as <-. right. exists ev, (item ev "precision_level").
    split_and!; [done|done|]. left.
    apply negb_false_iff, key_in_true in Hc1 as [v Hk].
    by rewrite (item_lookup _ _ _ Hk).
  - match type of Hv with call (?m ≫= _) = _ =>
      destruct m as [[]|r|y] eqn:Hm; simpl in Hv;
        [|done|injection Hv as <-; left; by apply Himp]
    end.
    match type of Hv with call (?m ≫= _) = _ =>
      destruct m as [[]|r|y] eqn:Hm'; simpl in Hv; [done|done|injection Hv as <-]
    end.
    destruct (key_in "sources" ev) eqn:Hk; [|done].
    apply key_in_true in Hk as [v Hk]. rewrite (item_lookup _ _ _ Hk) in Hm'.
    destruct v as [| | | | |l|]; try done.
    destruct (validate_sources_from_throws _ _ _ Hm')
      as [->|(src & v & Hin & Hst & Hp)]; [by left|].
    right. exists ev, v. split_and!; [done|done|]. right. eauto.
Qed.

Lemma validate_event_raises_at_conversions_witness :
  (OverflowError = OverflowError
   ∨ ∃ ev v,
       VDict moon_landing_huge_latitude = VDict ev
       ∧ py_str (conv := ascii_conv) v = Raise OverflowError
       ∧ (ev !! "precision_level" = Some v
          ∨ ∃ l src, ev !! "sources" = Some (VList l)
              ∧ VDict src ∈ l ∧ src !! "source_type" = Some v))
  ∧ (ValueError = OverflowError
     ∨ ∃ ev v,
         VDict moon_landing_long_precision = VDict ev
         ∧ py_str (conv := ascii_conv_limit 640) v = Raise ValueError
         ∧ (ev !! "precision_level" = Some v
            ∨ ∃ l src, ev !! "sources" = Some (VList l)
                ∧ VDict src ∈ l ∧ src !! "source_type" = Some v)).
Proof.
  split.
  - apply (validate_event_raises_at_conversions (conv := ascii_conv)
             (VDict moon_landing_huge_latitude) OverflowError).
    vm_compute. reflexivity.
  - apply (validate_event_raises_at_conversions (conv := ascii_conv_limit 640)
             (VDict moon_landing_long_precision) ValueError).
    vm_compute. reflexivity.
Defined.

(** X4.  For a candidate that has all six required fields, a latitude that
    [float] reads is rejected with the range reason when it is below -90 or
    above 90, a latitude that [float] refuses with [TypeError] or
    [ValueError] is rejected with the numeric reason, and an integer too
    large for a float makes the validator raise. *)
Theorem latitude_rejection_reasons {conv : PyConv} (ev : pydict)
    t us pl lat lon c :
  ev !! "title" = Some t → truthy t = true →
  ev !! "unix_seconds" = Some us →
  ev !! "precision_level" = Some pl →
  ev !! "latitude" = Some lat → lat ≠ VNone →
  ev !! "longitude" = Some lon → lon ≠ VNone →
  ev !! "category" = Some (VStr c) →
  (∀ x, py_float lat = Ret x →
        PrimFloat.ltb x (-90) || PrimFloat.ltb 90 x = true →
        validate_event (VDict ev)
        = Ret (false, [Lit "latitude must be between -90 and 90"]))
  ∧ (py_float lat = Raise TypeError ∨ py_float lat = Raise ValueError →
     validate_event (VDict ev) = Ret (false, [Lit "latitude must be numeric"]))
  ∧ (py_float lat = Raise OverflowError →
     validate_event (VDict ev) = Raise OverflowError).
Proof.
  intros Ht Htt Hus Hpl Hlat Hlat1 Hlon Hlon1 Hc.
  unfold validate_event.
  rewrite (key_in_lookup _ _ _ Ht), (key_in_lookup _ _ _ Hus),
    (key_in_lookup _ _ _ Hpl), (key_in_lookup _ _ _ Hlat),
    (key_in_lookup _ _ _ Hlon), (key_in_lookup _ _ _ Hc).
  rewrite (item_lookup _ _ _ Ht), (item_lookup _ _ _ Hus),
    (item_lookup _ _ _ Hpl), (item_lookup _ _ _ Hlat),
    (item_lookup _ _ _ Hlon), (item_lookup _ _ _ Hc).
  rewrite Htt. apply is_none_false in Hlat1, Hlon1. rewrite Hlat1, Hlon1.
  cbn [negb orb is_str return_if mbind flow_bind].
  split_and!.
  - intros x -> Hr. cbn [try_value mbind flow_bind]. by rewrite Hr.
  - by intros [-> | ->].
  - by intros ->.
Qed.

Lemma latitude_rejection_reasons_witness :
  (∀ x, py_float (conv := ascii_conv) (VFloat 123) = Ret x →
        PrimFloat.ltb x (-90) || PrimFloat.ltb 90 x = true →
        validate_event (conv := ascii_conv) (VDict moon_landing_off_globe)
        = Ret (false, [Lit "latitude must be between -90 and 90"]))
  ∧ (py_float (conv := ascii_conv) (VFloat 123) = Raise TypeError
     ∨ py_float (conv := ascii_conv) (VFloat 123) = Raise ValueError →
     validate_event (conv := ascii_conv) (VDict moon_landing_off_globe)
     = Ret (false, [Lit "latitude must be numeric"]))
  ∧ (py_float (conv := ascii_conv) (VFloat 123) = Raise OverflowError →
     validate_event (conv := ascii_conv) (VDict moon_landing_off_globe)
     = Raise OverflowError).
Proof.
  apply (latitude_rejection_reasons (conv := ascii_conv) moon_landing_off_globe
           (VStr "Apollo 11 Moon landing") (VInt (-14182940)) (VStr "minute")
           (VFloat 123) (VFloat 23.47297) "space_exploration.moon_landing");
    first [vm_compute; reflexivity | discriminate].
Defined.

(** X5.  The sources are validated in order and the first one that fails
    decides: when the candidate is valid apart from its sources, the
    sources before position [i] are acceptable, and [validate_source]
    rejects the one at position [i] under the context [sources[i]], then
    [validate_event] rejects the candidate with that very message, which
    names the position. *)
Theorem first_invalid_source_is_reported {conv : PyConv} (ev : pydict)
    vmsg l1 s l2 msg :
  validate_event (VDict (delete "sources" ev)) = Ret (true, vmsg) →
  ev !! "sources" = Some (VList (l1 ++ s :: l2)) →
  Forall (λ s, accepted s = true) l1 →
  validate_source s [Lit "sources["; Fmt (VInt (Z.of_nat (length l1))); Lit "]"]
  = Ret (false, msg) →
  validate_event (VDict ev) = Ret (false, msg).
Proof.
  intros Hv Hs Hl1 Hrej.
  rewrite (well_formed_without_sources _ _ Hv).
  rewrite (key_in_lookup _ _ _ Hs), (item_lookup _ _ _ Hs).
  rewrite (validate_sources_from_first_invalid 0 l1 s l2 msg); [done| |done].
  by apply Forall_accepted_wf.
Qed.

Lemma first_invalid_source_is_reported_witness :
  validate_event (conv := ascii_conv)
    (moon_landing [src_wikipedia; src_citation_only; src_book])
  = Ret (false, [Lit "sources["; Fmt (VInt 1); Lit "]";
                 Lit ": must have 'url' or 'title'"]).
Proof.
  apply (first_invalid_source_is_reported (conv := ascii_conv)
           (moon_landing_dict [src_wikipedia; src_citation_only; src_book])
           [] [src_wikipedia] src_citation_only [src_book]).
  - vm_compute. reflexivity.
  - vm_compute. reflexivity.
  - repeat constructor.
  - vm_compute. reflexivity.
Defined.

(** ** Every way the unit of work can end *)

Section UnitOfWork.
Context {conv : PyConv}.

Lemma lookup_popped_ne (d : pydict) k :
  bool_decide (k ∈ popped_keys) = false → popped d !! k = d !! k.
Proof. intros Hk. by rewrite lookup_popped, Hk. Qed.

Lemma dict_get_popped_ne (d : pydict) k dflt :
  bool_decide (k ∈ popped_keys) = false →
  dict_get (popped d) k dflt = dict_get d k dflt.
Proof. intros Hk. by rewrite dict_get_popped, Hk. Qed.

Lemma dict_get_lookup (d : pydict) k v dflt :
  d !! k = Some v → dict_get d k dflt = v.
Proof. unfold dict_get. by intros ->. Qed.

Lemma tail_drop {A} n (l : list A) : tail (drop n l) = drop (S n) l.
Proof.
  revert l. induction n as [|n IH]; intros [|a l]; simpl; done.
Qed.

(** The five ways the [try] block can end for a candidate that passed
    validation. *)
Lemma unit_of_work_outcomes event user_id (d : pydict) w f w' :
  heap w !! event = Some (VDict d) →
  well_formed_event (VDict d) →
  unit_of_work event user_id w = (f, w') →
  ∃ c l,
    d !! "category" = Some (VStr c)
    ∧ dict_get d "sources" (VList []) = VList l
    ∧ Forall well_formed_source l
    ∧ ((∃ e, f = Throw (Psycopg2Error e)
             ∧ (hd None (outcomes (conn w)) = Some e ∨ c ∈ categories (conn w))
             ∧ events_skipped (stats w') = events_skipped (stats w)
             ∧ (next_uuid w < next_uuid w')%nat)
       ∨ ((c ∉ categories (conn w))
          ∧ f = Return (false, [Lit "Category '"; Fmt (VStr c);
                                Lit "' not found in database"], None)
          ∧ stats w' = incr_events_skipped (stats w)
          ∧ working (conn w') = working (conn w)
          ∧ committed (conn w') = committed (conn w)
          ∧ next_uuid w' = S (next_uuid w)
          ∧ outcomes (conn w') = tail (outcomes (conn w)))
       ∨ (∃ x, f = Throw x
          ∧ py_int (dict_get d "unix_nanos" (VInt 0)) = Raise x
          ∧ c ∈ categories (conn w)
          ∧ stats w'
            = stats_plus 0 0
                (if (image_choice (category_icons w) c
                       (dict_get d "image_url" VNone)).2 then 1 else 0)
                (stats w)
          ∧ working (conn w') = working (conn w)
          ∧ committed (conn w') = committed (conn w)
          ∧ next_uuid w' = S (next_uuid w))
       ∨ (∃ erow srows lrow,
          f = Return (true, [Lit "Created event with ";
                             Fmt (VInt (Z.of_nat (length srows)));
                             Lit " sources"], Some (next_uuid w))
          ∧ c ∈ categories (conn w)
          ∧ is_row_of_event (next_uuid w) user_id (category_icons w) d c erow
          ∧ Forall2 (is_row_of_source (next_uuid w) user_id) l srows
          ∧ src_id <$> srows = seq (S (next_uuid w)) (length srows)
          ∧ is_row_of_location (S (next_uuid w) + length srows)%nat
              (next_uuid w) d lrow
          ∧ committed (conn w')
            = {| events := events (working (conn w)) ++ [erow];
                 event_sources := event_sources (working (conn w)) ++ srows;
                 event_locations := event_locations (working (conn w)) ++ [lrow] |}
          ∧ working (conn w') = committed (conn w')
          ∧ stats w'
            = stats_plus 1 (Z.of_nat (length srows))
                (if (image_choice (category_icons w) c
                       (dict_get d "image_url" VNone)).2 then 1 else 0)
                (stats w)
          ∧ next_uuid w' = (next_uuid w + 2 + length srows)%nat
          ∧ outcomes (conn w') = drop (4 + length srows) (outcomes (conn w)))
       ∨ (∃ x, f = Throw x
          ∧ c ∈ categories (conn w)
          ∧ (render_all [item d "title"] = Raise x
             ∨ render_all [dict_get d "location_name" VNone;
                           item d "latitude"; item d "longitude"] = Raise x)
          ∧ committed (conn w') = committed (conn w)
          ∧ events_skipped (stats w') = events_skipped (stats w)
          ∧ errors (stats w') = errors (stats w)
          ∧ (next_uuid w < next_uuid w')%nat)).
Proof.
  intros Hh Hwfe H. destruct Hwfe as (d' & Hd' & (t & Ht & Htt)
    & (us & z1 & Hus & Hz1) & (pl & Hpl & Hpl') & (lat & Hlat & Hlat1 & _)
    & (lon & Hlon & Hlon1 & _) & (c & Hc) & Himp & Hsrc).
  injection Hd' as <-.
  assert (∃ l, dict_get d "sources" (VList []) = VList l
               ∧ Forall well_formed_source l) as (l & Hl & Hwf).
  { unfold dict_get. destruct (d !! "sources") as [v|] eqn:Hv; simpl.
    - by apply Hsrc. 
    - eauto. }
  assert (∃ z3, py_int (dict_get d "importance_score" (VInt 50)) = Ret z3)
    as [z3 Hz3].
  { unfold dict_get. destruct (d !! "importance_score") as [v|] eqn:Hv; simpl.
    - destruct (Himp _ eq_refl) as (z & ? & _). eauto.
    - eauto. }
  exists c, l. split_and!; [done..|].
  clear Himp Hsrc.
  unfold unit_of_work in H.
  do 2 exec H.
  rewrite bind_run, (obj_pop_run _ _ _ d) in H by done. cbv beta iota in H.
  rewrite bind_run, (obj_pop_run _ _ _ (delete "sources" d)) in H
    by (simpl; apply lookup_insert_eq). cbv beta iota in H.
  rewrite bind_run, (obj_pop_run _ _ _ (delete "category" (delete "sources" d))) in H
    by (simpl; apply lookup_insert_eq). cbv beta iota in H.
  rewrite bind_run, (obj_pop_run _ _ _
    (delete "latitude" (delete "category" (delete "sources" d)))) in H
    by (simpl; apply lookup_insert_eq). cbv beta iota in H.
  rewrite bind_run, (obj_pop_run _ _ _
    (delete "longitude" (delete "latitude" (delete "category" (delete "sources" d))))) in H
    by (simpl; apply lookup_insert_eq). cbv beta iota in H.
  rewrite !dict_get_delete_ne in H by done.
  rewrite Hl, (dict_get_lookup _ _ _ _ Hc), (dict_get_lookup _ _ _ _ Hlat),
    (dict_get_lookup _ _ _ _ Hlon) in H.
  match type of H with _ ?w0 = _ => remember w0 as w5 eqn:Hw5 end.
  assert (heap w5 !! event = Some (VDict (popped d))) as Hh5
    by (subst w5; simpl; rewrite !insert_insert_eq; apply lookup_insert_eq).
  assert (conn w5 = conn w) as Hc5 by by subst w5.
  assert (stats w5 = stats w) as Hs5 by by subst w5.
  assert (category_icons w5 = category_icons w) as Hi5 by by subst w5.
  assert (next_uuid w5 = S (next_uuid w)) as Hn5 by by subst w5.
  clear Hw5.
  (* the category is looked up *)
  exec H; [|left; rewrite Hc5 in He; simplify_eq; simpl; rewrite Hs5, Hn5;
            eauto 10].
  simpl in_strs in H. rewrite Hc5 in H.
  destruct (bool_decide (c ∈ categories (conn w))) eqn:Hfound.
  2: { apply bool_decide_eq_false in Hfound.
       change (negb false) with true in H. rewrite if_then_true in H.
       rewrite bind_assoc_run, bind_run in H. unfold modify at 1 in H.
       cbv beta iota in H. rewrite bind_assoc_run, bind_run in H.
       change (py_str (VStr c)) with (Ret (Fmt (VStr c)) : res piece) in H.
       rewrite lift_Ret_run in H. cbv beta iota in H. rewrite bind_run in H.
       unfold return_now at 1 in H. cbv beta iota in H.
       injection H as <- <-. right. left. simpl. rewrite Hc5, Hs5, Hn5.
       by split_and!. }
  apply bool_decide_eq_true in Hfound.
  change (negb true) with false in H. rewrite if_then_false in H.
  rewrite bind_run, mret_run in H. cbv beta iota in H.
  (* the image is resolved *)
  rewrite bind_run, (obj_get_run _ _ _ (popped d)) in H by done.
  cbv beta iota in H. rewrite dict_get_popped_ne in H by done.
  rewrite bind_run, resolve_image_run in H. cbv beta iota in H.
  match type of H with context [image_choice ?ic c ?s] =>
    remember (image_choice ic c s) as choice eqn:Hchoice;
    simpl in Hchoice; rewrite Hi5 in Hchoice
  end.
  match type of H with _ ?w0 = _ => remember w0 as w6 eqn:Hw6 end.
  assert (heap w6 !! event = Some (VDict (popped d))) as Hh6
    by (subst w6; by destruct (choice.2); simpl).
  assert (conn w6 = with_outcomes (tail (outcomes (conn w))) (conn w)) as Hc6
    by (subst w6; destruct (choice.2); simpl; by rewrite Hc5).
  assert (next_uuid w6 = S (next_uuid w)) as Hn6
    by (subst w6; by destruct (choice.2); simpl).
  assert (stats w6 = stats_plus 0 0 (if choice.2 then 1 else 0) (stats w))
    as Hs6.
  { subst w6. unfold stats_plus, incr_image_urls_replaced.
    destruct (choice.2); simpl; rewrite Hs5;
      destruct (stats w); simpl; f_equal; lia. }
  clear Hw6.
  (* the row is prepared *)
  rewrite bind_run, (obj_item_run _ _ (popped d)) in H by done.
  rewrite lookup_popped_ne, Hus in H by done. cbv beta iota in H.
  rewrite bind_run, Hz1, lift_Ret_run in H. cbv beta iota in H.
  rewrite bind_run, (obj_item_run _ _ (popped d)) in H by done.
  rewrite lookup_popped_ne, Ht in H by done. cbv beta iota in H.
  rewrite bind_run, (obj_get_run _ _ _ (popped d)) in H by done.
  cbv beta iota in H. rewrite dict_get_popped_ne in H by done.
  destruct (py_int (dict_get d "unix_nanos" (VInt 0))) as [z2|x] eqn:Hz2.
  2: { rewrite bind_run, lift_Raise_run in H. injection H as <- <-.
       right. right. left. exists x. rewrite Hc6, Hn6, Hs6, <- Hchoice.
       by split_and!. }
  rewrite bind_run, lift_Ret_run in H. cbv beta iota in H.
  rewrite bind_run, (obj_item_run _ _ (popped d)) in H by done.
  rewrite lookup_popped_ne, Hpl in H by done. cbv beta iota in H.
  rewrite bind_run, (obj_get_run _ _ _ (popped d)) in H by done.
  cbv beta iota in H. rewrite dict_get_popped_ne in H by done.
  rewrite bind_run, (obj_get_run _ _ _ (popped d)) in H by done.
  cbv beta iota in H. rewrite dict_get_popped_ne in H by done.
  rewrite bind_run, Hz3, lift_Ret_run in H. cbv beta iota in H.
  rewrite bind_run, (obj_get_run _ _ _ (popped d)) in H by done.
  cbv beta iota in H. rewrite dict_get_popped_ne in H by done.
  (* the event row is inserted *)
  exec H; [|left; simplify_eq; simpl; rewrite Hs6, Hn6; eauto 10].
  exec H.
  rewrite bind_run, (obj_item_run _ _ (popped d)) in H by done.
  rewrite lookup_popped_ne, Ht in H by done. cbv beta iota in H.
  exec H.
  2: { injection H as <- <-. do 4 right. exists x. simpl.
       rewrite (item_lookup _ _ _ Ht), Hc6, Hs6, Hn6. simpl.
       split_and!; [done|done|by left|done|done|done|lia]. }
  (* the sources *)
  apply Forall_accepted_wf in Hwf as Hacc.
  rewrite bind_run in H.
  match type of H with context [insert_sources ?ev ?a ?b ?c0 ?e ?w0] =>
    destruct (insert_sources ev a b c0 e w0) as [[ids|r2|x] w7] eqn:Hloop
  end.
  2: { by apply insert_sources_no_return in Hloop. }
  2: { apply insert_sources_throw in Hloop as ([e ->] & Hsk & Hnu); [|done].
       simpl in Hsk, Hnu. rewrite Hs6 in Hsk. rewrite Hn6 in Hnu.
       left. simplify_eq. exists e. split_and!; [done|by right|done|lia]. }
  apply insert_sources_rows in Hloop
    as (srows & Hall & Hids & -> & Hwk & Hcm & Hst & Hnu & Hout).
  rewrite filter_accepted_all in Hall by done.
  simpl in Hids, Hwk, Hcm, Hst, Hnu, Hout.
  rewrite Hc6 in Hwk, Hcm, Hout. rewrite Hs6 in Hst. rewrite Hn6 in Hnu, Hids.
  simpl in Hwk, Hcm, Hout.
  (* the location, and the commit *)
  assert (negb (is_none lat) && negb (is_none lon) = true) as Hgeo.
  { apply is_none_false in Hlat1, Hlon1. by rewrite Hlat1, Hlon1. }
  rewrite Hgeo, if_then_true in H.
  exec H. exec H; [|left; simplify_eq; simpl; rewrite Hst, Hnu; simpl;
                    eexists; split_and!; [done|by right|done|lia]].
  exec H.
  2: { injection H as <- <-. do 4 right. exists x. simpl.
       rewrite (item_lookup _ _ _ Hlat), (item_lookup _ _ _ Hlon), Hcm, Hst, Hnu.
       simpl. split_and!; [done|done|by right|done|done|done|lia]. }
  exec H; [|left; simplify_eq; simpl; rewrite Hst, Hnu; simpl;
            eexists; split_and!; [done|by right|done|lia]].
  unfold return_now in H. injection H as <- <-.
  right. right. right. left.
  match type of Hwk with context [add_event ?r] => exists r | context [?e ++ [?r]] => exists r end.
  exists srows.
  match goal with |- context [add_location ?r] => exists r end.
  simpl. rewrite Hwk, Hst, Hnu, Hout, length_fmap. simpl.
  split_and!.
  - done.
  - done.
  - unfold is_row_of_event. simpl. rewrite Hchoice. split_and!; eauto.
  - done.
  - done.
  - unfold is_row_of_location. simpl. by split_and!.
  - done.
  - done.
  - rewrite <- Hchoice. unfold stats_plus. simpl. f_equal; lia.
  - lia.
  - destruct (outcomes (conn w)) as [|o1 [|o2 os]]; simpl;
      rewrite ?drop_nil; try done.
    by rewrite !tail_drop.
Qed.



End UnitOfWork.

(** ** Every way a call can end *)

Section IngestCases.
Context {conv : PyConv}.

Lemma default_VNone_dict (o : option pyval) (d : pydict) :
  default VNone o = VDict d → o = Some (VDict d).
Proof. destruct o; simpl; intros ?; by simplify_eq. Qed.

Lemma ingest_enter event user_id w :
  ingest_event_with_sources event user_id w
  = match validate_event (default VNone (heap w !! event)) with
    | Raise x => (Raise x, w)
    | Ret (false, msg) =>
        (Ret (false, Lit "Event validation failed: " :: msg, None),
         with_stats incr_events_skipped w)
    | Ret (true, _) =>
        if dry_run w
        then
          match render_all
                  [match default VNone (heap w !! event) with
                   | VDict d => item d "title"
                   | _ => VNone
                   end] with
          | Ret _ =>
              (Ret (true, [Lit "Dry run - not written to database"],
                    Some (next_uuid w)),
               with_next_uuid (S (next_uuid w)) w)
          | Raise x => (Raise x, w)
          end
        else call_m (try_except_psycopg2 (unit_of_work event user_id)
                       on_database_error) w
    end.
Proof.
  unfold ingest_event_with_sources, call_m at 1.
  rewrite bind_run. unfold deref at 1, gets at 1. cbv beta iota.
  rewrite bind_run.
  destruct (validate_event (default VNone (heap w !! event)))
    as [[[] msg]|x] eqn:Hv; [|done..].
  rewrite lift_Ret_run. cbv beta iota.
  change (negb true) with false.
  rewrite if_then_false, bind_run, mret_run. cbv beta iota.
  rewrite bind_run. unfold gets at 1. cbv beta iota.
  destruct (dry_run w).
  - apply validate_event_true_iff in Hv as (_ & d & Hd & (t & Ht & _) & _).
    rewrite Hd. apply default_VNone_dict in Hd.
    rewrite if_then_true.
    rewrite bind_assoc_run, bind_run, (obj_item_run _ _ d) by done.
    rewrite Ht, (item_lookup _ _ _ Ht). cbv beta iota.
    rewrite bind_assoc_run, bind_run. unfold logger.
    by destruct (render_all [t]) as [[]|x].
  - rewrite if_then_false, bind_run, mret_run. cbv beta iota.
    rewrite try_finally_close. unfold call_m.
    by destruct (try_except_psycopg2 _ _ w) as [[?|?|?] ?].
Qed.

Lemma keeps_errors_insert_sources {R} event event_id user_id sources ids :
  keeps (λ w, errors (stats w))
    (insert_sources event event_id user_id sources ids : M R (list uuid)).
Proof.
  revert ids. induction sources as [|s rest IH]; intros ids; simpl.
  - apply keeps_ret.
  - repeat first [ apply IH | keeps_step ].
Qed.

Lemma keeps_errors_unit_of_work event user_id :
  keeps (λ w, errors (stats w)) (unit_of_work event user_id).
Proof.
  unfold unit_of_work.
  repeat first [ apply keeps_errors_insert_sources
               | apply keeps_obj_pop; done | keeps_step ].
Qed.

Lemma keeps_icons_insert_sources {R} event event_id user_id sources ids :
  keeps category_icons
    (insert_sources event event_id user_id sources ids : M R (list uuid)).
Proof.
  revert ids. induction sources as [|s rest IH]; intros ids; simpl.
  - apply keeps_ret.
  - repeat first [ apply IH | keeps_step ].
Qed.

Lemma ingest_category_icons event user_id w :
  category_icons (ingest_event_with_sources event user_id w).2
  = category_icons w.
Proof.
  unfold ingest_event_with_sources, call_m.
  match goal with |- category_icons (match ?m w with _ => _ end).2 = _ =>
    assert (keeps category_icons m) as Hk end.
  { repeat keeps_step.
    apply keeps_try_finally; [|apply keeps_ret].
    apply keeps_try_except_psycopg2.
    - unfold unit_of_work.
      repeat first [ apply keeps_icons_insert_sources
                   | apply keeps_obj_pop; done | keeps_step ].
    - intros e. unfold on_database_error. repeat keeps_step. }
  specialize (Hk w). revert Hk.
  match goal with |- _ (?m w).2 = _ → _ =>
    by destruct (m w) as [[v1|r1|x1] w1] end.
Qed.

(** Every way a call can end. *)
Lemma ingest_cases event user_id w r w' :
  ingest_event_with_sources event user_id w = (r, w') →
  let ev := default VNone (heap w !! event) in
  (∃ x, validate_event ev = Raise x ∧ r = Raise x ∧ w' = w)
  ∨ (∃ msg, validate_event ev = Ret (false, msg)
       ∧ r = Ret (false, Lit "Event validation failed: " :: msg, None)
       ∧ w' = with_stats incr_events_skipped w)
  ∨ (well_formed_event ev ∧ dry_run w = true
       ∧ (∃ d, ev = VDict d
            ∧ (render_all [item d "title"] = Ret tt
               ∧ r = Ret (true, [Lit "Dry run - not written to database"],
                          Some (next_uuid w))
               ∧ w' = with_next_uuid (S (next_uuid w)) w
               ∨ ∃ x, render_all [item d "title"] = Raise x
                   ∧ r = Raise x ∧ w' = w)))
  ∨ (∃ d c l, heap w !! event = Some (VDict d)
       ∧ well_formed_event (VDict d) ∧ dry_run w = false
       ∧ d !! "category" = Some (VStr c)
       ∧ dict_get d "sources" (VList []) = VList l
       ∧ Forall well_formed_source l
       ∧ heap w' = <[event := VDict (popped d)]> (heap w)
       ∧ ((∃ e, r = Ret (false, [Lit "Database error: "; Lit e], None)
             ∧ (hd None (outcomes (conn w)) = Some e ∨ c ∈ categories (conn w))
             ∧ committed (conn w') = committed (conn w)
             ∧ working (conn w') = committed (conn w')
             ∧ events_skipped (stats w') = events_skipped (stats w) + 1
             ∧ errors (stats w')
               = errors (stats w) ++ [[Lit "Database error: "; Lit e]]
             ∧ (next_uuid w < next_uuid w')%nat)
          ∨ ((c ∉ categories (conn w))
             ∧ r = Ret (false, [Lit "Category '"; Fmt (VStr c);
                                Lit "' not found in database"], None)
             ∧ stats w' = incr_events_skipped (stats w)
             ∧ working (conn w') = working (conn w)
             ∧ committed (conn w') = committed (conn w)
             ∧ next_uuid w' = S (next_uuid w)
             ∧ outcomes (conn w') = tail (outcomes (conn w)))
          ∨ (∃ x, r = Raise x
             ∧ py_int (dict_get d "unix_nanos" (VInt 0)) = Raise x
             ∧ c ∈ categories (conn w)
             ∧ stats w'
               = stats_plus 0 0
                   (if (image_choice (category_icons w) c
                          (dict_get d "image_url" VNone)).2 then 1 else 0)
                   (stats w)
             ∧ working (conn w') = working (conn w)
             ∧ committed (conn w') = committed (conn w)
             ∧ next_uuid w' = S (next_uuid w))
          ∨ (∃ erow srows lrow,
             r = Ret (true, [Lit "Created event with ";
                             Fmt (VInt (Z.of_nat (length srows)));
                             Lit " sources"], Some (next_uuid w))
             ∧ c ∈ categories (conn w)
             ∧ is_row_of_event (next_uuid w) user_id (category_icons w) d c erow
             ∧ Forall2 (is_row_of_source (next_uuid w) user_id) l srows
             ∧ src_id <$> srows = seq (S (next_uuid w)) (length srows)
             ∧ is_row_of_location (S (next_uuid w) + length srows)%nat
                 (next_uuid w) d lrow
             ∧ committed (conn w')
               = {| events := events (working (conn w)) ++ [erow];
                    event_sources := event_sources (working (conn w)) ++ srows;
                    event_locations :=
                      event_locations (working (conn w)) ++ [lrow] |}
             ∧ working (conn w') = committed (conn w')
             ∧ stats w'
               = stats_plus 1 (Z.of_nat (length srows))
                   (if (image_choice (category_icons w) c
                          (dict_get d "image_url" VNone)).2 then 1 else 0)
                   (stats w)
             ∧ next_uuid w' = (next_uuid w + 2 + length srows)%nat
             ∧ outcomes (conn w')
               = drop (4 + length srows) (outcomes (conn w)))
          ∨ (∃ x, r = Raise x
             ∧ is_database_error x = false
             ∧ c ∈ categories (conn w)
             ∧ (render_all [item d "title"] = Raise x
                ∨ render_all [dict_get d "location_name" VNone;
                              item d "latitude"; item d "longitude"] = Raise x)
             ∧ committed (conn w') = committed (conn w)
             ∧ events_skipped (stats w') = events_skipped (stats w)
             ∧ errors (stats w') = errors (stats w)
             ∧ (next_uuid w < next_uuid w')%nat))).
Proof.
  intros H ev. pose proof (ingest_enter event user_id w) as He.
  rewrite H in He. fold ev in He.
  destruct (validate_event ev) as [[[] msg]|x] eqn:Hv.
  - apply validate_event_true_iff in Hv as Hwf. destruct Hwf as [-> Hwf].
    destruct (validate_event_dict _ _ Hv) as [d Hd'].
    destruct (dry_run w) eqn:Hd.
    { right. right. left. split_and!; [done|done|]. exists d. split; [done|].
      rewrite Hd' in He.
      destruct (render_all [item d "title"]) as [[]|x]; simplify_eq; eauto. }
    right. right. right.
    pose proof (default_VNone_dict _ _ Hd') as Hh. rewrite Hd' in Hwf, Hv.
    pose proof (ingest_heap event user_id d [] w Hd Hh Hv) as Hheap.
    rewrite H in Hheap. simpl in Hheap.
    unfold call_m, try_except_psycopg2 in He.
    destruct (unit_of_work event user_id w) as [f w1] eqn:Hu.
    pose proof (keeps_errors_unit_of_work event user_id w) as Herr.
    rewrite Hu in Herr. simpl in Herr.
    destruct (unit_of_work_outcomes _ _ _ _ _ _ Hh Hwf Hu)
      as (c & l & Hc & Hl & Hwfl & Hcases).
    exists d, c, l. split_and!; try done.
    destruct Hcases as [(e & -> & Hwhere & Hsk & Hnu)
      |[(Hnot & -> & Hrest)|[(x & -> & Hx & Hrest)
      |[(erow & srows & lrow & -> & Hrest)
       |(x & -> & Hin & Hren & Hcm & Hsk & Herr' & Hnu)]]]].
    + left. exists e. simpl in He. injection He as -> ->. simpl.
      rewrite (unit_of_work_throw_committed _ _ _ _ _ Hu), Hsk, Herr.
      by split_and!.
    + right. left. simpl in He. by simplify_eq.
    + right. right. left. exists x.
      assert (is_database_error x = false) as Hb.
      { apply py_int_raises in Hx. by destruct_or!; subst. }
      destruct x; try done; simpl in He; by simplify_eq.
    + right. right. right. left. exists erow, srows, lrow. simpl in He.
      by simplify_eq.
    + destruct (is_database_error x) eqn:Hb.
      * destruct x as [e| | | | |]; try done. left. exists e.
        simpl in He. injection He as -> ->. simpl. rewrite Hcm, Hsk, Herr.
        split_and!; [done|by right|done|done|done|done|done].
      * do 4 right. exists x.
        destruct x; try done; simpl in He; injection He as <- <-;
          by split_and!.
  - right. left. exists msg. by simplify_eq.
  - left. exists x. by simplify_eq.
Qed.

End IngestCases.

Section SuccessRows.
Context {conv : PyConv}.

(** What a call that returns success has written, row by row. *)
Lemma ingest_success_rows event user_id w (d : pydict) msg id w' :
  dry_run w = false →
  heap w !! event = Some (VDict d) →
  ingest_event_with_sources event user_id w = (Ret (true, msg, Some id), w') →
  ∃ c l erow srows lrow,
    d !! "category" = Some (VStr c)
    ∧ dict_get d "sources" (VList []) = VList l
    ∧ id = next_uuid w
    ∧ msg = [Lit "Created event with "; Fmt (VInt (Z.of_nat (length l)));
             Lit " sources"]
    ∧ length srows = length l
    ∧ c ∈ categories (conn w)
    ∧ is_row_of_event id user_id (category_icons w) d c erow
    ∧ Forall2 (is_row_of_source id user_id) l srows
    ∧ src_id <$> srows = seq (S id) (length l)
    ∧ is_row_of_location (S id + length l)%nat id d lrow
    ∧ committed (conn w')
      = {| events := events (working (conn w)) ++ [erow];
           event_sources := event_sources (working (conn w)) ++ srows;
           event_locations := event_locations (working (conn w)) ++ [lrow] |}
    ∧ working (conn w') = committed (conn w')
    ∧ stats w'
      = stats_plus 1 (Z.of_nat (length l))
          (if (image_choice (category_icons w) c
                 (dict_get d "image_url" VNone)).2 then 1 else 0)
          (stats w)
    ∧ next_uuid w' = (id + 2 + length l)%nat
    ∧ outcomes (conn w') = drop (4 + length l) (outcomes (conn w)).
Proof.
  intros Hd Hh H.
  destruct (ingest_cases _ _ _ _ _ H)
    as [(x & _ & ? & _)|[(m & _ & ? & _)|[(_ & ? & _)
       |(d' & c & l & Hh' & _ & _ & Hc & Hl & _ & _ & Hcases)]]];
    try congruence.
  assert (d' = d) as -> by congruence.
  destruct Hcases as [(e & ? & _)|[(_ & ? & _)|[(x & ? & _)
    |[(erow & srows & lrow & Hr & Hin & Hrow & Hrows & Hids & Hlrow & Hcm & Hwk
      & Hst & Hnu & Hout)|(x & ? & _)]]]]; try congruence.
  pose proof (Forall2_length _ _ _ Hrows) as Hlen.
  injection Hr as -> ->. rewrite <- Hlen in *.
  exists c, l, erow, srows, lrow. by split_and!.
Qed.

End SuccessRows.

(** * Further properties of [ingest_event_with_sources] *)

(** X6.  In dry-run mode a candidate that passes validation leaves
    everything as it was, but for the one identifier a successful report
    draws: no statement is sent, no row is written, no counter moves and
    the candidate keeps all its keys.  The call logs the title and then
    reports success with a fresh identifier; when [str] raises on the
    title, that exception leaves the call instead.  The category is not
    looked up, so the report says nothing about whether the real run would
    find it. *)
Theorem dry_run_writes_nothing {conv : PyConv} w event user_id
    (d : pydict) vmsg :
  dry_run w = true →
  heap w !! event = Some (VDict d) →
  validate_event (VDict d) = Ret (true, vmsg) →
  let r := ingest_event_with_sources event user_id w in
  stats r.2 = stats w
  ∧ conn r.2 = conn w
  ∧ heap r.2 = heap w
  ∧ match py_str (item d "title") with
    | Ret _ =>
        r.1 = Ret (true, [Lit "Dry run - not written to database"],
                   Some (next_uuid w))
        ∧ next_uuid r.2 = S (next_uuid w)
    | Raise x => r = (Raise x, w)
    end.
Proof.
  intros Hd Hh Hv r. unfold r. rewrite ingest_enter, Hh. simpl default.
  rewrite Hv, Hd. simpl render_all.
  by destruct (py_str (item d "title")).
Qed.

Lemma dry_run_writes_nothing_witness :
  let w := sample_world true [Some "unreachable"]
             [krakatoa; VDict moon_landing_long_title] in
  let r := ingest_event_with_sources (conv := ascii_conv) 0 None w in
  let r' := ingest_event_with_sources (conv := ascii_conv_limit 640) 1 None w in
  (stats r.2 = stats w
   ∧ conn r.2 = conn w
   ∧ heap r.2 = heap w
   ∧ r.1 = Ret (true, [Lit "Dry run - not written to database"], Some 0%nat)
   ∧ next_uuid r.2 = 1%nat)
  ∧ (stats r'.2 = stats w
     ∧ conn r'.2 = conn w
     ∧ heap r'.2 = heap w
     ∧ r' = (Raise ValueError, w)).
Proof.
  split.
  - apply (dry_run_writes_nothing (conv := ascii_conv)
             (sample_world true [Some "unreachable"]
                [krakatoa; VDict moon_landing_long_title]) 0%nat None
             krakatoa_dict []).
    + reflexivity.
    + reflexivity.
    + vm_compute. reflexivity.
  - pose proof (dry_run_writes_nothing (conv := ascii_conv_limit 640)
             (sample_world true [Some "unreachable"]
                [krakatoa; VDict moon_landing_long_title]) 1%nat None
             moon_landing_long_title [] eq_refl eq_refl) as H.
    lazy zeta in H.
    replace (py_str (conv := ascii_conv_limit 640)
               (item moon_landing_long_title "title"))
      with (Raise ValueError : res piece) in H by (vm_compute; reflexivity).
    apply H. vm_compute. reflexivity.
Defined.

(** X7.  Outside dry-run mode, a valid candidate whose category is not in
    the [categories] table is rejected with the message that names the
    category, provided the lookup itself is answered: the skip counter
    grows by one, the error list and the tables are left alone, but the
    candidate has already lost the five keys the call pops. *)
Theorem unknown_category_is_rejected {conv : PyConv} w event user_id
    (d : pydict) vmsg c :
  dry_run w = false →
  heap w !! event = Some (VDict d) →
  validate_event (VDict d) = Ret (true, vmsg) →
  d !! "category" = Some (VStr c) →
  c ∉ categories (conn w) →
  hd None (outcomes (conn w)) = None →
  let r := ingest_event_with_sources event user_id w in
  r.1 = Ret (false, [Lit "Category '"; Fmt (VStr c);
                     Lit "' not found in database"], None)
  ∧ stats r.2 = incr_events_skipped (stats w)
  ∧ committed (conn r.2) = committed (conn w)
  ∧ working (conn r.2) = working (conn w)
  ∧ heap r.2 !! event = Some (VDict (popped d)).
Proof.
  intros Hd Hh Hv Hc Hnot Hans r. unfold r.
  destruct (ingest_event_with_sources event user_id w) as [out w'] eqn:H.
  simpl.
  destruct (ingest_cases _ _ _ _ _ H)
    as [(x & Hx & _)|[(msg & Hm & _)|[(_ & Hdry & _)
       |(d' & c' & l & Hh' & _ & _ & Hc' & _ & _ & Hheap & Hcases)]]].
  - rewrite Hh in Hx. simpl in Hx. congruence.
  - rewrite Hh in Hm. simpl in Hm. congruence.
  - congruence.
  - assert (d' = d) as -> by congruence.
    assert (c' = c) as -> by congruence.
    destruct Hcases as [(e & _ & [He|Hin] & _)
      |[(_ & -> & Hst & Hwk & Hcm & _)|[(x & _ & _ & Hin & _)
      |[(erow & srows & lrow & _ & Hin & _)|(x & _ & _ & Hin & _)]]]];
      try done; [congruence|].
    split_and!; try done. rewrite Hheap. apply lookup_insert_eq.
Qed.

Lemma unknown_category_is_rejected_witness :
  let w := sample_world false [] [krakatoa] in
  let r := ingest_event_with_sources (conv := ascii_conv) 0 None w in
  r.1 = Ret (false, [Lit "Category '"; Fmt (VStr "geology.volcano");
                     Lit "' not found in database"], None)
  ∧ stats r.2 = incr_events_skipped (stats w)
  ∧ committed (conn r.2) = committed (conn w)
  ∧ working (conn r.2) = working (conn w)
  ∧ heap r.2 !! 0%nat = Some (VDict (popped krakatoa_dict)).
Proof.
  apply (unknown_category_is_rejected (conv := ascii_conv)
           (sample_world false [] [krakatoa]) 0%nat None krakatoa_dict []
           "geology.volcano").
  - reflexivity.
  - reflexivity.
  - vm_compute. reflexivity.
  - reflexivity.
  - apply (bool_decide_unpack _). vm_compute. exact I.
  - reflexivity.
Defined.

(** X8.  A candidate that passes validation, whose category is registered,
    whose [unix_nanos] (0 when absent) is read by [int] and whose title,
    location name and coordinates [str] renders for the log, is ingested
    whenever every statement the call sends is carried out: the call
    returns success with the first identifier it draws and a message that
    counts the candidate's sources. *)
Theorem valid_event_is_ingested {conv : PyConv} w event user_id
    (d : pydict) vmsg c z :
  dry_run w = false →
  heap w !! event = Some (VDict d) →
  validate_event (VDict d) = Ret (true, vmsg) →
  d !! "category" = Some (VStr c) →
  c ∈ categories (conn w) →
  py_int (dict_get d "unix_nanos" (VInt 0)) = Ret z →
  renders (item d "title") = true →
  renders (dict_get d "location_name" VNone) = true →
  renders (item d "latitude") = true →
  renders (item d "longitude") = true →
  no_faults w →
  ∃ l w',
    dict_get d "sources" (VList []) = VList l
    ∧ ingest_event_with_sources event user_id w
      = (Ret (true, [Lit "Created event with ";
                     Fmt (VInt (Z.of_nat (length l))); Lit " sources"],
              Some (next_uuid w)), w').
Proof.
  intros Hd Hh Hv Hc Hin Hz Hrt Hrn Hrlat Hrlon Hn.
  pose proof Hv as Hwf. apply validate_event_true_iff in Hwf
    as (_ & d' & [= <-] & (t & Ht & _) & (us & z1 & Hus & Hz1)
        & (pl & Hpl & _) & _ & _ & _ & Himp & Hsrc).
  assert (∃ l, dict_get d "sources" (VList []) = VList l) as [l Hl].
  { unfold dict_get. destruct (d !! "sources") as [v|] eqn:Hs; simpl; [|eauto].
    destruct (Hsrc _ eq_refl) as (l & -> & _). eauto. }
  assert (∃ z3, py_int (dict_get d "importance_score" (VInt 50)) = Ret z3)
    as [z3 Hz3].
  { unfold dict_get. destruct (d !! "importance_score") as [v|] eqn:Hi; simpl;
      [|eauto]. destruct (Himp _ eq_refl) as (z3 & ? & _). eauto. }
  rewrite (item_lookup _ _ _ Ht) in Hrt.
  destruct (ingest_progress event user_id d w vmsg c us z1 t z (VStr pl) z3 l)
    as (msg & id & w' & H); try done.
  { intros _ _. apply render_all_cons. split; [done|].
    apply render_all_cons. split; [done|]. by apply render_all_one. }
  exists l, w'. split; [done|].
  destruct (ingest_cases _ _ _ _ _ H)
    as [(x & _ & ? & _)|[(m & _ & ? & _)|[(_ & ? & _)
       |(d' & c' & l' & Hh' & _ & _ & _ & Hl' & _ & _ & Hcases)]]];
    try congruence.
  assert (d' = d) as -> by congruence.
  assert (l' = l) as -> by congruence.
  destruct Hcases as [(e & ? & _)|[(_ & ? & _)|[(x & ? & _)
    |[(erow & srows & lrow & Hr & _ & _ & Hrows & _)|(x & ? & _)]]]];
    try congruence.
  apply Forall2_length in Hrows. rewrite Hrows. by rewrite H, Hr.
Qed.

Lemma valid_event_is_ingested_witness :
  let w := sample_world false [] [moon_landing [src_wikipedia; src_book]] in
  ∃ l w',
    dict_get (moon_landing_dict [src_wikipedia; src_book]) "sources" (VList [])
    = VList l
    ∧ ingest_event_with_sources (conv := ascii_conv) 0 None w
      = (Ret (true, [Lit "Created event with ";
                     Fmt (VInt (Z.of_nat (length l))); Lit " sources"],
              Some 0%nat), w').
Proof.
  apply (valid_event_is_ingested (conv := ascii_conv)
           (sample_world false [] [moon_landing [src_wikipedia; src_book]])
           0%nat None (moon_landing_dict [src_wikipedia; src_book]) []
           "space_exploration.moon_landing" 0).
  - reflexivity.
  - reflexivity.
  - vm_compute. reflexivity.
  - reflexivity.
  - vm_compute. repeat constructor.
  - reflexivity.
  - reflexivity.
  - reflexivity.
  - reflexivity.
  - reflexivity.
  - constructor.
Defined.

(** X9.  The event row of a successful call: it is the one row the call
    appends to the events table, under the identifier the call returns,
    and it holds the candidate's title, precision and category as given,
    its Unix time read by [int] both as [unix_seconds] and as
    [timeline_seconds], [unix_nanos] and [importance_score] read by [int]
    with 0 and 50 when absent, the description and uncertainty range or
    null, the image the fallback settles on, and the caller's user. *)
Theorem persisted_event_row {conv : PyConv} w event user_id (d : pydict)
    msg id w' :
  dry_run w = false →
  heap w !! event = Some (VDict d) →
  ingest_event_with_sources event user_id w = (Ret (true, msg, Some id), w') →
  ∃ c row,
    d !! "category" = Some (VStr c)
    ∧ c ∈ categories (conn w)
    ∧ events (committed (conn w')) = events (working (conn w)) ++ [row]
    ∧ is_row_of_event id user_id (category_icons w) d c row.
Proof.
  intros Hd Hh H.
  destruct (ingest_success_rows _ _ _ _ _ _ _ Hd Hh H)
    as (c & l & erow & srows & lrow & Hc & _ & _ & _ & _ & Hin & Hrow & _ & _
        & _ & Hcm & _).
  exists c, erow. rewrite Hcm. by split_and!.
Qed.

Lemma persisted_event_row_witness :
  let w := sample_world false [] [VDict moon_landing_full_dict] in
  let w' := (ingest_event_with_sources (conv := ascii_conv) 0
               (Some "curator") w).2 in
  ∃ c row,
    moon_landing_full_dict !! "category" = Some (VStr c)
    ∧ c ∈ categories (conn w)
    ∧ events (committed (conn w')) = events (working (conn w)) ++ [row]
    ∧ is_row_of_event (conv := ascii_conv) 0%nat (Some "curator")
        (category_icons w) moon_landing_full_dict c row.
Proof.
  apply (persisted_event_row (conv := ascii_conv)
           (sample_world false [] [VDict moon_landing_full_dict]) 0%nat
           (Some "curator") moon_landing_full_dict
           [Lit "Created event with "; Fmt (VInt 2); Lit " sources"] 0%nat).
  - reflexivity.
  - reflexivity.
  - vm_compute. reflexivity.
Defined.

(** X10.  The source rows of a successful call: the call appends one row
    per source of the candidate, in the order of the candidate's list,
    each under the next identifier drawn after the event's, attached to
    the event, with the source's title, url and citation or null, its type
    or ['other'], its credibility read by [int] or 50, and the caller's
    user. *)
Theorem persisted_source_rows {conv : PyConv} w event user_id (d : pydict)
    msg id w' :
  dry_run w = false →
  heap w !! event = Some (VDict d) →
  ingest_event_with_sources event user_id w = (Ret (true, msg, Some id), w') →
  ∃ l srows,
    dict_get d "sources" (VList []) = VList l
    ∧ event_sources (committed (conn w'))
      = event_sources (working (conn w)) ++ srows
    ∧ Forall2 (is_row_of_source id user_id) l srows
    ∧ src_id <$> srows = seq (S id) (length l).
Proof.
  intros Hd Hh H.
  destruct (ingest_success_rows _ _ _ _ _ _ _ Hd Hh H)
    as (c & l & erow & srows & lrow & _ & Hl & _ & _ & _ & _ & _ & Hrows & Hids
        & _ & Hcm & _).
  exists l, srows. rewrite Hcm. by split_and!.
Qed.

Lemma persisted_source_rows_witness :
  let w := sample_world false [] [VDict moon_landing_full_dict] in
  let w' := (ingest_event_with_sources (conv := ascii_conv) 0
               (Some "curator") w).2 in
  ∃ l srows,
    dict_get moon_landing_full_dict "sources" (VList []) = VList l
    ∧ event_sources (committed (conn w'))
      = event_sources (working (conn w)) ++ srows
    ∧ Forall2 (is_row_of_source (conv := ascii_conv) 0%nat (Some "curator"))
        l srows
    ∧ src_id <$> srows = seq 1 (length l).
Proof.
  apply (persisted_source_rows (conv := ascii_conv)
           (sample_world false [] [VDict moon_landing_full_dict]) 0%nat
           (Some "curator") moon_landing_full_dict
           [Lit "Created event with "; Fmt (VInt 2); Lit " sources"] 0%nat).
  - reflexivity.
  - reflexivity.
  - vm_compute. reflexivity.
Defined.

(** X11.  The location row of a successful call: the call appends exactly
    one row to the locations table, attached to the event and marked
    primary, with the candidate's latitude and longitude as they were
    given (not as [float] read them during validation) and its
    [location_name], or ['Unknown'] when that is absent or empty. *)
Theorem persisted_location_row {conv : PyConv} w event user_id (d : pydict)
    msg id w' :
  dry_run w = false →
  heap w !! event = Some (VDict d) →
  ingest_event_with_sources event user_id w = (Ret (true, msg, Some id), w') →
  ∃ location_id row,
    event_locations (committed (conn w'))
    = event_locations (working (conn w)) ++ [row]
    ∧ is_row_of_location location_id id d row
    ∧ (id < location_id < next_uuid w')%nat.
Proof.
  intros Hd Hh H.
  destruct (ingest_success_rows _ _ _ _ _ _ _ Hd Hh H)
    as (c & l & erow & srows & lrow & _ & _ & _ & _ & _ & _ & _ & _ & _
        & Hlrow & Hcm & _ & _ & Hnu & _).
  exists (S id + length l)%nat, lrow. rewrite Hcm, Hnu.
  split_and!; [done|done|lia|lia].
Qed.

Lemma persisted_location_row_witness :
  let w := sample_world false [] [VDict moon_landing_full_dict] in
  let w' := (ingest_event_with_sources (conv := ascii_conv) 0
               (Some "curator") w).2 in
  ∃ location_id row,
    event_locations (committed (conn w'))
    = event_locations (working (conn w)) ++ [row]
    ∧ is_row_of_location location_id 0%nat moon_landing_full_dict row
    ∧ (0 < location_id < next_uuid w')%nat.
Proof.
  apply (persisted_location_row (conv := ascii_conv)
           (sample_world false [] [VDict moon_landing_full_dict]) 0%nat
           (Some "curator") moon_landing_full_dict
           [Lit "Created event with "; Fmt (VInt 2); Lit " sources"] 0%nat).
  - reflexivity.
  - reflexivity.
  - vm_compute. reflexivity.
Defined.

(** X12.  The bookkeeping of a successful call for a candidate with [n]
    sources: the identifier returned is the first one the call draws, the
    message reports [n], the created-event counter grows by one and the
    created-source counter by [n], the fallback counter by one exactly
    when a category icon replaced a missing image, the skip counter and
    the error list stay as they were, [n + 2] identifiers are drawn and
    [n + 4] statements are sent (the lookup, the event, the sources, the
    location, the commit). *)
Theorem success_bookkeeping {conv : PyConv} w event user_id (d : pydict)
    msg id w' :
  dry_run w = false →
  heap w !! event = Some (VDict d) →
  ingest_event_with_sources event user_id w = (Ret (true, msg, Some id), w') →
  ∃ c l,
    d !! "category" = Some (VStr c)
    ∧ dict_get d "sources" (VList []) = VList l
    ∧ id = next_uuid w
    ∧ msg = [Lit "Created event with "; Fmt (VInt (Z.of_nat (length l)));
             Lit " sources"]
    ∧ stats w'
      = stats_plus 1 (Z.of_nat (length l))
          (if (image_choice (category_icons w) c
                 (dict_get d "image_url" VNone)).2 then 1 else 0)
          (stats w)
    ∧ next_uuid w' = (next_uuid w + 2 + length l)%nat
    ∧ outcomes (conn w') = drop (4 + length l) (outcomes (conn w)).
Proof.
  intros Hd Hh H.
  destruct (ingest_success_rows _ _ _ _ _ _ _ Hd Hh H)
    as (c & l & erow & srows & lrow & Hc & Hl & -> & -> & _ & _ & _ & _ & _
        & _ & _ & _ & Hst & Hnu & Hout).
  exists c, l. by split_and!.
Qed.

Lemma success_bookkeeping_witness :
  let w := sample_world false [None; None; None; None; None; None; Some "later"]
             [VDict moon_landing_full_dict] in
  let w' := (ingest_event_with_sources (conv := ascii_conv) 0
               (Some "curator") w).2 in
  ∃ c l,
    moon_landing_full_dict !! "category" = Some (VStr c)
    ∧ dict_get moon_landing_full_dict "sources" (VList []) = VList l
    ∧ 0%nat = next_uuid w
    ∧ [Lit "Created event with "; Fmt (VInt 2); Lit " sources"]
      = [Lit "Created event with "; Fmt (VInt (Z.of_nat (length l)));
         Lit " sources"]
    ∧ stats w'
      = stats_plus 1 (Z.of_nat (length l))
          (if (image_choice (category_icons w) c
                 (dict_get moon_landing_full_dict "image_url" VNone)).2
           then 1 else 0)
          (stats w)
    ∧ next_uuid w' = (next_uuid w + 2 + length l)%nat
    ∧ outcomes (conn w') = drop (4 + length l) (outcomes (conn w)).
Proof.
  apply (success_bookkeeping (conv := ascii_conv)
           (sample_world false [None; None; None; None; None; None; Some "later"]
              [VDict moon_landing_full_dict]) 0%nat
           (Some "curator") moon_landing_full_dict
           [Lit "Created event with "; Fmt (VInt 2); Lit " sources"] 0%nat).
  - reflexivity.
  - reflexivity.
  - vm_compute. reflexivity.
Defined.



Section RaiseAtUnixNanos.
Context {conv : PyConv}.

(** A run of the [try] block up to the conversion of [unix_nanos], when
    [int] refuses it. *)
Lemma unit_of_work_raise_at_unix_nanos event user_id (d : pydict) w c us z1 t x :
  heap w !! event = Some (VDict d) →
  d !! "category" = Some (VStr c) →
  c ∈ categories (conn w) →
  hd None (outcomes (conn w)) = None →
  d !! "unix_seconds" = Some us →
  py_int us = Ret z1 →
  d !! "title" = Some t →
  py_int (dict_get d "unix_nanos" (VInt 0)) = Raise x →
  ∃ w',
    unit_of_work event user_id w = (Throw x, w')
    ∧ committed (conn w') = committed (conn w)
    ∧ working (conn w') = working (conn w)
    ∧ events_created (stats w') = events_created (stats w)
    ∧ sources_created (stats w') = sources_created (stats w)
    ∧ events_skipped (stats w') = events_skipped (stats w)
    ∧ errors (stats w') = errors (stats w).
Proof.
  intros Hh Hc Hcin Hans Hus Hz1 Ht Hx. unfold unit_of_work.
  rewrite bind_run, cursor_run. cbv beta iota.
  rewrite bind_run. unfold uuid4 at 1. cbv beta iota.
  rewrite bind_run, (obj_pop_run _ _ _ d) by done. cbv beta iota.
  rewrite bind_run, (obj_pop_run _ _ _ (delete "sources" d))
    by (simpl; apply lookup_insert_eq). cbv beta iota.
  rewrite bind_run, (obj_pop_run _ _ _ (delete "category" (delete "sources" d)))
    by (simpl; apply lookup_insert_eq). cbv beta iota.
  rewrite bind_run, (obj_pop_run _ _ _
    (delete "latitude" (delete "category" (delete "sources" d))))
    by (simpl; apply lookup_insert_eq). cbv beta iota.
  rewrite bind_run, (obj_pop_run _ _ _
    (delete "longitude" (delete "latitude" (delete "category" (delete "sources" d)))))
    by (simpl; apply lookup_insert_eq). cbv beta iota.
  rewrite !dict_get_delete_ne by done.
  rewrite (dict_get_lookup _ _ _ _ Hc).
  match goal with |- context [_ ?w0 = _] =>
    match type of w0 with world => remember w0 as w5 eqn:Hw5 end end.
  assert (heap w5 !! event = Some (VDict (popped d))) as Hh5
    by (subst w5; simpl; rewrite !insert_insert_eq; apply lookup_insert_eq).
  assert (conn w5 = conn w) as Hc5 by by subst w5.
  assert (stats w5 = stats w) as Hs5 by by subst w5.
  clear Hw5.
  (* the category is found *)
  rewrite bind_run.
  destruct (select_category_cases (R := outcome) (VStr c) w5)
    as [->|(e & He & _)]; [|rewrite Hc5 in He; congruence].
  cbv beta iota. simpl in_strs. rewrite Hc5, bool_decide_eq_true_2 by done.
  simpl negb. rewrite if_then_false, bind_run, mret_run. cbv beta iota.
  (* the image *)
  rewrite bind_run, (obj_get_run _ _ _ (popped d)) by done. cbv beta iota.
  rewrite bind_run, resolve_image_run. cbv beta iota.
  match goal with |- context [image_choice ?ic c ?s] =>
    generalize (image_choice ic c s); intros choice end.
  match goal with |- context [_ ?w0 = _] =>
    match type of w0 with world => remember w0 as w6 eqn:Hw6 end end.
  assert (heap w6 !! event = Some (VDict (popped d))) as Hh6
    by (subst w6; by destruct (choice.2); simpl).
  assert (committed (conn w6) = committed (conn w)
          ∧ working (conn w6) = working (conn w)
          ∧ events_created (stats w6) = events_created (stats w)
          ∧ sources_created (stats w6) = sources_created (stats w)
          ∧ events_skipped (stats w6) = events_skipped (stats w)
          ∧ errors (stats w6) = errors (stats w)) as Hkeep.
  { subst w6. destruct (choice.2); simpl; by rewrite Hc5, Hs5. }
  clear Hw6.
  (* the row, up to [unix_nanos] *)
  rewrite bind_run, (obj_item_run _ _ (popped d)) by done.
  rewrite lookup_popped_ne, Hus by done. cbv beta iota.
  rewrite bind_run, Hz1, lift_Ret_run. cbv beta iota.
  rewrite bind_run, (obj_item_run _ _ (popped d)) by done.
  rewrite lookup_popped_ne, Ht by done. cbv beta iota.
  rewrite bind_run, (obj_get_run _ _ _ (popped d)) by done. cbv beta iota.
  rewrite dict_get_popped_ne, Hx by done.
  rewrite bind_run, lift_Raise_run. eauto.
Qed.

End RaiseAtUnixNanos.

(** X14.  Exceptions of the conversions leave the call.  What
    [validate_event] raises leaves the call at once, with nothing
    changed.  And when [int] refuses the [unix_nanos] of a candidate that
    passed validation (the one value the unit of work converts without
    validation having looked at it), that exception leaves the call too,
    provided the category is registered and its lookup is answered: no
    row is written or left pending, the created and skipped counters and
    the error list are as before, and the candidate has lost the five keys
    the call pops. *)
Theorem escaping_exceptions {conv : PyConv} w event user_id (d : pydict) x :
  heap w !! event = Some (VDict d) →
  (validate_event (VDict d) = Raise x →
   ingest_event_with_sources event user_id w = (Raise x, w))
  ∧ (∀ vmsg c,
       validate_event (VDict d) = Ret (true, vmsg) →
       dry_run w = false →
       d !! "category" = Some (VStr c) →
       c ∈ categories (conn w) →
       hd None (outcomes (conn w)) = None →
       py_int (dict_get d "unix_nanos" (VInt 0)) = Raise x →
       ∃ w',
         ingest_event_with_sources event user_id w = (Raise x, w')
         ∧ committed (conn w') = committed (conn w)
         ∧ working (conn w') = working (conn w)
         ∧ events_created (stats w') = events_created (stats w)
         ∧ sources_created (stats w') = sources_created (stats w)
         ∧ events_skipped (stats w') = events_skipped (stats w)
         ∧ errors (stats w') = errors (stats w)
         ∧ heap w' !! event = Some (VDict (popped d))).
Proof.
  intros Hh. split; [by apply ingest_raise|].
  intros vmsg c Hv Hd Hc Hin Hans Hx.
  pose proof Hv as Hwf. apply validate_event_true_iff in Hwf
    as (_ & d' & [= <-] & (t & Ht & _) & (us & z1 & Hus & Hz1) & _).
  destruct (unit_of_work_raise_at_unix_nanos event user_id d w c us z1 t x)
    as (w' & Hu & Hrest); try done.
  exists w'.
  pose proof (ingest_heap event user_id d vmsg w Hd Hh Hv) as Hheap.
  rewrite (ingest_valid _ _ _ _ _ Hh Hv Hd) in Hheap |- *.
  unfold call_m, try_except_psycopg2 in Hheap |- *. rewrite Hu in Hheap |- *.
  assert (is_database_error x = false) as Hb.
  { apply py_int_raises in Hx. by destruct_or!; subst. }
  destruct x; try done; simpl in Hheap |- *;
    (split_and!; [done|try apply Hrest..|rewrite Hheap; apply lookup_insert_eq]).
Qed.

Lemma escaping_exceptions_witness :
  let w := sample_world false []
             [moon_landing_null_nanos; VDict moon_landing_huge_latitude] in
  ingest_event_with_sources (conv := ascii_conv) 1 None w
  = (Raise OverflowError, w)
  ∧ ∃ w',
      ingest_event_with_sources (conv := ascii_conv) 0 None w
      = (Raise TypeError, w')
      ∧ committed (conn w') = committed (conn w)
      ∧ working (conn w') = working (conn w)
      ∧ events_created (stats w') = events_created (stats w)
      ∧ sources_created (stats w') = sources_created (stats w)
      ∧ events_skipped (stats w') = events_skipped (stats w)
      ∧ errors (stats w') = errors (stats w)
      ∧ heap w' !! 0%nat
        = Some (VDict (popped (list_to_map
                  (moon_landing_fields ++ [("unix_nanos", VNone)])))).
Proof.
  split.
  - apply (proj1 (escaping_exceptions (conv := ascii_conv)
             (sample_world false []
                [moon_landing_null_nanos; VDict moon_landing_huge_latitude])
             1%nat None moon_landing_huge_latitude OverflowError eq_refl)).
    vm_compute. reflexivity.
  - apply (proj2 (escaping_exceptions (conv := ascii_conv)
             (sample_world false []
                [moon_landing_null_nanos; VDict moon_landing_huge_latitude])
             0%nat None
             (list_to_map (moon_landing_fields ++ [("unix_nanos", VNone)]))
             TypeError eq_refl) [] "space_exploration.moon_landing").
    + vm_compute. reflexivity.
    + reflexivity.
    + reflexivity.
    + vm_compute. repeat constructor.
    + reflexivity.
    + reflexivity.
Defined.

(** ** Consistency of the store *)

Section Consistency.
Context {conv : PyConv}.

Lemma ids_below_mono n m t : (n ≤ m)%nat → ids_below n t → ids_below m t.
Proof.
  intros Hnm (He & Hs & Hl). split_and!.
  - eapply Forall_impl; [exact He|]. simpl. lia.
  - eapply Forall_impl; [exact Hs|]. simpl. lia.
  - eapply Forall_impl; [exact Hl|]. simpl. lia.
Qed.

Lemma store_consistent_rest w w' :
  committed (conn w') = committed (conn w) →
  working (conn w') = committed (conn w') →
  (next_uuid w ≤ next_uuid w')%nat →
  store_consistent w → store_consistent w'.
Proof.
  unfold store_consistent. intros Hcm Hwk Hnu (_ & Hids & Hrest).
  rewrite Hcm in *. split_and!; try tauto. by eapply ids_below_mono.
Qed.

Lemma NoDup_snoc_fresh (l : list nat) n :
  Forall (λ i, (i < n)%nat) l → NoDup l → NoDup (l ++ [n]).
Proof.
  intros Hl Hnd. apply NoDup_app. split_and!; [done| |apply NoDup_singleton].
  intros i Hi. rewrite list_elem_of_singleton. intros ->.
  rewrite Forall_forall in Hl. specialize (Hl _ Hi). lia.
Qed.

Lemma NoDup_app_seq (l : list nat) n k :
  Forall (λ i, (i < n)%nat) l → NoDup l → NoDup (l ++ seq n k).
Proof.
  intros Hl Hnd. apply NoDup_app. split_and!; [done| |apply NoDup_seq].
  intros i Hi. rewrite elem_of_seq. rewrite Forall_forall in Hl.
  specialize (Hl _ Hi). lia.
Qed.

(** A call that returns leaves the store consistent: it has committed its
    rows, rolled them back, or written none. *)
Lemma ingest_store_consistent event user_id w out w' :
  ingest_event_with_sources event user_id w = (Ret out, w') →
  store_consistent w →
  store_consistent w'.
Proof.
  intros H Hsc.
  destruct (ingest_cases _ _ _ _ _ H)
    as [(x & _ & ? & _)|[(msg & _ & _ & ->)
       |[(_ & _ & d & _ & [(_ & _ & ->)|(x & _ & ? & _)])
       |(d & c & l & Hh & Hwf & Hd & Hc & Hl & Hwfl & Hheap & Hcases)]]];
    try done.
  - eapply store_consistent_rest; [..|exact Hsc]; simpl; try done; [|lia].
    by destruct Hsc as [-> _].
  - pose proof Hsc as (Hidle & (Hev & Hsrc & Hloc) & Hnd1 & Hnd2 & Hnd3 & Hfk1 & Hfk2).
    destruct Hcases as [(e & _ & _ & Hcm & Hwk & _ & _ & Hnu)
      |[(_ & _ & _ & Hwk & Hcm & Hnu & _)|[(x & ? & _)
      |[(erow & srows & lrow & _ & _ & Hrow & Hsrows & Hids & Hlrow & Hcm
        & Hwk & _ & Hnu & _)|(x & ? & _)]]]]; try done.
    + eapply store_consistent_rest; [..|exact Hsc]; try done. lia.
    + eapply store_consistent_rest; [..|exact Hsc]; try done; [|lia].
      by rewrite Hwk, Hcm.
    + unfold store_consistent. rewrite Hwk, Hcm, Hidle, Hnu. simpl.
      destruct Hrow as (Hid & _). destruct Hlrow as (Hlid & Hleid & _).
      assert (Forall (λ r, src_event_id r = next_uuid w) srows) as Hseid.
      { clear -Hsrows. induction Hsrows as [|s r l rows Hr _ IH]; [done|].
        constructor; [|done]. by destruct Hr as (? & _ & ? & _). }
      assert (Forall (λ r, (next_uuid w < src_id r < next_uuid w + 1 + length srows)%nat)
                srows) as Hsid.
      { apply Forall_forall. intros r Hr.
        assert (src_id r ∈ src_id <$> srows) as Hin
          by (apply list_elem_of_fmap; eauto).
        rewrite Hids, elem_of_seq in Hin. lia. }
      split_and!.
      * done.
      * split_and!; simpl.
        -- apply Forall_app. split.
           ++ eapply Forall_impl; [exact Hev|]. simpl. lia.
           ++ constructor; [lia|done].
        -- apply Forall_app. split.
           ++ eapply Forall_impl; [exact Hsrc|]. simpl. lia.
           ++ apply Forall_forall. intros r Hr.
              pose proof (proj1 (Forall_forall _ _) Hseid r Hr) as H1.
              pose proof (proj1 (Forall_forall _ _) Hsid r Hr) as H2.
              simpl in *. lia.
        -- apply Forall_app. split.
           ++ eapply Forall_impl; [exact Hloc|]. simpl. lia.
           ++ constructor; [lia|done].
      * rewrite fmap_app. simpl. rewrite Hid. apply NoDup_snoc_fresh; [|done].
        apply Forall_fmap. by eapply Forall_impl; [exact Hev|].
      * rewrite fmap_app, Hids. apply NoDup_app_seq; [|done].
        apply Forall_fmap. eapply Forall_impl; [exact Hsrc|]. simpl. lia.
      * rewrite fmap_app. simpl. rewrite Hlid.
        apply NoDup_snoc_fresh; [|done].
        apply Forall_fmap. eapply Forall_impl; [exact Hloc|]. simpl. lia.
      * apply Forall_app. split.
        -- eapply Forall_impl; [exact Hfk1|]. simpl. intros r Hr.
           rewrite fmap_app, elem_of_app. by left.
        -- eapply Forall_impl; [exact Hseid|]. simpl. intros r ->.
           rewrite fmap_app, elem_of_app. right. simpl. rewrite Hid.
           by apply list_elem_of_singleton.
      * apply Forall_app. split.
        -- eapply Forall_impl; [exact Hfk2|]. simpl. intros r Hr.
           rewrite fmap_app, elem_of_app. by left.
        -- constructor; [|done]. rewrite Hleid.
           rewrite fmap_app, elem_of_app. right. simpl. rewrite Hid.
           by apply list_elem_of_singleton.
Qed.

End Consistency.

(** ** Batches *)

Section Batch.
Context {conv : PyConv}.

Lemma ingest_each_cons_run event rest user_id w :
  ingest_each (event :: rest) user_id w
  = match ingest_event_with_sources event user_id w with
    | (Ret _, w1) => ingest_each rest user_id w1
    | (Raise x, w1) => (Throw x, w1)
    end.
Proof.
  simpl. rewrite bind_run.
  by destruct (ingest_event_with_sources event user_id w) as [[?|?] ?].
Qed.

Lemma ingest_each_no_return events user_id w s w' :
  ingest_each events user_id w ≠ (Return s, w').
Proof.
  revert w. induction events as [|e l IH]; intros w; [done|].
  rewrite ingest_each_cons_run.
  destruct (ingest_event_with_sources e user_id w) as [[?|?] ?]; [|done].
  apply IH.
Qed.

Lemma ingest_batch_run events user_id w :
  ingest_batch events user_id w
  = match ingest_each events user_id w with
    | (Throw x, w1) => (Raise x, w1)
    | (_, w1) => (Ret (stats w1), w1)
    end.
Proof.
  unfold ingest_batch, call_m. rewrite bind_run.
  destruct (ingest_each events user_id w) as [[[]|s|x] w1] eqn:He; try done.
  by apply ingest_each_no_return in He.
Qed.

Lemma ingest_batch_cons_run event rest user_id w :
  ingest_batch (event :: rest) user_id w
  = match ingest_event_with_sources event user_id w with
    | (Ret _, w1) => ingest_batch rest user_id w1
    | (Raise x, w1) => (Raise x, w1)
    end.
Proof.
  rewrite ingest_batch_run, ingest_each_cons_run.
  destruct (ingest_event_with_sources event user_id w) as [[?|?] w1]; [|done].
  by rewrite ingest_batch_run.
Qed.





End Batch.

(** * Further properties of [ingest_batch] *)

(** X15.  A batch that returns its statistics leaves the store consistent
    if it found it so: nothing is pending in the transaction, the
    identifiers of each table are pairwise distinct and were all drawn
    already, and every source row and every location row belongs to an
    event row of the events table.  Each of its calls has returned, having
    committed its rows, rolled them back, or written none. *)
Theorem batch_keeps_store_consistent {conv : PyConv} events user_id w s w' :
  store_consistent w →
  ingest_batch events user_id w = (Ret s, w') →
  store_consistent w'.
Proof.
  revert w. induction events as [|e l IH]; intros w Hsc H.
  - rewrite ingest_batch_run in H. simpl in H. by simplify_eq.
  - rewrite ingest_batch_cons_run in H.
    destruct (ingest_event_with_sources e user_id w) as [[out|x] w1] eqn:He;
      [|done].
    eapply IH; [|exact H]. by eapply ingest_store_consistent.
Qed.

Lemma batch_keeps_store_consistent_witness :
  store_consistent
    (ingest_batch (conv := ascii_conv) [0; 1; 2; 0]%nat None
       (sample_world false
          [None; None; None; None; None; None; None; Some "connection lost"]
          [moon_landing [src_wikipedia; src_book]; bastille; krakatoa])).2.
Proof.
  eapply (batch_keeps_store_consistent (conv := ascii_conv) [0; 1; 2; 0]%nat None
            (sample_world false
               [None; None; None; None; None; None; None; Some "connection lost"]
               [moon_landing [src_wikipedia; src_book]; bastille; krakatoa])).
  - unfold store_consistent, ids_below. simpl.
    split_and!; by constructor.
  - vm_compute. reflexivity.
Defined.



(** ** Icon files and their stems *)

Lemma string_app_cons c (s t : string) : String c s +:+ t = String c (s +:+ t).
Proof. reflexivity. Qed.

Lemma string_app_length (s t : string) :
  String.length (s +:+ t) = (String.length s + String.length t)%nat.
Proof. induction s as [|c s IH]; simpl; [done|]. by rewrite IH. Qed.

Lemma substring_prefix (s t : string) :
  substring 0 (String.length s) (s +:+ t) = s.
Proof. induction s as [|c s IH]; simpl; [by destruct t|]. by rewrite IH. Qed.

Lemma substring_all (t : string) : substring 0 (String.length t) t = t.
Proof. induction t as [|c t IH]; simpl; [done|]. by rewrite IH. Qed.

Lemma substring_suffix (s t : string) :
  substring (String.length s) (String.length t) (s +:+ t) = t.
Proof. induction s as [|c s IH]; simpl; [apply substring_all|done]. Qed.

Lemma substring_split (n : string) k :
  (k ≤ String.length n)%nat →
  n = substring 0 k n +:+ substring k (String.length n - k) n.
Proof.
  revert k. induction n as [|c n IH]; intros k Hk; simpl in *.
  - by destruct k.
  - destruct k as [|k]; simpl.
    + by rewrite substring_all.
    + rewrite string_app_cons. f_equal. apply IH. lia.
Qed.

Lemma is_svg_app (s : string) : is_svg (s +:+ ".svg") = true.
Proof.
  unfold is_svg. rewrite string_app_length. simpl String.length.
  replace (String.length s + 4 - 4)%nat with (String.length s) by lia.
  pose proof (substring_suffix s ".svg") as Hsuf.
  change (String.length ".svg") with 4%nat in Hsuf. rewrite Hsuf.
  apply andb_true_iff. split; [apply Nat.leb_le; lia|done].
Qed.

Lemma is_svg_inv (name : string) :
  is_svg name = true → ∃ s, name = s +:+ ".svg".
Proof.
  unfold is_svg. intros [Hlen Heq]%andb_true_iff.
  apply Nat.leb_le in Hlen. apply String.eqb_eq in Heq.
  exists (substring 0 (String.length name - 4) name).
  pose proof (substring_split name (String.length name - 4)) as Hsp.
  replace (String.length name - (String.length name - 4))%nat with 4%nat
    in Hsp by lia.
  rewrite Heq in Hsp. apply Hsp. lia.
Qed.

Lemma rfind_dot_app (s t : string) i :
  rfind_dot (s +:+ t) i
  = match rfind_dot t (i + String.length s) with
    | Some j => Some j
    | None => rfind_dot s i
    end.
Proof.
  revert i. induction s as [|c s IH]; intros i.
  - change ("" +:+ t) with t. simpl. rewrite Nat.add_0_r.
    by destruct (rfind_dot t i).
  - rewrite string_app_cons. simpl. rewrite IH. replace (S i + String.length s)%nat
      with (i + S (String.length s))%nat by lia.
    by destruct (rfind_dot t (i + S (String.length s))).
Qed.

Lemma path_stem_svg (s : string) : s ≠ "" → path_stem (s +:+ ".svg") = s.
Proof.
  intros Hs. unfold path_stem. rewrite rfind_dot_app. simpl rfind_dot.
  rewrite string_app_length. simpl String.length.
  assert (0 < String.length s)%nat as Hpos by (destruct s; [done|simpl; lia]).
  assert ((0 <? String.length s)%nat
          && (String.length s <? String.length s + 4 - 1)%nat = true) as ->.
  { apply andb_true_iff. split; apply Nat.ltb_lt; lia. }
  apply substring_prefix.
Qed.

(** A file that matches [*.svg] and has the stem [k] is [k.svg], unless
    [k] is itself [.svg]. *)
Lemma svg_with_stem (name k : string) :
  is_svg name = true → path_stem name = k → k ≠ ".svg" → name = k +:+ ".svg".
Proof.
  intros [s ->]%is_svg_inv Hstem Hk.
  destruct (decide (s = "")) as [->|Hs]; [by subst k|].
  rewrite path_stem_svg in Hstem by done. by subst.
Qed.

Lemma load_category_icons_snoc names name :
  _load_category_icons (Some (names ++ [name]))
  = if is_svg name
    then <[path_stem name := "/images/categories/" +:+ name]>
           (_load_category_icons (Some names))
    else _load_category_icons (Some names).
Proof.
  unfold _load_category_icons. rewrite filter_app, filter_cons, filter_nil.
  destruct (is_svg name) eqn:Hs.
  - rewrite decide_True by done. by rewrite foldl_app.
  - rewrite decide_False by congruence. by rewrite app_nil_r.
Qed.

(** Every entry of the icon map comes from a file that matches [*.svg]:
    the key is the file's stem and the value its URL path. *)
Lemma load_category_icons_sound names k v :
  _load_category_icons (Some names) !! k = Some v →
  ∃ name, name ∈ names ∧ is_svg name = true ∧ path_stem name = k
          ∧ v = "/images/categories/" +:+ name.
Proof.
  induction names as [|name names IH] using rev_ind; [done|].
  rewrite load_category_icons_snoc.
  destruct (is_svg name) eqn:Hs.
  - rewrite lookup_insert. case_decide as Hk.
    + intros [= <-]. exists name. rewrite elem_of_app, list_elem_of_singleton.
      eauto.
    + intros (n & Hn & Hrest)%IH. exists n. rewrite elem_of_app. eauto.
  - intros (n & Hn & Hrest)%IH. exists n. rewrite elem_of_app. eauto.
Qed.

Lemma load_category_icons_complete names name :
  name ∈ names → is_svg name = true →
  is_Some (_load_category_icons (Some names) !! path_stem name).
Proof.
  induction names as [|n names IH] using rev_ind; [by intros ?%elem_of_nil|].
  rewrite elem_of_app, list_elem_of_singleton, load_category_icons_snoc.
  intros [Hin| ->] Hs.
  - destruct (is_svg n); [|by apply IH].
    rewrite lookup_insert. case_decide; [done|by apply IH].
  - rewrite Hs, lookup_insert_eq. done.
Qed.

Lemma load_category_icons_own names (c : string) :
  c ≠ "" → c ≠ ".svg" → (c +:+ ".svg") ∈ names →
  _load_category_icons (Some names) !! c
  = Some ("/images/categories/" +:+ c +:+ ".svg").
Proof.
  intros Hc Hc' Hin.
  destruct (load_category_icons_complete names (c +:+ ".svg") Hin (is_svg_app c))
    as [v Hv].
  rewrite path_stem_svg in Hv by done. rewrite Hv.
  apply load_category_icons_sound in Hv as (name & _ & Hs & Hstem & ->).
  by rewrite (svg_with_stem name c Hs Hstem Hc').
Qed.

Lemma split_dot_0_app (p rest : string) :
  has_dot p = false → split_dot_0 (p +:+ "." +:+ rest) = p.
Proof.
  induction p as [|a p IH]; simpl; [done|].
  intros [Ha Hp]%orb_false_iff. rewrite Ha. by rewrite IH.
Qed.

Lemma has_dot_app (p rest : string) : has_dot (p +:+ "." +:+ rest) = true.
Proof.
  induction p as [|a p IH]; simpl; [done|]. rewrite IH. apply orb_true_r.
Qed.

Lemma has_dot_false_ne (p : string) : has_dot p = false → p ≠ ".svg".
Proof. by intros Hp ->. Qed.

Lemma app_dot_ne_svg (p rest : string) :
  p ≠ "" → has_dot p = false → p +:+ "." +:+ rest ≠ ".svg".
Proof.
  destruct p as [|a p]; [done|]. simpl. intros _ [Ha _]%orb_false_iff [= -> _].
  done.
Qed.

Lemma string_app_ne_empty (p rest : string) : p ≠ "" → p +:+ rest ≠ "".
Proof. by destruct p. Qed.

(** * Further properties of the category icons *)

(** X18.  The icon map is the [*.svg] files of the icon directory and
    nothing else: a category has an entry exactly when some file of the
    directory matches [*.svg] and has the category as its stem, every
    value is the URL path [/images/categories/] followed by the name of
    such a file, and a missing directory gives the empty map. *)
Theorem icon_map_is_the_svg_files names k :
  (is_Some (_load_category_icons (Some names) !! k)
   ↔ ∃ name, name ∈ names ∧ is_svg name = true ∧ path_stem name = k)
  ∧ (∀ v, _load_category_icons (Some names) !! k = Some v →
       ∃ name, name ∈ names ∧ is_svg name = true ∧ path_stem name = k
               ∧ v = "/images/categories/" +:+ name)
  ∧ _load_category_icons None !! k = None.
Proof.
  split_and!.
  - split.
    + intros [v (name & ? & ? & ? & _)%load_category_icons_sound]. eauto.
    + intros (name & Hin & Hs & <-). by apply load_category_icons_complete.
  - intros v. apply load_category_icons_sound.
  - done.
Qed.

(** X19.  A category whose own icon file [c.svg] is in the icon directory
    resolves to the URL path of that file. *)
Theorem category_with_icon_file names (c : string) :
  c ≠ "" → c ≠ ".svg" → (c +:+ ".svg") ∈ names →
  _get_fallback_image (_load_category_icons (Some names)) c
  = Some ("/images/categories/" +:+ c +:+ ".svg").
Proof.
  intros Hc Hc' Hin. unfold _get_fallback_image.
  destruct (String.eqb c "") eqn:He; [by apply String.eqb_eq in He|].
  by rewrite load_category_icons_own.
Qed.

Lemma category_with_icon_file_witness :
  _get_fallback_image (_load_category_icons sample_icon_dir) "science"
  = Some ("/images/categories/" +:+ "science" +:+ ".svg").
Proof.
  apply (category_with_icon_file
           ["space_exploration.svg"; "science.svg"; "README.md"] "science").
  - discriminate.
  - discriminate.
  - apply (bool_decide_unpack _). vm_compute. exact I.
Defined.

(** X20.  A category [parent.child...] without an icon file of its own
    takes the icon of its first segment: when [parent.svg] is in the icon
    directory and no file is named after the whole category, the category
    resolves to the URL path of [parent.svg].  Only the segment before the
    first dot is tried, however many segments there are. *)
Theorem category_inherits_parent_icon names (parent rest : string) :
  parent ≠ "" → has_dot parent = false →
  (parent +:+ ".svg") ∈ names →
  ((parent +:+ "." +:+ rest) +:+ ".svg") ∉ names →
  _get_fallback_image (_load_category_icons (Some names))
    (parent +:+ "." +:+ rest)
  = Some ("/images/categories/" +:+ parent +:+ ".svg").
Proof.
  intros Hp Hdot Hin Hnot. unfold _get_fallback_image.
  destruct (String.eqb (parent +:+ "." +:+ rest) "") eqn:He.
  { apply String.eqb_eq in He. by apply string_app_ne_empty in He. }
  destruct (_load_category_icons (Some names) !! (parent +:+ "." +:+ rest))
    as [v|] eqn:Hv.
  { apply load_category_icons_sound in Hv as (name & Hn & Hs & Hstem & _).
    apply (svg_with_stem _ _ Hs) in Hstem; [by subst|].
    by apply app_dot_ne_svg. }
  rewrite has_dot_app, split_dot_0_app by done.
  rewrite load_category_icons_own; try done. by apply has_dot_false_ne.
Qed.

Lemma category_inherits_parent_icon_witness :
  _get_fallback_image (_load_category_icons sample_icon_dir)
    ("space_exploration" +:+ "." +:+ "moon_landing.apollo")
  = Some ("/images/categories/" +:+ "space_exploration" +:+ ".svg").
Proof.
  apply (category_inherits_parent_icon
           ["space_exploration.svg"; "science.svg"; "README.md"]
           "space_exploration" "moon_landing.apollo").
  - discriminate.
  - reflexivity.
  - apply (bool_decide_unpack _). vm_compute. exact I.
  - apply (bool_decide_unpack _). vm_compute. exact I.
Defined.

(** ** The CSV loader *)

Section CsvFacts.
Context {conv : PyConv} {txt : PyText}.

Lemma lacks_geo_rejected (d : pydict) :
  lacks_geo d →
  validate_event (VDict d)
  = Ret (false,
         [Lit "Missing required field: latitude (all events must have geo point)"]).
Proof.
  intros ((t & Ht & Hne) & [us Hus] & [pl Hpl] & _ & Hlat).
  unfold validate_event.
  rewrite (key_in_lookup _ _ _ Ht), (key_in_lookup _ _ _ Hus),
    (key_in_lookup _ _ _ Hpl), (item_lookup _ _ _ Ht).
  assert (key_in "latitude" d = false) as -> by by apply key_in_false.
  assert (truthy (VStr t) = true) as ->.
  { simpl. destruct (String.eqb t "") eqn:He; [|done].
    by apply String.eqb_eq in He. }
  done.
Qed.

Lemma lacks_geo_sources_append source (d d' : pydict) :
  sources_append source d = Ret d' → lacks_geo d → lacks_geo d'.
Proof.
  unfold sources_append, lacks_geo.
  destruct (d !! "sources") as [[| | | | |l|]|]; intros H; simplify_eq.
  rewrite !lookup_insert_ne by done. rewrite lookup_insert_eq.
  intros (? & ? & ? & _ & ?). split_and!; eauto.
  by rewrite lookup_insert_ne.
Qed.

Lemma update_event_inv (P : pydict → Prop) events_dict title f events_dict' :
  (∀ d d', f d = Ret d' → P d → P d') →
  update_event events_dict title f = Ret events_dict' →
  Forall P events_dict.*2 → Forall P events_dict'.*2
  ∧ events_dict'.*1 = events_dict.*1.
Proof.
  intros Hf. revert events_dict'.
  induction events_dict as [|[t d] rest IH]; intros acc' H Hall; [done|].
  simpl in H. rewrite fmap_cons in Hall. apply Forall_cons in Hall as [Hd Hall].
  destruct (String.eqb t title).
  - destruct (f d) as [d'|] eqn:Hfd; simplify_eq. rewrite !fmap_cons. simpl.
    split; [|done]. constructor; [by eapply Hf|done].
  - destruct (update_event rest title f) as [rest'|] eqn:Hu; simplify_eq.
    destruct (IH _ eq_refl Hall) as [Hall' Hkeys]. rewrite !fmap_cons. simpl.
    split; [by constructor|by rewrite Hkeys].
Qed.

Lemma flow_bind_assoc {R A B C} (m : flow R A) (f : A → flow R B)
    (g : B → flow R C) :
  (m ≫= f) ≫= g = m ≫= λ a, f a ≫= g.
Proof. by destruct m. Qed.

Lemma raising_bind_inv {R A} (r : res A) (k : A → flow R R) out :
  call (raising r ≫= k) = Ret out → ∃ a, r = Ret a ∧ call (k a) = Ret out.
Proof. destruct r as [a|x]; simpl; [eauto|done]. Qed.

Ltac inv_raising H a Ha :=
  rewrite ?flow_bind_assoc in H; apply raising_bind_inv in H as (a & Ha & H).

(** One row keeps the candidates built so far without coordinates, and
    adds at most the row's title to the keys. *)
Lemma csv_row_step_inv events_dict row events_dict' :
  csv_row_step events_dict row = Ret events_dict' →
  Forall lacks_geo events_dict.*2 →
  Forall lacks_geo events_dict'.*2
  ∧ (events_dict'.*1 = events_dict.*1
     ∨ ∃ t, py_strip (row_get row "title" "") = Ret t ∧ t ≠ ""
            ∧ (t ∉ events_dict.*1) ∧ events_dict'.*1 = events_dict.*1 ++ [t])
  ∧ (∀ t, py_strip (row_get row "title" "") = Ret t → t ≠ "" →
          t ∈ events_dict'.*1).
Proof.
  unfold csv_row_step. intros H Hall.
  inv_raising H title Htitle.
  destruct (String.eqb title "") eqn:Hne; cbn [return_if mbind flow_bind] in H.
  { cbn [call] in H. simplify_eq. split_and!; [done|by left|].
    intros t Ht Hnt. rewrite Htitle in Ht. simplify_eq.
    by apply String.eqb_eq in Hne. }
  apply String.eqb_neq in Hne.
  match type of H with call (_ ≫= ?k) = _ => set (K := k) in H end.
  assert (∃ acc, Forall lacks_geo acc.*2
            ∧ (acc.*1 = events_dict.*1
               ∨ (title ∉ events_dict.*1) ∧ acc.*1 = events_dict.*1 ++ [title])
            ∧ title ∈ acc.*1
            ∧ call (K acc) = Ret events_dict')
    as (acc & Hacc & Hkeys & Hin & H').
  { case_bool_decide as Hseen.
    - exists events_dict. split_and!; [done|by left|done|done].
    - inv_raising H description Hd. inv_raising H category Hc.
      inv_raising H image_url Hi. inv_raising H uncertainty_range Hu.
      eexists. split_and!; [| | |exact H].
      + rewrite fmap_app. apply Forall_app. split; [done|].
        constructor; [|done]. unfold lacks_geo.
        split_and!;
          [exists title; split; [done|done]|by eexists|by eexists|by eexists|done].
      + right. split; [done|]. by rewrite fmap_app.
      + rewrite fmap_app, elem_of_app. right. by apply list_elem_of_singleton. }
  clear H. subst K. cbv beta in H'. rename H' into H.
  inv_raising H source_url Hsu.
  match type of H with call (_ ≫= ?k) = _ => set (K := k) in H end.
  assert (∀ has_source : bool, call (K has_source) = Ret events_dict' →
    Forall lacks_geo events_dict'.*2 ∧ events_dict'.*1 = acc.*1) as Hlast.
  { subst K. intros [] Hc; cbv beta iota in Hc; [|simpl in Hc; by simplify_eq].
    inv_raising Hc url Hurl. inv_raising Hc source_title Hst.
    inv_raising Hc source_type Hty. inv_raising Hc citation Hci.
    destruct (update_event acc title _) as [acc'|] eqn:Hu; simpl in Hc; [|done].
    simplify_eq.
    eapply update_event_inv; [|exact Hu|done].
    intros d d'. apply lacks_geo_sources_append. }
  assert (Forall lacks_geo events_dict'.*2 ∧ events_dict'.*1 = acc.*1)
    as [Hgeo Hk'].
  { destruct (negb (String.eqb source_url "")).
    - by apply (Hlast true).
    - inv_raising H source_title Hst. by apply (Hlast _ H). }
  rewrite Hk'. split_and!; [done| |].
  - destruct Hkeys as [->|[Hnotin ->]]; [by left|].
    right. exists title. by split_and!.
  - intros t Ht _. rewrite Htitle in Ht. by simplify_eq.
Qed.

Lemma csv_rows_inv events_dict rows events_dict' :
  csv_rows events_dict rows = Ret events_dict' →
  Forall lacks_geo events_dict.*2 → NoDup events_dict.*1 →
  Forall lacks_geo events_dict'.*2 ∧ NoDup events_dict'.*1
  ∧ ∀ t, t ∈ events_dict'.*1
         ↔ t ∈ events_dict.*1
           ∨ t ≠ "" ∧ ∃ row, row ∈ rows
                       ∧ py_strip (row_get row "title" "") = Ret t.
Proof.
  revert events_dict. induction rows as [|row rows IH]; intros acc H Hall Hnd.
  - simpl in H. simplify_eq. split_and!; [done..|].
    intros t. split; [by left|]. intros [?|(_ & row & Hin & _)]; [done|].
    by apply elem_of_nil in Hin.
  - simpl in H. destruct (csv_row_step acc row) as [acc1|] eqn:Hstep; [|done].
    destruct (csv_row_step_inv _ _ _ Hstep Hall) as (Hall1 & Hkeys & Hin1).
    assert (NoDup acc1.*1) as Hnd1.
    { destruct Hkeys as [->|(t & _ & _ & Hnot & ->)]; [done|].
      apply NoDup_app. split_and!; [done| |apply NoDup_singleton].
      intros x Hx ->%list_elem_of_singleton. done. }
    destruct (IH _ H Hall1 Hnd1) as (Hall' & Hnd' & Hiff).
    split_and!; [done..|]. intros t. rewrite Hiff. split.
    + intros [Ht|(Hne & r & Hr & Hs)].
      * destruct Hkeys as [Hk|(t' & Ht' & Hne' & _ & Hk)]; rewrite Hk in Ht.
        -- by left.
        -- apply elem_of_app in Ht as [?|Ht]; [by left|].
           apply list_elem_of_singleton in Ht as ->.
           right. split; [done|]. exists row. split; [apply elem_of_cons|]; eauto.
      * right. split; [done|]. exists r. split; [apply elem_of_cons|]; eauto.
    + intros [Ht|(Hne & r & Hr & Hs)].
      * left. destruct Hkeys as [->|(t' & _ & _ & _ & ->)]; [done|].
        apply elem_of_app. by left.
      * apply elem_of_cons in Hr as [->|Hr]; [left; by apply Hin1|].
        right. eauto.
Qed.

Lemma row_get_complete row k dflt :
  row_complete row = true → ∃ s, row_get row k dflt = VStr s.
Proof.
  unfold row_complete, row_get. intros Hc%bool_decide_eq_true.
  destruct (row !! k) as [cell|] eqn:Hk; [|eauto].
  destruct (Hc _ _ Hk) as [s ->]. eauto.
Qed.

Lemma update_event_total events_dict title f :
  title ∈ events_dict.*1 →
  Forall (λ d, ∃ d', f d = Ret d') events_dict.*2 →
  ∃ events_dict', update_event events_dict title f = Ret events_dict'.
Proof.
  induction events_dict as [|[t d] rest IH]; intros Hin Hall;
    [by apply elem_of_nil in Hin|].
  rewrite fmap_cons in Hin. rewrite fmap_cons in Hall.
  apply Forall_cons in Hall as [[d' Hd] Hall].
  simpl in *. destruct (String.eqb t title) eqn:He.
  - rewrite Hd. eauto.
  - apply String.eqb_neq in He.
    apply elem_of_cons in Hin as [?|Hin]; [congruence|].
    destruct (IH Hin Hall) as [rest' ->]. eauto.
Qed.

Lemma sources_append_total source (d : pydict) :
  lacks_geo d → ∃ d', sources_append source d = Ret d'.
Proof.
  intros (_ & _ & _ & [l Hl] & _). unfold sources_append. rewrite Hl. eauto.
Qed.

Lemma csv_row_step_complete events_dict row :
  row_complete row = true →
  Forall lacks_geo events_dict.*2 →
  ∃ events_dict', csv_row_step events_dict row = Ret events_dict'.
Proof.
  intros Hc Hall.
  destruct (csv_row_step events_dict row) as [acc'|x] eqn:H; [eauto|].
  exfalso. unfold csv_row_step in H.
  repeat match type of H with
  | context [row_get row ?k ?dflt] =>
      let s := fresh "s" in let Hs := fresh "Hs" in
      destruct (row_get_complete row k dflt Hc) as [s Hs];
      rewrite Hs in H; clear Hs
  end.
  cbn [py_strip raising mbind flow_bind] in H.
  match type of H with context [return_if (String.eqb ?t "")] =>
    set (title := t) in *
  end.
  destruct (String.eqb title "") eqn:Hne; [done|].
  apply String.eqb_neq in Hne.
  cbn [return_if mbind flow_bind] in H.
  match type of H with call (?m ≫= ?k) = _ => set (K := k) in H end.
  assert (∃ acc, Forall lacks_geo acc.*2 ∧ title ∈ acc.*1
                 ∧ call (K acc) = Raise x) as (acc & Hacc & Hin & H').
  { case_bool_decide as Hseen.
    - exists events_dict. by split_and!.
    - eexists. split_and!; [| |exact H].
      + rewrite fmap_app. apply Forall_app. split; [done|].
        constructor; [|done]. unfold lacks_geo.
        split_and!; [by exists title|by eexists..|done].
      + rewrite fmap_app, elem_of_app. right. by apply list_elem_of_singleton. }
  clear H. subst K. cbv beta in H'.
  match type of H' with context [update_event acc ?t ?f] =>
    destruct (update_event_total acc t f Hin) as [acc' Hu]
  end.
  { eapply Forall_impl; [exact Hacc|]. intros d. apply sources_append_total. }
  rewrite Hu in H'.
  repeat match type of H' with
  | context [String.eqb ?a ?b] => destruct (String.eqb a b)
  end; done.
Qed.

End CsvFacts.

Section CsvRuns.
Context {conv : PyConv} {txt : PyText}.

Lemma csv_rows_complete events_dict rows :
  Forall (λ row, row_complete row = true) rows →
  Forall lacks_geo events_dict.*2 → NoDup events_dict.*1 →
  ∃ events_dict', csv_rows events_dict rows = Ret events_dict'.
Proof.
  intros Hrows. revert events_dict.
  induction Hrows as [|row rows Hrow _ IH]; intros acc Hall Hnd; simpl; [eauto|].
  destruct (csv_row_step_complete acc row Hrow Hall) as [acc1 Hstep].
  rewrite Hstep.
  destruct (csv_rows_inv acc [row] acc1) as (Hall1 & Hnd1 & _); [|done..|].
  { simpl. by rewrite Hstep. }
  by apply IH.
Qed.

Lemma alloc_all_run {R} vs w :
  ∃ os h,
    (alloc_all vs : M R (list nat)) w = (Next os, with_heap (λ _, h) w)
    ∧ heap w ⊆ h
    ∧ Forall2 (λ o v, h !! o = Some v) os vs.
Proof.
  revert w. induction vs as [|v vs IH]; intros w.
  - exists [], (heap w). split_and!; [|done|constructor].
    by destruct w.
  - simpl. rewrite bind_run. unfold alloc at 1. cbv beta iota zeta.
    set (o := fresh (dom (heap w))).
    destruct (IH (with_heap (<[o := v]>) w)) as (os & h & Hrun & Hsub & Hall).
    rewrite bind_run, Hrun. cbv beta iota. rewrite mret_run.
    assert (heap w !! o = None) as Hfresh.
    { apply not_elem_of_dom. apply is_fresh. }
    simpl in Hsub.
    exists (o :: os), h. split_and!.
    + done.
    + etrans; [|exact Hsub]. by apply insert_subseteq.
    + constructor; [|done]. eapply lookup_weaken; [|exact Hsub].
      apply lookup_insert_eq.
Qed.

Lemma ingest_batch_all_rejected events user_id w :
  Forall (λ o, ∃ ev msg, heap w !! o = Some ev
                         ∧ validate_event ev = Ret (false, msg)) events →
  ∃ w', ingest_batch events user_id w = (Ret (stats w'), w')
    ∧ conn w' = conn w ∧ heap w' = heap w ∧ next_uuid w' = next_uuid w
    ∧ stats w'
      = {| events_created := events_created (stats w);
           sources_created := sources_created (stats w);
           events_skipped := events_skipped (stats w) + Z.of_nat (length events);
           image_urls_replaced := image_urls_replaced (stats w);
           errors := errors (stats w) |}.
Proof.
  revert w. induction events as [|o os IH]; intros w Hall.
  - exists w. rewrite ingest_batch_run. simpl. split_and!; try done.
    destruct (stats w); simpl. f_equal. lia.
  - apply Forall_cons in Hall as [(ev & msg & Hh & Hv) Hall].
    rewrite ingest_batch_cons_run, (ingest_invalid _ _ _ _ _ Hh Hv).
    destruct (IH (with_stats incr_events_skipped w)) as (w' & -> & Hc & Hp & Hn & Hs);
      [done|].
    exists w'. split_and!; try done. rewrite Hs. simpl. f_equal.
    rewrite Nat2Z.inj_succ. lia.
Qed.

(** What [ingest_from_csv_file] does with the candidates it has built. *)
Lemma csv_batch_run (events_dict : list (string * pydict)) user_id w :
  Forall lacks_geo events_dict.*2 →
  ∃ w',
    ((alloc_all (VDict <$> events_dict.*2) ≫= λ events,
      invoke (ingest_batch events user_id) ≫= λ s,
      return_now s) : M statistics statistics) w
    = (Return (stats w'), w')
    ∧ conn w' = conn w ∧ heap w ⊆ heap w' ∧ next_uuid w' = next_uuid w
    ∧ stats w'
      = {| events_created := events_created (stats w);
           sources_created := sources_created (stats w);
           events_skipped :=
             events_skipped (stats w) + Z.of_nat (length events_dict);
           image_urls_replaced := image_urls_replaced (stats w);
           errors := errors (stats w) |}.
Proof.
  intros Hall.
  destruct (alloc_all_run (R := statistics) (VDict <$> events_dict.*2) w)
    as (os & h & Hrun & Hsub & Hobj).
  rewrite bind_run, Hrun. cbv beta iota.
  destruct (ingest_batch_all_rejected os user_id (with_heap (λ _, h) w))
    as (w' & Hb & Hc & Hp & Hn & Hs).
  { clear -Hall Hobj. simpl.
    remember (VDict <$> events_dict.*2) as vs eqn:Hvs.
    assert (Forall (λ v, ∃ d, v = VDict d ∧ lacks_geo d) vs) as Hvs'.
    { subst vs. apply Forall_fmap. eapply Forall_impl; [exact Hall|].
      simpl. eauto. }
    clear Hvs Hall. induction Hobj as [|o v os vs Ho _ IH]; [done|].
    apply Forall_cons in Hvs' as [(d & -> & Hd) Hvs'].
    constructor; [|by apply IH].
    eexists (VDict d), _. split; [done|]. by apply lacks_geo_rejected. }
  rewrite bind_run. unfold invoke at 1. rewrite Hb. cbv beta iota.
  unfold return_now. exists w'. simpl in *.
  apply Forall2_length in Hobj. rewrite !length_fmap in Hobj.
  rewrite Hs, Hp, Hobj. by split_and!.
Qed.

Lemma ingest_from_csv_file_rows rows file_path user_id w :
  match csv_rows [] rows with
  | Ret events_dict =>
      ∃ w', ingest_from_csv_file (Some rows) file_path user_id w
            = (Ret (stats w'), w')
        ∧ conn w' = conn w ∧ heap w ⊆ heap w' ∧ next_uuid w' = next_uuid w
        ∧ stats w'
          = {| events_created := events_created (stats w);
               sources_created := sources_created (stats w);
               events_skipped :=
                 events_skipped (stats w) + Z.of_nat (length events_dict);
               image_urls_replaced := image_urls_replaced (stats w);
               errors := errors (stats w) |}
  | Raise x =>
      ingest_from_csv_file (Some rows) file_path user_id w
      = (Ret (append_error (str_exn x) (stats w)),
         with_stats (append_error (str_exn x)) w)
  end.
Proof.
  unfold ingest_from_csv_file, call_m, try_except_exception.
  destruct (csv_rows [] rows) as [acc|x] eqn:Hrows.
  - destruct (csv_rows_inv [] rows acc Hrows) as (Hall & _); [constructor..|].
    rewrite bind_run, lift_Ret_run. cbv beta iota.
    destruct (csv_batch_run acc user_id w Hall) as (w' & -> & Hrest).
    by exists w'.
  - by rewrite bind_run, lift_Raise_run.
Qed.

End CsvRuns.

(** * Properties of [ingest_from_csv_file] *)

(** X21.  Nothing is ever ingested from a CSV file.  The candidates the
    loader builds have no [latitude] key, which [validate_event] requires,
    so every one of them is rejected; whatever the file holds, whatever the
    mode, the call returns the statistics with the created-event,
    created-source and replaced-image counters unchanged, sends no
    statement (the connection is untouched), draws no identifier and
    leaves every object of the heap as it was. *)
Theorem csv_file_creates_nothing {conv : PyConv} {txt : PyText}
    file file_path user_id w :
  ∃ w',
    ingest_from_csv_file file file_path user_id w = (Ret (stats w'), w')
    ∧ events_created (stats w') = events_created (stats w)
    ∧ sources_created (stats w') = sources_created (stats w)
    ∧ image_urls_replaced (stats w') = image_urls_replaced (stats w)
    ∧ conn w' = conn w
    ∧ next_uuid w' = next_uuid w
    ∧ heap w ⊆ heap w'.
Proof.
  destruct file as [rows|]; [|by eexists (with_stats _ w)].
  pose proof (ingest_from_csv_file_rows rows file_path user_id w) as H.
  destruct (csv_rows [] rows) as [acc|x].
  - destruct H as (w' & -> & Hc & Hh & Hn & Hs). exists w'. rewrite Hs.
    by split_and!.
  - rewrite H. by eexists (with_stats _ w).
Qed.

(** X22.  A CSV file whose rows have every cell yields one candidate per
    distinct non-empty stripped title, each of which is rejected: the skip
    counter grows by the number of such titles and the error list is left
    as it was, so the run reports no error although nothing was
    ingested. *)
Theorem csv_file_skips_every_title {conv : PyConv} {txt : PyText}
    rows file_path user_id w :
  Forall (λ row, row_complete row = true) rows →
  ∃ titles w',
    ingest_from_csv_file (Some rows) file_path user_id w = (Ret (stats w'), w')
    ∧ NoDup titles
    ∧ (∀ t, t ∈ titles
            ↔ t ≠ "" ∧ ∃ row, row ∈ rows
                         ∧ py_strip (row_get row "title" "") = Ret t)
    ∧ events_skipped (stats w')
      = events_skipped (stats w) + Z.of_nat (length titles)
    ∧ errors (stats w') = errors (stats w).
Proof.
  intros Hrows.
  destruct (csv_rows_complete [] rows Hrows) as [acc Hacc]; [constructor..|].
  destruct (csv_rows_inv [] rows acc Hacc) as (_ & Hnd & Hiff); [constructor..|].
  pose proof (ingest_from_csv_file_rows rows file_path user_id w) as H.
  rewrite Hacc in H. destruct H as (w' & -> & _ & _ & _ & Hs).
  exists acc.*1, w'. rewrite Hs, length_fmap. simpl.
  split_and!; try done.
  intros t. rewrite Hiff. split; [|eauto].
  intros [Hin|?]; [|done]. by apply elem_of_nil in Hin.
Qed.

Lemma csv_file_skips_every_title_witness :
  ∃ titles w',
    ingest_from_csv_file (conv := ascii_conv) (txt := ascii_text)
      (Some csv_sample) "events.csv" None (sample_world false [] [])
    = (Ret (stats w'), w')
    ∧ NoDup titles
    ∧ (∀ t, t ∈ titles
            ↔ t ≠ "" ∧ ∃ row, row ∈ csv_sample
                         ∧ py_strip (txt := ascii_text) (row_get row "title" "")
                           = Ret t)
    ∧ events_skipped (stats w')
      = events_skipped (stats (sample_world false [] []))
        + Z.of_nat (length titles)
    ∧ errors (stats w') = errors (stats (sample_world false [] [])).
Proof.
  apply (csv_file_skips_every_title (conv := ascii_conv) (txt := ascii_text)
           csv_sample "events.csv" None (sample_world false [] [])).
  repeat constructor.
Defined.

(** X23.  One short row discards the whole file.  When a row has no cell
    under [title] (the line was shorter than the header), the loader's
    [strip] raises on it, the handler records the exception's text as an
    error and returns: no candidate is handed to the batch, not even those
    of the rows before, so no counter other than the error list moves. *)
Theorem csv_short_row_discards_file {conv : PyConv} {txt : PyText}
    good bad rest file_path user_id w :
  Forall (λ row, row_complete row = true) good →
  bad !! "title" = Some None →
  ingest_from_csv_file (Some (good ++ bad :: rest)) file_path user_id w
  = (Ret (append_error (str_exn AttributeError) (stats w)),
     with_stats (append_error (str_exn AttributeError)) w).
Proof.
  intros Hgood Hbad.
  pose proof (ingest_from_csv_file_rows (good ++ bad :: rest) file_path
                user_id w) as H.
  assert (csv_rows [] (good ++ bad :: rest) = Raise AttributeError) as Hr.
  { assert (∀ acc, Forall lacks_geo acc.*2 → NoDup acc.*1 →
              csv_rows acc (good ++ bad :: rest) = Raise AttributeError) as Hgen.
    { clear H. induction Hgood as [|row good Hrow _ IH]; intros acc Hall Hnd.
      - simpl. unfold csv_row_step, row_get. by rewrite Hbad.
      - simpl.
        destruct (csv_row_step_complete acc row Hrow Hall) as [acc1 Hstep].
        rewrite Hstep.
        destruct (csv_rows_inv acc [row] acc1) as (Hall1 & Hnd1 & _); [|done..|].
        { simpl. by rewrite Hstep. }
        by apply IH. }
    apply Hgen; constructor. }
  by rewrite Hr in H.
Qed.

Lemma csv_short_row_discards_file_witness :
  ingest_from_csv_file (conv := ascii_conv) (txt := ascii_text)
    (Some (csv_sample ++ {[ "title" := None ]} :: csv_sample))
    "events.csv" None (sample_world false [] [])
  = (Ret (append_error (str_exn (txt := ascii_text) AttributeError)
            (stats (sample_world false [] []))),
     with_stats (append_error (str_exn (txt := ascii_text) AttributeError))
       (sample_world false [] [])).
Proof.
  apply (csv_short_row_discards_file (conv := ascii_conv) (txt := ascii_text)
           csv_sample {[ "title" := None ]} csv_sample "events.csv" None
           (sample_world false [] [])).
  - repeat constructor.
  - reflexivity.
Defined.
